(** * NirmaanAI: the plan-generation and refinement orchestrator of [index.tsx]

    A shallow embedding of the logic of [src/index.tsx]: the financial
    helpers of [PlanDashboard] ([parseCurrency], the break-even
    computation and its display), the [startAnalysis] pipeline of [Hero],
    the [handleRefine] and [handleVerifyLegal] handlers of [PlanDashboard],
    and the [App] component that switches between the two screens.

    Conventions.
    - JavaScript numbers are IEEE 754 binary64 values, taken from the
      Standard Library's [SpecFloat] with [prec = 53] and [emax = 1024].
    - JavaScript strings are [string]s holding the UTF-8 encoding of the
      text.  Every character the code inspects (digits, comma, period,
      white space) is examined through its UTF-8 encoding, and a position
      counted in UTF-16 code units is found by walking the encoding.
    - An [async] handler is a [Task]: the state-setter calls it makes up
      to its next [await], the request it awaits, and what it does with
      the reply. *)

From Stdlib Require Import ZArith Bool String Ascii List Lia.
From Stdlib Require Import Floats.SpecFloat.
From stdpp Require Import gmap strings list fin_maps.

Set Default Proof Using "Type".

(* ===================================================================== *)
(** * Part I. Definitions                                                 *)
(* ===================================================================== *)

(** ** JavaScript values used by the code *)

Module JS.

(** *** Numbers: IEEE 754 binary64 *)

Definition prec : Z := 53.
Definition emax : Z := 1024.

Definition number : Type := spec_float.

Definition NaN : number := S754_nan.
Definition Infinity : number := S754_infinity false.

(** The binary64 value of an integer literal (rounded to nearest even). *)
Definition of_Z (z : Z) : number := binary_normalize prec emax z 0 false.

Definition valid (x : number) : bool := valid_binary prec emax x.

Definition sub (x y : number) : number := SFsub prec emax x y.
Definition add (x y : number) : number := SFadd prec emax x y.
Definition div (x y : number) : number := SFdiv prec emax x y.

(** [x == y], [x < y], [x <= y] and [x > y] on numbers. *)
Definition eqb (x y : number) : bool := SFeqb x y.
Definition ltb (x y : number) : bool := SFltb x y.
Definition leb (x y : number) : bool := SFleb x y.
Definition gtb (x y : number) : bool := SFltb y x.

(** [isFinite(x)] for a number [x]. *)
Definition isFinite (x : number) : bool :=
  match x with
  | S754_zero _ | S754_finite _ _ _ => true
  | S754_infinity _ | S754_nan => false
  end.

(** [Math.ceil(x)]: the least integer not below [x]; NaN, the infinities
    and the zeros are returned as they are, and a negative [x] above
    [-1] gives [-0]. *)
Definition Math_ceil (x : number) : number :=
  match x with
  | S754_finite s m e =>
      if (0 <=? e)%Z then x
      else
        let q := Z.shiftr (Zpos m) (- e) in
        let exact := (Z.shiftl q (- e) =? Zpos m)%Z in
        if s then
          if (q =? 0)%Z then S754_zero true
          else binary_normalize prec emax (- q) 0 true
        else binary_normalize prec emax (if exact then q else q + 1) 0 false
  | _ => x
  end.

(** Classes of numbers used to state properties. *)

(** [x] carries the sign [s], or is NaN. *)
Definition signed_or_nan (s : bool) (x : number) : Prop :=
  match x with
  | S754_zero s' | S754_infinity s' | S754_finite s' _ _ => s' = s
  | S754_nan => True
  end.

(** [x] is a finite number above zero. *)
Definition positive_finite (x : number) : bool :=
  match x with
  | S754_finite false _ _ => true
  | _ => false
  end.

(** [x] is zero, a finite number above zero or [+Infinity]. *)
Definition nonnegative (x : number) : Prop :=
  match x with
  | S754_zero _ | S754_finite false _ _ | S754_infinity false => True
  | _ => False
  end.

(** The difference of two aligned mantissas, as [SFsub] forms it. *)
Definition aligned_difference (s1 : bool) (m1 : positive) (e1 : Z)
    (s2 : bool) (m2 : positive) (e2 : Z) : Z :=
  (cond_Zopp s1 (Z.pos (fst (shl_align m1 e1 (Z.min e1 e2))))
   - cond_Zopp s2 (Z.pos (fst (shl_align m2 e2 (Z.min e1 e2)))))%Z.

(** *** Strings *)

(** A string is falsy exactly when it is empty. *)
Definition truthy (s : string) : bool :=
  match s with EmptyString => false | String _ _ => true end.

(** [a || b] where [a] may be [undefined]. *)
Definition or_else (a : option string) (b : string) : string :=
  match a with
  | Some s => if truthy s then s else b
  | None => b
  end.

(** A value interpolated into a template literal: [undefined] prints as
    the text "undefined". *)
Definition interpolate (a : option string) : string :=
  match a with Some s => s | None => "undefined" end.

Definition byte (c : ascii) : N := N_of_ascii c.

(** The high surrogate of the character encoded by the four bytes
    [b0 b1 b2 b3], written in the three-byte form of its own code point. *)
Definition high_surrogate (b0 b1 b2 b3 : N) : string :=
  let cp := (N.land b0 7 * 262144 + N.land b1 63 * 4096
             + N.land b2 63 * 64 + N.land b3 63)%N in
  let high := (55296 + N.shiftr (cp - 65536) 10)%N in
  String (ascii_of_N 237)
    (String (ascii_of_N (128 + N.land (N.shiftr high 6) 63))
       (String (ascii_of_N (128 + N.land high 63)) EmptyString)).

(** The first [units] UTF-16 code units of [s].  A character of one to
    three bytes is one unit and a character of four bytes is two, a
    surrogate pair; [pending] counts the bytes of the current character
    still to be copied.  When the cut falls between the two units of a
    pair, the high surrogate is kept alone. *)
Fixpoint take_units (units pending : nat) (s : string) {struct s} : string :=
  match s with
  | EmptyString => EmptyString
  | String c r =>
      match pending with
      | S k => String c (take_units units k r)
      | O =>
          match units with
          | O => EmptyString
          | S u =>
              let b := byte c in
              if (b <? 192)%N then String c (take_units u 0 r)
              else if (b <? 224)%N then String c (take_units u 1 r)
              else if (b <? 240)%N then String c (take_units u 2 r)
              else
                match u with
                | S u' => String c (take_units u' 3 r)
                | O =>
                    match r with
                    | String c1 (String c2 (String c3 _)) =>
                        high_surrogate b (byte c1) (byte c2) (byte c3)
                    | _ => EmptyString
                    end
                end
          end
      end
  end.

(** [s.substring(0, finish)] *)
Definition substring0 (finish : nat) (s : string) : string :=
  take_units finish 0 s.

(** [ws_prefix s] removes one white-space character or line terminator
    from the front of [s], if there is one.  The characters are those of
    [String.prototype.trim]: U+0009..U+000D, U+0020, U+00A0, U+1680,
    U+2000..U+200A, U+2028, U+2029, U+202F, U+205F, U+3000 and U+FEFF,
    each in its UTF-8 encoding. *)
Definition ws_prefix (s : string) : option string :=
  match s with
  | String a r1 =>
      let x := byte a in
      if ((9 <=? x) && (x <=? 13) || (x =? 32))%N then Some r1
      else
        match r1 with
        | String b r2 =>
            let y := byte b in
            if ((x =? 194) && (y =? 160))%N then Some r2
            else
              match r2 with
              | String c r3 =>
                  let z := byte c in
                  if ((x =? 225) && (y =? 154) && (z =? 128)
                      || (x =? 226) && (y =? 128)
                         && ((128 <=? z) && (z <=? 138)
                             || (z =? 168) || (z =? 169) || (z =? 175))
                      || (x =? 226) && (y =? 129) && (z =? 159)
                      || (x =? 227) && (y =? 128) && (z =? 128)
                      || (x =? 239) && (y =? 187) && (z =? 191))%N
                  then Some r3 else None
              | EmptyString => None
              end
        | EmptyString => None
        end
  | EmptyString => None
  end.

(** [blank s]: [s] consists of white space only. *)
Fixpoint blank_fuel (n : nat) (s : string) : bool :=
  match s with
  | EmptyString => true
  | _ =>
      match n with
      | O => false
      | S n' =>
          match ws_prefix s with
          | Some r => blank_fuel n' r
          | None => false
          end
      end
  end.

Definition blank (s : string) : bool := blank_fuel (String.length s) s.

Fixpoint trimStart_fuel (n : nat) (s : string) : string :=
  match n with
  | O => s
  | S n' =>
      match ws_prefix s with
      | Some r => trimStart_fuel n' r
      | None => s
      end
  end.

Definition trimStart (s : string) : string :=
  trimStart_fuel (String.length s) s.

(** The text without its trailing white space: the text is cut at the
    first position from which only white space follows. *)
Fixpoint trimEnd (s : string) : string :=
  match s with
  | EmptyString => EmptyString
  | String a r => if blank s then EmptyString else String a (trimEnd r)
  end.

(** [s.trim()] *)
Definition trim (s : string) : string := trimEnd (trimStart s).

(** *** The regular expression [/[\d,.]+/] and [parseFloat] *)

Definition is_digit (c : ascii) : bool :=
  ((48 <=? byte c) && (byte c <=? 57))%N.

(** The character class [[\d,.]]. *)
Definition in_class (c : ascii) : bool :=
  is_digit c || (byte c =? 44)%N || (byte c =? 46)%N.

Fixpoint take_while (p : ascii -> bool) (s : string) : string :=
  match s with
  | String c r => if p c then String c (take_while p r) else EmptyString
  | EmptyString => EmptyString
  end.

Fixpoint drop_while (p : ascii -> bool) (s : string) : string :=
  match s with
  | String c r => if p c then drop_while p r else s
  | EmptyString => EmptyString
  end.

(** Every character of [s] satisfies [p]. *)
Fixpoint all_chars (p : ascii -> bool) (s : string) : bool :=
  match s with
  | String c r => p c && all_chars p r
  | EmptyString => true
  end.

(** [str.match(/[\d,.]+/)]: the leftmost, longest run of characters of
    the class; [None] is the [null] of a failed match. *)
Fixpoint match_run (s : string) : option string :=
  match s with
  | EmptyString => None
  | String c r =>
      if in_class c then Some (String c (take_while in_class r))
      else match_run r
  end.

(** [m.replace(/,/g, '')] *)
Fixpoint remove_commas (s : string) : string :=
  match s with
  | EmptyString => EmptyString
  | String c r =>
      if (byte c =? 44)%N then remove_commas r else String c (remove_commas r)
  end.

(** The value of a run of decimal digits, most significant first. *)
Fixpoint digits_value (acc : Z) (s : string) : Z :=
  match s with
  | EmptyString => acc
  | String c r => digits_value (10 * acc + (Z.of_N (byte c) - 48)) r
  end.

(** The binary64 value nearest to [m / 10^k] for [m >= 0]. *)
Definition decimal (m : Z) (k : nat) : number :=
  match m with
  | Z0 => S754_zero false
  | _ =>
      match k with
      | O => of_Z m
      | _ =>
          let '(q, e, l) := SFdiv_core_binary prec emax m 0 (10 ^ Z.of_nat k) 0 in
          binary_round_aux prec emax false q e l
      end
  end.

(** [parseFloat(s)] on the strings [parseCurrency] passes to it: they
    hold digits and periods only (see [parseCurrency_argument]), so the
    sign, the exponent part, [Infinity] and leading white space of the
    full grammar cannot occur.  The longest prefix of the form
    [digits], [digits.], [digits.digits] or [.digits] is converted;
    when there is none the result is NaN. *)
Definition parseFloat (s : string) : number :=
  let int_part := take_while is_digit s in
  let rest := drop_while is_digit s in
  let frac_part :=
    match rest with
    | String c r => if (byte c =? 46)%N then take_while is_digit r else EmptyString
    | EmptyString => EmptyString
    end in
  if truthy int_part || truthy frac_part then
    decimal (digits_value 0 (int_part +:+ frac_part)) (String.length frac_part)
  else NaN.

End JS.

(** ** The financial helpers of [PlanDashboard] *)

Module Finance.
Import JS.

(** [parseCurrency]: the first run of digits, commas and periods, read
    as a number once the commas are removed; [0] for an empty string and
    for a string without such a run. *)
Definition parseCurrency (str : string) : number :=
  if negb (truthy str) then of_Z 0
  else
    match match_run str with
    | Some m => parseFloat (remove_commas m)
    | None => of_Z 0
    end.

(** [Math.ceil(customFixedCost / (customPrice - customVariableCost))] *)
Definition breakEvenUnits (price variableCost fixedCost : number) : number :=
  Math_ceil (div fixedCost (sub price variableCost)).

(** What the calculator shows:
    [isFinite(breakEvenUnits) && breakEvenUnits > 0 ? breakEvenUnits : "∞"]. *)
Inductive Shown : Type :=
| ShownUnits (n : number)
| ShownUnbounded.

Definition breakEvenDisplay (units : number) : Shown :=
  if isFinite units && gtb units (of_Z 0) then ShownUnits units
  else ShownUnbounded.

(** The calculator's initial fixed cost: the sum of the parsed entries of
    [fixed_costs_monthly], [reduce((acc, str) => acc + parseCurrency(str), 0)]. *)
Definition totalFixedCost (costs : list string) : number :=
  fold_left (fun acc str => add acc (parseCurrency str)) costs (of_Z 0).

End Finance.

(** ** The data model: the interfaces declared at the top of [index.tsx] *)

Module Model.
Import JS.

(** A JSON value, as [JSON.parse] returns it. *)
#[warnings="-register-all"]
Inductive Json : Type :=
| JNull
| JBool (b : bool)
| JNum (n : number)
| JStr (s : string)
| JArr (items : list Json)
| JObj (props : gmap string Json).

Record VendorScript : Type := {
  context : string;
  script : string;
  tone : option string
}.

Record MarketInsights : Type := {
  opportunities : list string;
  seasonal_trends : list string;
  underserved_niches : list string;
  competitor_pricing : string;
  rental_costs : string;
  supply_chain_options : list string;
  utility_costs : string;
  govt_subsidies : list string
}.

(** An entry of [legal_requirements].  [handleVerifyLegal] merges the
    backend's reply into an entry with object spread, and the reply may
    hold any subset of the properties, so an entry is kept as the
    JavaScript object it is: a finite map from property names to
    values.  The interface [RegulatoryDetail] names the properties
    [name], [step_by_step], [estimated_cost], [processing_time],
    [documents_required], [learn_more_url], [local_authority_details]. *)
Abbreviation RegulatoryDetail := (gmap string Json).

Record MonthlyProjection : Type := {
  month : number;
  revenue : number;
  expense : number;
  profit : number
}.

Record FinancialBreakdown : Type := {
  fixed_costs_monthly : list string;
  variable_costs_per_unit : string;
  profit_margin_per_unit : string;
  break_even_analysis : string;
  break_even_learn_more_url : option string;
  financial_projections_year_1 : list MonthlyProjection
}.

Record BudgetEstimate : Type := {
  min : number;
  max : number;
  currency : string
}.

Record BusinessOutline : Type := {
  products : list string;
  target_customers : string;
  timing : string
}.

Record BusinessPlan : Type := {
  idea_summary : string;
  target_location : string;
  budget_estimate : BudgetEstimate;
  business_plan : BusinessOutline;
  market_insights : MarketInsights;
  financial_breakdown : FinancialBreakdown;
  marketing_strategy : list string;
  setup_checklist : list string;
  legal_requirements : list RegulatoryDetail;
  vendor_scripts : list VendorScript;
  estimated_daily_profit : string;
  optimization_suggestions : list string
}.

Inductive Role : Type := user | ai.

Inductive Feedback : Type := up | down.

Record ChatMessage : Type := {
  role : Role;
  text : string;
  feedback : option Feedback
}.

Definition userMessage (t : string) : ChatMessage :=
  {| role := user; text := t; feedback := None |}.

Definition aiMessage (t : string) : ChatMessage :=
  {| role := ai; text := t; feedback := None |}.

Record AnalysisResult : Type := {
  is_sufficient : bool;
  clarification_question : option string;
  search_query : option string;
  identified_location : option string;
  identified_business : option string;
  detected_language : option string
}.

End Model.

(** ** The generative backend and asynchronous handlers *)

Module Backend.
Import JS Model.

(** A call of [ai.models.generateContent].  Each constructor stands for
    one of the prompts of the source and carries the values the prompt
    interpolates; the research call's [contents] is the query itself. *)
Inductive Request : Type :=
| AnalyzeIntent (historyText language : string)
| Research (researchQuery : string)
| GeneratePlan (historyText language : string)
               (researchContext identified_location : option string)
| RefinePlan (currentPlan : BusinessPlan) (history : list string)
             (userMsg : string)
| VerifyLegal (name : option Json) (target_location : string).

(** What an awaited call gives back: the promise rejects, or it resolves
    to a response whose [text] is a string or [undefined]. *)
Inductive Reply : Type :=
| Rejected
| Resolved (text : option string).

(** [JSON.parse] followed by the cast to the expected interface.  [None]
    stands for the exception thrown on text that is not JSON.  The source
    checks nothing else about the parsed value: like the cast, the result
    type takes the document to have the shape the interface declares.
    Text that is JSON of another shape ([null], an object that lacks a
    property) has no counterpart here, so what the handlers do with such
    a value (a [null] plan is handed to [onPlanGenerated] as it is) is not
    covered.  The properties hold for every parser of this type. *)
Class Parser : Type := {
  parseAnalysis : string -> option AnalysisResult;
  parsePlan : string -> option BusinessPlan;
  parseRegulatoryDetail : string -> option RegulatoryDetail
}.

(** [JSON.parse(response.text!)]: an [undefined] text is not JSON. *)
Definition parseText {A : Type} (parse : string -> option A)
    (text : option string) : option A :=
  match text with
  | Some t => parse t
  | None => None
  end.

(** An [async] handler, cut at its [await]s.  [Finish acts]: the handler
    makes the state-setter calls [acts] and returns.  [Await acts req k]:
    it makes the calls [acts], issues [req] and continues as [k] of the
    reply. *)
Inductive Task (A : Type) : Type :=
| Finish (acts : list A)
| Await (acts : list A) (req : Request) (k : Reply -> Task A).

Arguments Finish {A} acts.
Arguments Await {A} acts req k.

(** The trace of a handler run against the replies it receives, in
    order: the setter calls it made, the requests it issued, and whether
    it returned (it has not when it still awaits a reply). *)
Record Trace (A : Type) : Type := {
  actions : list A;
  requests : list Request;
  returned : bool
}.

Arguments actions {A} t.
Arguments requests {A} t.
Arguments returned {A} t.

Fixpoint run {A : Type} (t : Task A) (replies : list Reply) : Trace A :=
  match t with
  | Finish acts => {| actions := acts; requests := []; returned := true |}
  | Await acts req k =>
      match replies with
      | [] => {| actions := acts; requests := [req]; returned := false |}
      | r :: rest =>
          let tr := run (k r) rest in
          {| actions := acts ++ actions tr;
             requests := req :: requests tr;
             returned := returned tr |}
      end
  end.

End Backend.

(** ** The [Hero] component: the conversation state machine *)

Module Hero.
Import JS Model Backend.

Inductive ProcessingState : Type :=
| idle
| analyzing
| researching
| generating.

(** The component state read or written by [startAnalysis]. *)
Record State : Type := {
  transcript : string;
  language : string;
  messages : list ChatMessage;
  processingState : ProcessingState;
  thinkingSteps : list string;
  activeStepIndex : nat
}.

(** The state of a freshly mounted component. *)
Definition initial : State :=
  {| transcript := "";
     language := "auto";
     messages := [];
     processingState := idle;
     thinkingSteps := [];
     activeStepIndex := 0 |}.

(** The calls [startAnalysis] makes on its surroundings: the setters of
    its own state and the [onPlanGenerated] callback of its parent.
    [setMessages_prev ms] is [setMessages(prev => [...prev, ...ms])]. *)
Inductive Action : Type :=
| setTranscript (s : string)
| setMessages (ms : list ChatMessage)
| setMessages_prev (ms : list ChatMessage)
| setProcessingState (p : ProcessingState)
| setThinkingSteps (steps : list string)
| setActiveStepIndex (n : nat)
| onPlanGenerated (plan : BusinessPlan).

(** The effect of a setter call on the component state;
    [onPlanGenerated] belongs to the parent and leaves it as it is. *)
Definition apply (s : State) (a : Action) : State :=
  match a with
  | setTranscript t =>
      {| transcript := t; language := language s; messages := messages s;
         processingState := processingState s;
         thinkingSteps := thinkingSteps s;
         activeStepIndex := activeStepIndex s |}
  | setMessages ms =>
      {| transcript := transcript s; language := language s; messages := ms;
         processingState := processingState s;
         thinkingSteps := thinkingSteps s;
         activeStepIndex := activeStepIndex s |}
  | setMessages_prev ms =>
      {| transcript := transcript s; language := language s;
         messages := messages s ++ ms;
         processingState := processingState s;
         thinkingSteps := thinkingSteps s;
         activeStepIndex := activeStepIndex s |}
  | setProcessingState p =>
      {| transcript := transcript s; language := language s;
         messages := messages s; processingState := p;
         thinkingSteps := thinkingSteps s;
         activeStepIndex := activeStepIndex s |}
  | setThinkingSteps steps =>
      {| transcript := transcript s; language := language s;
         messages := messages s; processingState := processingState s;
         thinkingSteps := steps; activeStepIndex := activeStepIndex s |}
  | setActiveStepIndex n =>
      {| transcript := transcript s; language := language s;
         messages := messages s; processingState := processingState s;
         thinkingSteps := thinkingSteps s; activeStepIndex := n |}
  | onPlanGenerated _ => s
  end.

Definition applyAll (s : State) (acts : list Action) : State :=
  fold_left apply acts s.

(** The plans handed to the parent, in order. *)
Definition plansHanded (acts : list Action) : list BusinessPlan :=
  flat_map (fun a => match a with onPlanGenerated p => [p] | _ => [] end) acts.

(** [m.role.toUpperCase()] *)
Definition roleUpper (r : Role) : string :=
  match r with user => "USER" | ai => "AI" end.

Definition newline : string := String (ascii_of_N 10) EmptyString.
Definition dquote : string := String (ascii_of_N 34) EmptyString.

(** [parts.join('\n')] *)
Fixpoint joinLines (parts : list string) : string :=
  match parts with
  | [] => ""
  | [p] => p
  | p :: rest => p +:+ newline +:+ joinLines rest
  end.

(** [newMessages.map(m => `${m.role.toUpperCase()}: ${m.text}`).join('\n')] *)
Definition historyText (ms : list ChatMessage) : string :=
  joinLines (map (fun m => roleUpper (role m) +:+ ": " +:+ text m) ms).

Definition indent8 : string := "        ".

(** The query built when the analysis gave no [search_query]: the
    template literal of [startAnalysis], line by line. *)
Definition synthesizedQuery (business location : option string) : string :=
  let b := interpolate business in
  let l := interpolate location in
  newline
  +:+ indent8 +:+ "Start " +:+ b +:+ " in " +:+ l +:+ " India guide." +:+ newline
  +:+ indent8 +:+ "Find:" +:+ newline
  +:+ indent8 +:+ "1. Exact government permits fees and process (FSSAI, Trade license) for "
              +:+ b +:+ " in " +:+ l +:+ "." +:+ newline
  +:+ indent8 +:+ "2. Real estate rental listings for commercial shop in "
              +:+ l +:+ " price." +:+ newline
  +:+ indent8 +:+ "3. Wholesale rates for raw materials for "
              +:+ b +:+ " in " +:+ l +:+ "." +:+ newline
  +:+ indent8 +:+ "4. Competitor menu pricing." +:+ newline
  +:+ indent8 +:+ "5. Specific government schemes for street vendors or small business in "
              +:+ l +:+ "." +:+ newline
  +:+ "      ".

(** [analysis.search_query || `...`] *)
Definition researchQuery (analysis : AnalysisResult) : string :=
  or_else (search_query analysis)
          (synthesizedQuery (identified_business analysis)
                            (identified_location analysis)).

Definition clarificationFallback : string :=
  "Could you provide more details about the location or idea?".

Definition failureText : string :=
  "I encountered an error analyzing that. Could you try again?".

(** The [catch] block of [startAnalysis]. *)
Definition onError : Task Action :=
  Finish [setProcessingState idle; setMessages_prev [aiMessage failureText]].

Section WithParser.
Context {P : Parser}.

(** Step 3, after the research reply. *)
Definition generatePlan (history lang : string) (analysis : AnalysisResult)
    (researchContext : option string) : Task Action :=
  Await [setProcessingState generating;
         setThinkingSteps ["Research complete.";
                           "Synthesizing 50+ data points...";
                           "Calculating financial projections...";
                           "Drafting final consultant report..."];
         setActiveStepIndex 2]
        (GeneratePlan history lang researchContext (identified_location analysis))
        (fun planResponse =>
           match planResponse with
           | Rejected => onError
           | Resolved planText =>
               match parseText parsePlan planText with
               | Some plan => Finish [onPlanGenerated plan]
               | None => onError
               end
           end).

(** Step 2, after a sufficient analysis. *)
Definition research (history lang : string) (analysis : AnalysisResult)
    : Task Action :=
  let query := researchQuery analysis in
  Await [setProcessingState researching;
         setThinkingSteps
           ["Target Identified: " +:+ interpolate (identified_business analysis)
              +:+ " in " +:+ interpolate (identified_location analysis);
            "Running Search: " +:+ dquote +:+ substring0 60 query
              +:+ "..." +:+ dquote;
            "Analyzing real-time market data..."];
         setActiveStepIndex 1]
        (Research query)
        (fun researchResponse =>
           match researchResponse with
           | Rejected => onError
           | Resolved researchContext =>
               generatePlan history lang analysis researchContext
           end).

(** What [startAnalysis] does with the analysis reply. *)
Definition afterAnalysis (history lang : string) (analysisResponse : Reply)
    : Task Action :=
  match analysisResponse with
  | Rejected => onError
  | Resolved analysisText =>
      match parseText parseAnalysis analysisText with
      | None => onError
      | Some analysis =>
          if negb (is_sufficient analysis) then
            Finish [setProcessingState idle;
                    setMessages_prev
                      [aiMessage (or_else (clarification_question analysis)
                                          clarificationFallback)]]
          else research history lang analysis
      end
  end.

(** [startAnalysis], called in a render whose state is [s]. *)
Definition startAnalysis (s : State) : Task Action :=
  if negb (truthy (trim (transcript s))) then Finish []
  else
    let userText := transcript s in
    let newMessages := messages s ++ [userMessage userText] in
    let history := historyText newMessages in
    Await [setTranscript "";
           setMessages newMessages;
           setProcessingState analyzing;
           setThinkingSteps ["Reading context...";
                             "Identifying business idea...";
                             "Locating target area..."];
           setActiveStepIndex 0]
          (AnalyzeIntent history (language s))
          (afterAnalysis history (language s)).

End WithParser.

End Hero.

(** ** The [PlanDashboard] component: refinement and field verification *)

Module PlanDashboard.
Import JS Model Backend.

(** The component state read or written by the two handlers. *)
Record State : Type := {
  currentPlan : BusinessPlan;
  chatHistory : list ChatMessage;
  chatInput : string;
  isRefining : bool;
  chatFocusMode : bool;
  showFeedbackModal : bool;
  verifyingLegal : option nat
}.

(** The state of a component mounted with the prop [plan]. *)
Definition initial (plan : BusinessPlan) : State :=
  {| currentPlan := plan;
     chatHistory := [];
     chatInput := "";
     isRefining := false;
     chatFocusMode := false;
     showFeedbackModal := false;
     verifyingLegal := None |}.

(** The setter calls of the handlers.  [setChatHistory_prev ms] is
    [setChatHistory(prev => [...prev, ...ms])];
    [setCurrentPlan_legal reqs] is
    [setCurrentPlan(prev => ({ ...prev, legal_requirements: reqs }))];
    [setShowFeedbackModal_later] is the [setTimeout] that opens the
    feedback dialog five seconds later. *)
Inductive Action : Type :=
| setChatInput (s : string)
| setChatHistory_prev (ms : list ChatMessage)
| setIsRefining (b : bool)
| setChatFocusMode (b : bool)
| setCurrentPlan (plan : BusinessPlan)
| setCurrentPlan_legal (reqs : list RegulatoryDetail)
| setShowFeedbackModal_later
| setVerifyingLegal (i : option nat).

(** [{ ...prev, legal_requirements: reqs }] *)
Definition withLegalRequirements (prev : BusinessPlan)
    (reqs : list RegulatoryDetail) : BusinessPlan :=
  {| idea_summary := idea_summary prev;
     target_location := target_location prev;
     budget_estimate := budget_estimate prev;
     business_plan := business_plan prev;
     market_insights := market_insights prev;
     financial_breakdown := financial_breakdown prev;
     marketing_strategy := marketing_strategy prev;
     setup_checklist := setup_checklist prev;
     legal_requirements := reqs;
     vendor_scripts := vendor_scripts prev;
     estimated_daily_profit := estimated_daily_profit prev;
     optimization_suggestions := optimization_suggestions prev |}.

Definition withPlan (s : State) (p : BusinessPlan) : State :=
  {| currentPlan := p; chatHistory := chatHistory s;
     chatInput := chatInput s; isRefining := isRefining s;
     chatFocusMode := chatFocusMode s;
     showFeedbackModal := showFeedbackModal s;
     verifyingLegal := verifyingLegal s |}.

Definition apply (s : State) (a : Action) : State :=
  match a with
  | setChatInput t =>
      {| currentPlan := currentPlan s; chatHistory := chatHistory s;
         chatInput := t; isRefining := isRefining s;
         chatFocusMode := chatFocusMode s;
         showFeedbackModal := showFeedbackModal s;
         verifyingLegal := verifyingLegal s |}
  | setChatHistory_prev ms =>
      {| currentPlan := currentPlan s; chatHistory := chatHistory s ++ ms;
         chatInput := chatInput s; isRefining := isRefining s;
         chatFocusMode := chatFocusMode s;
         showFeedbackModal := showFeedbackModal s;
         verifyingLegal := verifyingLegal s |}
  | setIsRefining b =>
      {| currentPlan := currentPlan s; chatHistory := chatHistory s;
         chatInput := chatInput s; isRefining := b;
         chatFocusMode := chatFocusMode s;
         showFeedbackModal := showFeedbackModal s;
         verifyingLegal := verifyingLegal s |}
  | setChatFocusMode b =>
      {| currentPlan := currentPlan s; chatHistory := chatHistory s;
         chatInput := chatInput s; isRefining := isRefining s;
         chatFocusMode := b;
         showFeedbackModal := showFeedbackModal s;
         verifyingLegal := verifyingLegal s |}
  | setCurrentPlan p => withPlan s p
  | setCurrentPlan_legal reqs =>
      withPlan s (withLegalRequirements (currentPlan s) reqs)
  | setShowFeedbackModal_later => s
  | setVerifyingLegal i =>
      {| currentPlan := currentPlan s; chatHistory := chatHistory s;
         chatInput := chatInput s; isRefining := isRefining s;
         chatFocusMode := chatFocusMode s;
         showFeedbackModal := showFeedbackModal s;
         verifyingLegal := i |}
  end.

Definition applyAll (s : State) (acts : list Action) : State :=
  fold_left apply acts s.

Definition confirmationText : string := "Plan updated. Please review the dashboard.".
Definition solicitationText : string := "How does this look?".
Definition apologyText : string := "Sorry, I couldn't process that update. Try again.".

(** [{ ...item, ...updatedItem }]: the properties of [updatedItem], and
    those of [item] that [updatedItem] lacks. *)
Definition spread (item updatedItem : RegulatoryDetail) : RegulatoryDetail :=
  updatedItem ∪ item.

Section WithParser.
Context {P : Parser}.

(** What [handleRefine] does with the reply: the [try] body after the
    [await], the [catch] block and the [finally] block. *)
Definition afterRefine (response : Reply) : Task Action :=
  match response with
  | Rejected =>
      Finish [setChatHistory_prev [aiMessage apologyText]; setIsRefining false]
  | Resolved jsonText =>
      match jsonText with
      | Some t =>
          if truthy t then
            match parsePlan t with
            | Some newPlan =>
                Finish [setCurrentPlan newPlan;
                        setChatHistory_prev [aiMessage confirmationText;
                                             aiMessage solicitationText];
                        setShowFeedbackModal_later;
                        setIsRefining false]
            | None =>
                Finish [setChatHistory_prev [aiMessage apologyText];
                        setIsRefining false]
            end
          else Finish [setIsRefining false]
      | None => Finish [setIsRefining false]
      end
  end.

(** [handleRefine(e, manualInput)], called in a render whose state is
    [s].  The event [e] is only used for [preventDefault]. *)
Definition handleRefine (s : State) (manualInput : option string)
    : Task Action :=
  let inputToUse := or_else manualInput (chatInput s) in
  if negb (truthy (trim inputToUse)) then Finish []
  else
    let userMsg := inputToUse in
    Await [setChatInput "";
           setChatHistory_prev [userMessage userMsg];
           setIsRefining true;
           setChatFocusMode false]
          (RefinePlan (currentPlan s) (map text (chatHistory s)) userMsg)
          afterRefine.

(** What [handleVerifyLegal] does with the reply.  [reqs] and [item]
    are the list and the entry of the render in which the handler was
    called. *)
Definition afterVerify (reqs : list RegulatoryDetail) (index : nat)
    (item : RegulatoryDetail) (response : Reply) : Task Action :=
  match response with
  | Rejected => Finish [setVerifyingLegal None]
  | Resolved responseText =>
      match parseText parseRegulatoryDetail responseText with
      | Some updatedItem =>
          let newReqs := <[index := spread item updatedItem]> reqs in
          Finish [setCurrentPlan_legal newReqs; setVerifyingLegal None]
      | None => Finish [setVerifyingLegal None]
      end
  end.

(** [handleVerifyLegal(index)], called in a render whose state is [s].
    When [index] is outside the list, [item] is [undefined] and
    building the prompt throws inside the [try]: nothing is requested. *)
Definition handleVerifyLegal (s : State) (index : nat) : Task Action :=
  let reqs := legal_requirements (currentPlan s) in
  match reqs !! index with
  | Some item =>
      Await [setVerifyingLegal (Some index)]
            (VerifyLegal (item !! "name") (target_location (currentPlan s)))
            (afterVerify reqs index item)
  | None => Finish [setVerifyingLegal (Some index); setVerifyingLegal None]
  end.

End WithParser.

End PlanDashboard.

(** ** The [App] component: one session, its screens and its calls in flight *)

Module App.
Import JS Model Backend.

(** [App] renders [Hero] while [generatedPlan] is [null] and
    [PlanDashboard] once it holds a plan. *)
Inductive Screen : Type :=
| HeroScreen (h : Hero.State)
| DashboardScreen (d : PlanDashboard.State).

(** A call awaiting its reply, with the continuation of the handler that
    issued it.  [owner] is the number of the component instance in whose
    render the handler was called. *)
Inductive Call : Type :=
| HeroCall (owner : nat) (req : Request) (k : Reply -> Task Hero.Action)
| DashboardCall (owner : nat) (req : Request)
                (k : Reply -> Task PlanDashboard.Action).

Definition ownerOf (c : Call) : nat :=
  match c with
  | HeroCall o _ _ => o
  | DashboardCall o _ _ => o
  end.

(** The session: the state of [App], the mounted child with the number
    of its instance (each mount takes the next number), and the calls in
    flight. *)
Record World : Type := {
  generatedPlan : option BusinessPlan;
  instance : nat;
  screen : Screen;
  inflight : list Call
}.

Definition initial : World :=
  {| generatedPlan := None;
     instance := 0;
     screen := HeroScreen Hero.initial;
     inflight := [] |}.

Definition withScreen (w : World) (sc : Screen) : World :=
  {| generatedPlan := generatedPlan w; instance := instance w;
     screen := sc; inflight := inflight w |}.

Definition withCall (w : World) (c : Call) : World :=
  {| generatedPlan := generatedPlan w; instance := instance w;
     screen := screen w; inflight := inflight w ++ [c] |}.

Definition withoutCall (w : World) (n : nat) : World :=
  {| generatedPlan := generatedPlan w; instance := instance w;
     screen := screen w; inflight := delete n (inflight w) |}.

(** [setGeneratedPlan(p)] and the render that follows.  A plan replaces
    [Hero] by a new [PlanDashboard] whose [currentPlan] starts as that
    plan; a dashboard already mounted keeps its own state
    ([useState(plan)] reads the prop on mount only).  [null] replaces the
    dashboard by a new [Hero].

    The session tracks the calls of [startAnalysis], [handleRefine] and
    [handleVerifyLegal] and the state they write.  Two things a mounted
    dashboard does besides are not part of it: the image request that
    [GeneratedImage] sends from its effect, whose reply is written to
    that component's own state only, and an exception thrown while
    rendering (see [CashFlow.revenueBars]), after which nothing is
    mounted.  [inflight] therefore lists the calls of the three handlers,
    and a [DashboardScreen] says which state the dashboard holds, not
    that it rendered. *)
Definition setGeneratedPlan (w : World) (p : option BusinessPlan) : World :=
  match p, screen w with
  | Some plan, HeroScreen _ =>
      {| generatedPlan := Some plan; instance := S (instance w);
         screen := DashboardScreen (PlanDashboard.initial plan);
         inflight := inflight w |}
  | Some plan, DashboardScreen d =>
      {| generatedPlan := Some plan; instance := instance w;
         screen := DashboardScreen d; inflight := inflight w |}
  | None, DashboardScreen _ =>
      {| generatedPlan := None; instance := S (instance w);
         screen := HeroScreen Hero.initial; inflight := inflight w |}
  | None, HeroScreen h =>
      {| generatedPlan := None; instance := instance w;
         screen := HeroScreen h; inflight := inflight w |}
  end.

(** A call made by a handler of [Hero] instance [owner].  A setter of a
    component that is no longer mounted changes nothing;
    [onPlanGenerated] is [App]'s own setter and always takes effect. *)
Definition heroAction (owner : nat) (w : World) (a : Hero.Action) : World :=
  match a with
  | Hero.onPlanGenerated plan => setGeneratedPlan w (Some plan)
  | _ =>
      match screen w with
      | HeroScreen h =>
          if Nat.eqb owner (instance w)
          then withScreen w (HeroScreen (Hero.apply h a))
          else w
      | DashboardScreen _ => w
      end
  end.

(** A setter call made by a handler of [PlanDashboard] instance [owner]. *)
Definition dashboardAction (owner : nat) (w : World)
    (a : PlanDashboard.Action) : World :=
  match screen w with
  | DashboardScreen d =>
      if Nat.eqb owner (instance w)
      then withScreen w (DashboardScreen (PlanDashboard.apply d a))
      else w
  | HeroScreen _ => w
  end.

(** Run a handler up to its next [await]. *)
Definition advanceHero (owner : nat) (w : World) (t : Task Hero.Action)
    : World :=
  match t with
  | Finish acts => fold_left (heroAction owner) acts w
  | Await acts req k =>
      withCall (fold_left (heroAction owner) acts w) (HeroCall owner req k)
  end.

Definition advanceDashboard (owner : nat) (w : World)
    (t : Task PlanDashboard.Action) : World :=
  match t with
  | Finish acts => fold_left (dashboardAction owner) acts w
  | Await acts req k =>
      withCall (fold_left (dashboardAction owner) acts w)
               (DashboardCall owner req k)
  end.

(** What can happen in a session.  The user's events are those the
    rendered screen offers: the text area and the submit control of
    [Hero] exist only while [processingState] is [idle]; the chat, the
    verify buttons and the reset button belong to [PlanDashboard]. *)
Inductive Event : Type :=
| UserDictates (text : string)
| UserSelectsLanguage (lang : string)
| UserSubmits
| UserTypesChat (text : string)
| UserRefines (manualInput : option string)
| UserVerifiesLegal (index : nat)
| UserResets
| ReplyArrives (n : nat) (r : Reply).

Section WithParser.
Context {P : Parser}.

(** One event; [None] when the screen does not offer it, or when no
    call is in flight at position [n]. *)
Definition step (w : World) (e : Event) : option World :=
  match e with
  | UserDictates t =>
      match screen w with
      | HeroScreen h => Some (withScreen w (HeroScreen (Hero.apply h (Hero.setTranscript t))))
      | DashboardScreen _ => None
      end
  | UserSelectsLanguage lang =>
      match screen w with
      | HeroScreen h =>
          Some (withScreen w (HeroScreen
            {| Hero.transcript := Hero.transcript h;
               Hero.language := lang;
               Hero.messages := Hero.messages h;
               Hero.processingState := Hero.processingState h;
               Hero.thinkingSteps := Hero.thinkingSteps h;
               Hero.activeStepIndex := Hero.activeStepIndex h |}))
      | DashboardScreen _ => None
      end
  | UserSubmits =>
      match screen w with
      | HeroScreen h =>
          match Hero.processingState h with
          | Hero.idle => Some (advanceHero (instance w) w (Hero.startAnalysis h))
          | _ => None
          end
      | DashboardScreen _ => None
      end
  | UserTypesChat t =>
      match screen w with
      | DashboardScreen d =>
          Some (withScreen w (DashboardScreen
                  (PlanDashboard.apply d (PlanDashboard.setChatInput t))))
      | HeroScreen _ => None
      end
  | UserRefines manualInput =>
      match screen w with
      | DashboardScreen d =>
          Some (advanceDashboard (instance w) w
                  (PlanDashboard.handleRefine d manualInput))
      | HeroScreen _ => None
      end
  | UserVerifiesLegal index =>
      match screen w with
      | DashboardScreen d =>
          Some (advanceDashboard (instance w) w
                  (PlanDashboard.handleVerifyLegal d index))
      | HeroScreen _ => None
      end
  | UserResets =>
      match screen w with
      | DashboardScreen _ => Some (setGeneratedPlan w None)
      | HeroScreen _ => None
      end
  | ReplyArrives n r =>
      match inflight w !! n with
      | Some (HeroCall owner _ k) =>
          Some (advanceHero owner (withoutCall w n) (k r))
      | Some (DashboardCall owner _ k) =>
          Some (advanceDashboard owner (withoutCall w n) (k r))
      | None => None
      end
  end.

Fixpoint exec (w : World) (es : list Event) : option World :=
  match es with
  | [] => Some w
  | e :: rest =>
      match step w e with
      | Some w' => exec w' rest
      | None => None
      end
  end.

(** The sessions that can arise. *)
Definition reachable (w : World) : Prop :=
  exists es, exec initial es = Some w.

End WithParser.

(** *** The gating of [Hero] *)

(** Setter calls that keep [Hero] busy: none of them hands over a plan,
    and they leave [processingState] away from [idle]. *)
Definition Busy (acts : list Hero.Action) : Prop :=
  Hero.plansHanded acts = []
  /\ forall h, Hero.processingState (Hero.applyAll h acts) <> Hero.idle.

(** A handler of [Hero] that keeps the component busy for as long as it
    awaits a reply. *)
Inductive Gated : Task Hero.Action -> Prop :=
| gated_finish (acts : list Hero.Action) : Gated (Finish acts)
| gated_await (acts : list Hero.Action) (req : Request)
    (k : Reply -> Task Hero.Action) :
    Busy acts -> (forall r, Gated (k r)) -> Gated (Await acts req k).

Definition isHeroCall (c : Call) : bool :=
  match c with
  | HeroCall _ _ _ => true
  | DashboardCall _ _ _ => false
  end.

Definition NoHeroCall (cs : list Call) : Prop :=
  Forall (fun c => isHeroCall c = false) cs.

(** The invariant of a session.  A call of [Hero] in flight belongs to
    the mounted instance, which is a [Hero] that is not idle and whose
    handler stays gated; at most one such call is in flight; and no call
    belongs to an instance that is yet to be mounted. *)
Definition Invariant (w : World) : Prop :=
  (forall o req k, HeroCall o req k ∈ inflight w ->
     o = instance w
     /\ (exists h, screen w = HeroScreen h
                   /\ Hero.processingState h <> Hero.idle)
     /\ forall r, Gated (k r))
  /\ (forall i j c c',
        inflight w !! i = Some c -> inflight w !! j = Some c' ->
        isHeroCall c = true -> isHeroCall c' = true -> i = j)
  /\ Forall (fun c => ownerOf c <= instance w) (inflight w).

End App.

(** ** What the specification says, in its own words *)

Module Spec.
Import JS Model Backend.

Section WithParser.
Context {P : Parser}.

(** The analysis a reply amounts to, if any: the call did not fail and
    its text parsed. *)
Definition analysisOf (r : Reply) : option AnalysisResult :=
  match r with
  | Rejected => None
  | Resolved t => parseText parseAnalysis t
  end.

(** The plan a reply amounts to, if any. *)
Definition planOf (r : Reply) : option BusinessPlan :=
  match r with
  | Rejected => None
  | Resolved t => parseText parsePlan t
  end.

(** Some backend call of the generation pipeline fails or its response
    fails to parse.  [rA], [rR] and [rP] are the replies to the
    analysis, research and plan-generation calls; the research reply
    is free text and is not parsed. *)
Inductive PipelineFailure (rA rR rP : Reply) : Prop :=
| analysis_fails :
    analysisOf rA = None -> PipelineFailure rA rR rP
| research_fails (a : AnalysisResult) :
    analysisOf rA = Some a -> is_sufficient a = true ->
    rR = Rejected -> PipelineFailure rA rR rP
| generation_fails (a : AnalysisResult) (context : option string) :
    analysisOf rA = Some a -> is_sufficient a = true ->
    rR = Resolved context -> planOf rP = None ->
    PipelineFailure rA rR rP.

(** The refinement reply carries a plan: the call did not fail, its
    text is not empty and parses. *)
Definition refinementOf (r : Reply) : option BusinessPlan :=
  match r with
  | Resolved (Some t) => if truthy t then parsePlan t else None
  | _ => None
  end.

(** The refinement reply carries no text at all. *)
Definition noText (r : Reply) : bool :=
  match r with
  | Resolved None => true
  | Resolved (Some t) => negb (truthy t)
  | Rejected => false
  end.

(** The two outcomes of a refinement as the specification gives them:
    the plan is replaced and two assistant turns follow the user's,
    or the plan is kept and one apologetic assistant turn follows. *)
Definition RefinedOrApologised (s : PlanDashboard.State)
    (manualInput : option string) (r : Reply) : Prop :=
  let instruction := or_else manualInput (PlanDashboard.chatInput s) in
  let tr := run (PlanDashboard.handleRefine s manualInput) [r] in
  let s' := PlanDashboard.applyAll s (actions tr) in
  (exists newPlan,
      refinementOf r = Some newPlan
      /\ PlanDashboard.currentPlan s' = newPlan
      /\ PlanDashboard.chatHistory s' =
           PlanDashboard.chatHistory s
           ++ [userMessage instruction;
               aiMessage PlanDashboard.confirmationText;
               aiMessage PlanDashboard.solicitationText])
  \/ (PlanDashboard.currentPlan s' = PlanDashboard.currentPlan s
      /\ PlanDashboard.chatHistory s' =
           PlanDashboard.chatHistory s
           ++ [userMessage instruction;
               aiMessage PlanDashboard.apologyText]).

(** The partial entry a verification reply amounts to, if any. *)
Definition patchOf (r : Reply) : option RegulatoryDetail :=
  match r with
  | Rejected => None
  | Resolved t => parseText parseRegulatoryDetail t
  end.

End WithParser.

(** Two plans agree on every field other than [legal_requirements]. *)
Definition sameOutsideLegal (p p' : BusinessPlan) : Prop :=
  idea_summary p' = idea_summary p
  /\ target_location p' = target_location p
  /\ budget_estimate p' = budget_estimate p
  /\ business_plan p' = business_plan p
  /\ market_insights p' = market_insights p
  /\ financial_breakdown p' = financial_breakdown p
  /\ marketing_strategy p' = marketing_strategy p
  /\ setup_checklist p' = setup_checklist p
  /\ vendor_scripts p' = vendor_scripts p
  /\ estimated_daily_profit p' = estimated_daily_profit p
  /\ optimization_suggestions p' = optimization_suggestions p.

(** A shallow merge of [patch] onto [old]: every property of [patch]
    is taken, and a property absent from [patch] keeps what [old] has
    for it. *)
Definition ShallowMerge (old patch merged : RegulatoryDetail) : Prop :=
  (forall k v, patch !! k = Some v -> merged !! k = Some v)
  /\ (forall k, patch !! k = None -> merged !! k = old !! k).

(** The break-even result as the specification gives it for a price not
    above the variable cost: not finite, and shown as unbounded. *)
Definition UnboundedAsClaimed (price variableCost fixedCost : number) : Prop :=
  leb price variableCost = true ->
  isFinite (Finance.breakEvenUnits price variableCost fixedCost) = false
  /\ Finance.breakEvenDisplay (Finance.breakEvenUnits price variableCost fixedCost)
     = Finance.ShownUnbounded.

(** The five fixed topics of a synthesized research query: permits and
    fees, rental listings, wholesale input costs, competitor pricing and
    subsidy schemes. *)
Definition fixedTopics (business location : string) : list string :=
  [ "Exact government permits fees and process (FSSAI, Trade license) for "
      +:+ business +:+ " in " +:+ location +:+ ".";
    "Real estate rental listings for commercial shop in " +:+ location +:+ " price.";
    "Wholesale rates for raw materials for " +:+ business +:+ " in " +:+ location +:+ ".";
    "Competitor menu pricing.";
    "Specific government schemes for street vendors or small business in "
      +:+ location +:+ "." ].

(** The topics as numbered lines, counting from [n]. *)
Fixpoint numbered (n : nat) (topics : list string) : string :=
  match topics with
  | [] => ""
  | t :: rest =>
      Hero.indent8 +:+ String (ascii_of_nat (48 + n)) ". " +:+ t +:+ Hero.newline
      +:+ numbered (S n) rest
  end.

(** A query that opens with the business and the location and then
    lists the topics. *)
Definition guideQuery (business location : string) (topics : list string)
    : string :=
  Hero.newline
  +:+ Hero.indent8 +:+ "Start " +:+ business +:+ " in " +:+ location
  +:+ " India guide." +:+ Hero.newline
  +:+ Hero.indent8 +:+ "Find:" +:+ Hero.newline
  +:+ numbered 1 topics
  +:+ "      ".

End Spec.

(** ** Sample data *)

Module Demo.
Import JS Model Backend.

Definition insights : MarketInsights :=
  {| opportunities := []; seasonal_trends := []; underserved_niches := [];
     competitor_pricing := "Tea sells for ₹10-15";
     rental_costs := "₹8,000 per month";
     supply_chain_options := []; utility_costs := "₹1,500 per month";
     govt_subsidies := ["PM SVANidhi"] |}.

Definition finances : FinancialBreakdown :=
  {| fixed_costs_monthly := ["Rent: ₹8,000"; "Electricity: ₹1,500"];
     variable_costs_per_unit := "₹6 per cup";
     profit_margin_per_unit := "₹4 per cup";
     break_even_analysis := "Sell 80 cups/day to break even";
     break_even_learn_more_url := None;
     financial_projections_year_1 := [] |}.

Definition fssai : RegulatoryDetail :=
  {[ "name" := JStr "FSSAI Registration";
     "step_by_step" := JStr "Apply on the FoSCoS portal";
     "estimated_cost" := JStr "₹100";
     "processing_time" := JStr "7 days";
     "documents_required" := JArr [JStr "Photo ID"; JStr "Form A"];
     "learn_more_url" := JStr "https://foscos.fssai.gov.in" ]}.

Definition tradeLicense : RegulatoryDetail :=
  {[ "name" := JStr "Trade License";
     "step_by_step" := JStr "Apply at the ward office";
     "estimated_cost" := JStr "₹1,000";
     "processing_time" := JStr "15 days";
     "documents_required" := JArr [JStr "Rental agreement"];
     "learn_more_url" := JStr "https://bbmp.gov.in" ]}.

Definition plan (summary : string) : BusinessPlan :=
  {| idea_summary := summary;
     target_location := "Indiranagar, Bangalore";
     budget_estimate := {| min := of_Z 20000; max := of_Z 50000; currency := "INR" |};
     business_plan := {| products := ["Tea"]; target_customers := "Office goers";
                         timing := "7am-9pm" |};
     market_insights := insights;
     financial_breakdown := finances;
     marketing_strategy := [];
     setup_checklist := ["Buy a cart"];
     legal_requirements := [fssai; tradeLicense];
     vendor_scripts := [];
     estimated_daily_profit := "₹800-1,200";
     optimization_suggestions := [] |}.

Definition askLocation : AnalysisResult :=
  {| is_sufficient := false;
     clarification_question := Some "Great idea! Where in Bangalore do you want to start?";
     search_query := None; identified_location := None;
     identified_business := Some "tea stall"; detected_language := Some "English" |}.

Definition teaInIndiranagar : AnalysisResult :=
  {| is_sufficient := true;
     clarification_question := None;
     search_query := None;
     identified_location := Some "Indiranagar";
     identified_business := Some "tea stall";
     detected_language := Some "English" |}.

Definition withQuery : AnalysisResult :=
  {| is_sufficient := true;
     clarification_question := None;
     search_query := Some "tea stall license fees Indiranagar";
     identified_location := Some "Indiranagar";
     identified_business := Some "tea stall";
     detected_language := Some "English" |}.

(** A parser that knows a handful of documents, each named by a short
    text, and rejects every other text. *)
Definition parser : Parser :=
  {| parseAnalysis t :=
       if String.eqb t "ask-location" then Some askLocation
       else if String.eqb t "tea-in-indiranagar" then Some teaInIndiranagar
       else if String.eqb t "with-query" then Some withQuery
       else None;
     parsePlan t :=
       if String.eqb t "tea-stall" then Some (plan "Tea stall")
       else if String.eqb t "cheaper-tea-stall" then Some (plan "Cheaper tea stall")
       else None;
     parseRegulatoryDetail t :=
       if String.eqb t "new-fee" then
         Some {[ "estimated_cost" := JStr "₹2,000";
                 "local_authority_details" := JStr "BBMP" ]}
       else None |}.

Definition heroWith (t : string) : Hero.State :=
  {| Hero.transcript := t; Hero.language := "auto"; Hero.messages := [];
     Hero.processingState := Hero.idle; Hero.thinkingSteps := [];
     Hero.activeStepIndex := 0 |}.

Definition dashboardWith (input : string) : PlanDashboard.State :=
  {| PlanDashboard.currentPlan := plan "Tea stall";
     PlanDashboard.chatHistory := [];
     PlanDashboard.chatInput := input;
     PlanDashboard.isRefining := false;
     PlanDashboard.chatFocusMode := false;
     PlanDashboard.showFeedbackModal := false;
     PlanDashboard.verifyingLegal := None |}.

(** The fields a verification reply brings. *)
Definition newFee : RegulatoryDetail :=
  {[ "estimated_cost" := JStr "₹2,000";
     "local_authority_details" := JStr "BBMP" ]}.

End Demo.

(** ** The rest of [PlanDashboard] and [Hero] *)

(** *** The checklist marks *)

Module Checklist.
Import Model.

(** [toggleStep(index)]: a copy of the set with the index removed when
    it is there and added when it is not. *)
Definition toggleStep (completedSteps : gset nat) (index : nat) : gset nat :=
  if decide (index ∈ completedSteps)
  then completedSteps ∖ {[index]}
  else completedSteps ∪ {[index]}.

(** The badge of the action plan, [completedSteps.size] over
    [setup_checklist.length]. *)
Definition badge (completedSteps : gset nat) (plan : BusinessPlan) : nat * nat :=
  (size completedSteps, length (setup_checklist plan)).

End Checklist.

(** *** Rating a turn of the refinement chat *)

Module Rating.
Import JS Model.

Definition adjustPrompt : string := "I'd like to adjust...".

(** [newHistory[index].feedback = type] *)
Definition rated (type : Feedback) (m : ChatMessage) : ChatMessage :=
  {| role := role m; text := text m; feedback := Some type |}.

(** [handleFeedback(index, type)], called in a render whose state is [s].
    The turn at [index], when there is one, gets the rating; a thumbs
    down also switches the chat to focus mode and replaces the chat
    input by the adjustment prompt. *)
Definition handleFeedback (s : PlanDashboard.State) (index : nat)
    (type : Feedback) : PlanDashboard.State :=
  let newHistory :=
    match PlanDashboard.chatHistory s !! index with
    | Some m => <[index := rated type m]> (PlanDashboard.chatHistory s)
    | None => PlanDashboard.chatHistory s
    end in
  {| PlanDashboard.currentPlan := PlanDashboard.currentPlan s;
     PlanDashboard.chatHistory := newHistory;
     PlanDashboard.chatInput :=
       match type with
       | down => adjustPrompt
       | up => PlanDashboard.chatInput s
       end;
     PlanDashboard.isRefining := PlanDashboard.isRefining s;
     PlanDashboard.chatFocusMode :=
       match type with
       | down => true
       | up => PlanDashboard.chatFocusMode s
       end;
     PlanDashboard.showFeedbackModal := PlanDashboard.showFeedbackModal s;
     PlanDashboard.verifyingLegal := PlanDashboard.verifyingLegal s |}.

End Rating.

(** *** The interactive calculator *)

Module Calculator.
Import JS Finance Model.

Record Inputs : Type := {
  customPrice : number;
  customVariableCost : number;
  customFixedCost : number
}.

(** The effect run on mount: the three inputs are read out of the plan's
    free text. *)
Definition seed (fb : FinancialBreakdown) : Inputs :=
  let variable := parseCurrency (variable_costs_per_unit fb) in
  let margin := parseCurrency (profit_margin_per_unit fb) in
  let fixed := totalFixedCost (fixed_costs_monthly fb) in
  {| customPrice := add variable margin;
     customVariableCost := variable;
     customFixedCost := fixed |}.

(** What the calculator shows for its inputs. *)
Definition shown (i : Inputs) : Shown :=
  breakEvenDisplay
    (breakEvenUnits (customPrice i) (customVariableCost i) (customFixedCost i)).

End Calculator.

(** *** The cash-flow chart *)

Module CashFlow.
Import JS Model.

Definition mul (x y : number) : number := SFmul prec emax x y.

(** The widths, in percent, of the revenue bars of the first six months:
    [slice(0, 6).map(proj => proj.revenue / (projections[5].revenue * 1.2) * 100)].
    [None] is the [TypeError] thrown when a bar is drawn and there is no
    sixth projection to read the revenue of. *)
Definition revenueBars (projections : list MonthlyProjection)
    : option (list number) :=
  match take 6 projections with
  | [] => Some []
  | first6 =>
      match projections !! 5 with
      | Some sixth =>
          Some (map (fun proj =>
                       mul (div (revenue proj) (mul (revenue sixth) (decimal 12 1)))
                           (of_Z 100))
                    first6)
      | None => None
      end
  end.

End CashFlow.

(** *** Dictation in [Hero] *)

Module Speech.

(** One entry of [event.results]: whether it is final, and the transcript
    of its first alternative. *)
Record Result : Type := {
  isFinal : bool;
  transcript : string
}.

Fixpoint concat (parts : list string) : string :=
  match parts with
  | [] => ""
  | p :: rest => p +:+ concat rest
  end.

(** The [onresult] handler of [toggleListening]: the transcript becomes
    the final results from [resultIndex] on, followed by the interim
    ones; the previous transcript is not used. *)
Definition onresult (resultIndex : nat) (results : list Result) : string :=
  let fresh := drop resultIndex results in
  let finalTranscript :=
    concat (map transcript (filter (fun r => isFinal r = true) fresh)) in
  let interimTranscript :=
    concat (map transcript (filter (fun r => isFinal r = false) fresh)) in
  finalTranscript +:+ interimTranscript.

End Speech.

(** *** Handlers with requests of their own *)

Module Async.
Import Backend.

(** An [async] handler over the requests [R] and the setter calls [A],
    cut at its [await]s like a [Task]. *)
Inductive Flow (R A : Type) : Type :=
| Done (acts : list A)
| Wait (acts : list A) (req : R) (k : Reply -> Flow R A).

Arguments Done {R A} acts.
Arguments Wait {R A} acts req k.

(** The setter calls and the requests of a handler run against the
    replies it receives, in order. *)
Fixpoint run {R A : Type} (t : Flow R A) (replies : list Reply)
    : list A * list R :=
  match t with
  | Done acts => (acts, [])
  | Wait acts req k =>
      match replies with
      | [] => (acts, [req])
      | r :: rest =>
          let '(acts', reqs') := run (k r) rest in
          (acts ++ acts', req :: reqs')
      end
  end.

End Async.

(** *** Vendor scripts *)

Module Scripts.
Import JS Model Backend Async.

(** The two prompts, with the values they interpolate. *)
Inductive Request : Type :=
| GenerateScript (scriptContextInput idea_summary target_location
                  scriptTone : string)
| RegenerateScript (context script : string).

(** The component state read or written by the two handlers. *)
Record State : Type := {
  currentPlan : BusinessPlan;
  scriptContextInput : string;
  scriptTone : string;
  showScriptInput : bool;
  isGeneratingScript : bool
}.

(** [setCurrentPlan_append s] is
    [setCurrentPlan(prev => ({ ...prev, vendor_scripts: [...prev.vendor_scripts, s] }))];
    [setCurrentPlan_scripts ss] is
    [setCurrentPlan(prev => ({ ...prev, vendor_scripts: ss }))]. *)
Inductive Action : Type :=
| setIsGeneratingScript (b : bool)
| setCurrentPlan_append (newScript : VendorScript)
| setCurrentPlan_scripts (newScripts : list VendorScript)
| setScriptContextInput (s : string)
| setShowScriptInput (b : bool).

(** [{ ...prev, vendor_scripts: scripts }] *)
Definition withVendorScripts (prev : BusinessPlan)
    (scripts : list VendorScript) : BusinessPlan :=
  {| idea_summary := idea_summary prev;
     target_location := target_location prev;
     budget_estimate := budget_estimate prev;
     business_plan := business_plan prev;
     market_insights := market_insights prev;
     financial_breakdown := financial_breakdown prev;
     marketing_strategy := marketing_strategy prev;
     setup_checklist := setup_checklist prev;
     legal_requirements := legal_requirements prev;
     vendor_scripts := scripts;
     estimated_daily_profit := estimated_daily_profit prev;
     optimization_suggestions := optimization_suggestions prev |}.

Definition withPlan (s : State) (p : BusinessPlan) : State :=
  {| currentPlan := p; scriptContextInput := scriptContextInput s;
     scriptTone := scriptTone s; showScriptInput := showScriptInput s;
     isGeneratingScript := isGeneratingScript s |}.

Definition apply (s : State) (a : Action) : State :=
  match a with
  | setIsGeneratingScript b =>
      {| currentPlan := currentPlan s;
         scriptContextInput := scriptContextInput s;
         scriptTone := scriptTone s; showScriptInput := showScriptInput s;
         isGeneratingScript := b |}
  | setCurrentPlan_append newScript =>
      withPlan s (withVendorScripts (currentPlan s)
                    (vendor_scripts (currentPlan s) ++ [newScript]))
  | setCurrentPlan_scripts newScripts =>
      withPlan s (withVendorScripts (currentPlan s) newScripts)
  | setScriptContextInput t =>
      {| currentPlan := currentPlan s; scriptContextInput := t;
         scriptTone := scriptTone s; showScriptInput := showScriptInput s;
         isGeneratingScript := isGeneratingScript s |}
  | setShowScriptInput b =>
      {| currentPlan := currentPlan s;
         scriptContextInput := scriptContextInput s;
         scriptTone := scriptTone s; showScriptInput := b;
         isGeneratingScript := isGeneratingScript s |}
  end.

Definition applyAll (s : State) (acts : list Action) : State :=
  fold_left apply acts s.

Section WithParser.
(** [JSON.parse(response.text!) as VendorScript] *)
Variable parseVendorScript : string -> option VendorScript.



(** What [handleRegenerateScript] does with the reply; [scripts] is the
    list of the render in which the handler was called. *)
Definition afterRegenerate (scripts : list VendorScript) (index : nat)
    (response : Reply) : Flow Request Action :=
  match response with
  | Rejected => Done [setIsGeneratingScript false]
  | Resolved t =>
      match parseText parseVendorScript t with
      | Some newScript =>
          Done [setCurrentPlan_scripts (<[index := newScript]> scripts);
                setIsGeneratingScript false]
      | None => Done [setIsGeneratingScript false]
      end
  end.

(** [handleRegenerateScript(index)], called in a render whose state is
    [s].  Outside the list [scriptToRedo] is [undefined] and building the
    prompt throws inside the [try]: nothing is requested. *)
Definition handleRegenerateScript (s : State) (index : nat)
    : Flow Request Action :=
  let scripts := vendor_scripts (currentPlan s) in
  match scripts !! index with
  | Some scriptToRedo =>
      Wait [setIsGeneratingScript true]
           (RegenerateScript (context scriptToRedo) (script scriptToRedo))
           (afterRegenerate scripts index)
  | None => Done [setIsGeneratingScript true; setIsGeneratingScript false]
  end.

End WithParser.

End Scripts.

(** *** The map panel *)

Module MapPanel.
Import JS Model Backend Async.

Record PlaceResult : Type := {
  name : string;
  address : string;
  rating : string
}.

Record State : Type := {
  mapCategory : string;
  selectedMapLocation : option string;
  deepSearchMapResults : list PlaceResult;
  isDeepSearchingMap : bool
}.

(** The state of a freshly mounted dashboard. *)
Definition initial : State :=
  {| mapCategory := "wholesale markets";
     selectedMapLocation := None;
     deepSearchMapResults := [];
     isDeepSearchingMap := false |}.

(** The text handed to [encodeURIComponent] for the map's address:
    [selectedMapLocation ? selectedMapLocation
                         : (mapCategory + " in " + target_location)]. *)
Definition mapQuery (s : State) (target_location : string) : string :=
  or_else (selectedMapLocation s)
          (mapCategory s +:+ " in " +:+ target_location).

(** The deep-search prompt, with the values it interpolates. *)
Inductive Request : Type :=
| FindPlaces (mapCategory target_location : string).

Inductive Action : Type :=
| setMapCategory (c : string)
| setSelectedMapLocation (l : option string)
| setDeepSearchMapResults (places : list PlaceResult)
| setIsDeepSearchingMap (b : bool).

Definition apply (s : State) (a : Action) : State :=
  match a with
  | setMapCategory c =>
      {| mapCategory := c; selectedMapLocation := selectedMapLocation s;
         deepSearchMapResults := deepSearchMapResults s;
         isDeepSearchingMap := isDeepSearchingMap s |}
  | setSelectedMapLocation l =>
      {| mapCategory := mapCategory s; selectedMapLocation := l;
         deepSearchMapResults := deepSearchMapResults s;
         isDeepSearchingMap := isDeepSearchingMap s |}
  | setDeepSearchMapResults places =>
      {| mapCategory := mapCategory s;
         selectedMapLocation := selectedMapLocation s;
         deepSearchMapResults := places;
         isDeepSearchingMap := isDeepSearchingMap s |}
  | setIsDeepSearchingMap b =>
      {| mapCategory := mapCategory s;
         selectedMapLocation := selectedMapLocation s;
         deepSearchMapResults := deepSearchMapResults s;
         isDeepSearchingMap := b |}
  end.

Definition applyAll (s : State) (acts : list Action) : State :=
  fold_left apply acts s.

(** The click on a listed place:
    [setSelectedMapLocation(place.name + " " + place.address)]. *)
Definition selectPlace (place : PlaceResult) : Action :=
  setSelectedMapLocation (Some (name place +:+ " " +:+ address place)).

Section WithParser.
(** [JSON.parse(response.text!)]: [None] when the text is not JSON,
    [Some None] when it is JSON but no array
    ([Array.isArray(places)] fails), [Some (Some places)] otherwise. *)
Variable parsePlaces : string -> option (option (list PlaceResult)).

(** What [handleDeepMapSearch] does with the reply. *)
Definition afterSearch (response : Reply) : Flow Request Action :=
  match response with
  | Rejected => Done [setIsDeepSearchingMap false]
  | Resolved t =>
      match parseText parsePlaces t with
      | Some (Some places) =>
          Done [setDeepSearchMapResults places; setIsDeepSearchingMap false]
      | Some None => Done [setIsDeepSearchingMap false]
      | None => Done [setIsDeepSearchingMap false]
      end
  end.

(** [handleDeepMapSearch()], called in a render whose state is [s], for a
    plan located at [target_location]. *)
Definition handleDeepMapSearch (s : State) (target_location : string)
    : Flow Request Action :=
  Wait [setIsDeepSearchingMap true; setDeepSearchMapResults []]
       (FindPlaces (mapCategory s) target_location)
       afterSearch.

End WithParser.

End MapPanel.

(** *** The PDF export *)

Module PdfExport.
Import JS Model.

Definition mul (x y : number) : number := SFmul prec emax x y.

Definition Color : Type := (Z * Z * Z)%type.
Definition black : Color := (0, 0, 0)%Z.
Definition grey : Color := (80, 80, 80)%Z.

(** One [doc.text] call: the lines, where they are put, and the settings
    of the document at that moment. *)
Record Drawn : Type := {
  onPage : nat;
  lines : list string;
  atX : number;
  atY : number;
  withSize : number;
  withColor : Color;
  withStyle : string
}.

(** The [jsPDF] document: the current page and settings, and what has
    been drawn so far, oldest first. *)
Record Doc : Type := {
  page : nat;
  fontSize : number;
  textColor : Color;
  fontStyle : string;
  drawn : list Drawn
}.

(** [new jsPDF()] *)
Definition newDoc : Doc :=
  {| page := 1; fontSize := of_Z 16; textColor := black;
     fontStyle := "normal"; drawn := [] |}.

(** The document together with the running [y]. *)
Definition Cursor : Type := (Doc * number)%type.

(** [doc.addPage()] *)
Definition addPage (d : Doc) : Doc :=
  {| page := S (page d); fontSize := fontSize d; textColor := textColor d;
     fontStyle := fontStyle d; drawn := drawn d |}.

(** [doc.text(ls, x, y)] *)
Definition text (d : Doc) (ls : list string) (x y : number) : Doc :=
  {| page := page d; fontSize := fontSize d; textColor := textColor d;
     fontStyle := fontStyle d;
     drawn := drawn d ++ [{| onPage := page d; lines := ls; atX := x;
                             atY := y; withSize := fontSize d;
                             withColor := textColor d;
                             withStyle := fontStyle d |}] |}.

Definition setFont (d : Doc) (size : number) (color : Color)
    (style : string) : Doc :=
  {| page := page d; fontSize := size; textColor := color;
     fontStyle := style; drawn := drawn d |}.

(** The texts drawn so far, each as its lines, oldest first. *)
Definition texts (c : Cursor) : list (list string) :=
  map lines (drawn (fst c)).

(** The page of each text drawn so far, oldest first. *)
Definition pagesOf (c : Cursor) : list nat :=
  map onPage (drawn (fst c)).

Section WithLibrary.
(** The width of the page, [doc.internal.pageSize.getWidth()]. *)
Variable pageWidth : number.
(** [doc.splitTextToSize(text, maxWidth)] under a font style and size. *)
Variable splitTextToSize : string -> number -> string -> number -> list string.
(** A number and an entry's property as a template literal prints them. *)
Variable numberToString : number -> string.
Variable valueToString : option Json -> string.

(** [y = addWrappedText(text, x, y, pageWidth - margin, fontSize, color, fontStyle)]:
    the settings are applied, the text is split and drawn at [y], and [y]
    moves down by half the font size per line, plus 2. *)
Definition addWrappedText (txt : string) (x : Z) (margin : Z) (size : Z)
    (color : Color) (style : string) (c : Cursor) : Cursor :=
  let '(d, yPos) := c in
  let d1 := setFont d (of_Z size) color style in
  let ls := splitTextToSize style (of_Z size) txt (sub pageWidth (of_Z margin)) in
  (text d1 ls (of_Z x) yPos,
   add (add yPos (mul (of_Z (Z.of_nat (length ls))) (div (of_Z size) (of_Z 2))))
       (of_Z 2)).

(** [y += dy] *)
Definition down (dy : Z) (c : Cursor) : Cursor :=
  (fst c, add (snd c) (of_Z dy)).

(** [doc.text(txt, x, y)] with the settings as they are. *)
Definition label (txt : string) (x : Z) (c : Cursor) : Cursor :=
  (text (fst c) [txt] (of_Z x) (snd c), snd c).

(** [if (y > limit) { doc.addPage(); y = 20; }] *)
Definition breakAbove (limit : Z) (c : Cursor) : Cursor :=
  if gtb (snd c) (of_Z limit) then (addPage (fst c), of_Z 20) else c.

Definition fixedCostLine (c : Cursor) (cost : string) : Cursor :=
  addWrappedText ("• " +:+ cost) 15 30 10 black "normal" c.

Definition checklistLine (c : Cursor) (step : string) : Cursor :=
  breakAbove 280 (addWrappedText ("[ ] " +:+ step) 10 20 11 black "normal" c).

Definition legalEntry (c : Cursor) (req : RegulatoryDetail) : Cursor :=
  let c1 := addWrappedText (valueToString (req !! "name")) 10 20 12 black "bold" c in
  let c2 := addWrappedText ("Steps: " +:+ valueToString (req !! "step_by_step"))
                           10 20 10 black "normal" c1 in
  let c3 := addWrappedText ("Est. Cost: " +:+ valueToString (req !! "estimated_cost"))
                           10 20 10 black "normal" c2 in
  breakAbove 280 (down 4 c3).

Definition strategyLine (c : Cursor) (s : string) : Cursor :=
  addWrappedText ("• " +:+ s) 15 30 10 black "normal" c.

(** The header, the summary and the financial lines. *)
Definition summarySection (plan : BusinessPlan) (c : Cursor) : Cursor :=
  let c := addWrappedText "NirmaanAI Business Execution Plan" 10 20 24 black "bold" c in
  let c := down 5 c in
  let c := addWrappedText ("Business Concept: " +:+ idea_summary plan)
                          10 20 14 black "bold" c in
  let c := addWrappedText ("Location: " +:+ target_location plan)
                          10 20 12 grey "normal" c in
  let c := down 10 c in
  let c := addWrappedText "Financial Analysis" 10 20 16 black "bold" c in
  let c := addWrappedText
             ("Investment Range: " +:+ currency (budget_estimate plan) +:+ " "
              +:+ numberToString (min (budget_estimate plan)) +:+ " - "
              +:+ numberToString (max (budget_estimate plan)))
             10 20 11 black "normal" c in
  let c := addWrappedText ("Daily Profit Estimate: " +:+ estimated_daily_profit plan)
                          10 20 11 black "normal" c in
  let c := addWrappedText
             ("Break-Even Analysis: "
              +:+ break_even_analysis (financial_breakdown plan))
             10 20 11 black "italic" c in
  down 5 c.

Definition fixedCostsSection (plan : BusinessPlan) (c : Cursor) : Cursor :=
  let c := (setFont (fst c) (of_Z 11) black (fontStyle (fst c)), snd c) in
  let c := label "Estimated Fixed Monthly Costs:" 10 c in
  let c := down 6 c in
  let c := fold_left fixedCostLine
                     (fixed_costs_monthly (financial_breakdown plan)) c in
  down 5 c.

Definition checklistSection (plan : BusinessPlan) (c : Cursor) : Cursor :=
  let c := breakAbove 250 c in
  let c := addWrappedText "Execution Checklist" 10 20 16 black "bold" c in
  let c := fold_left checklistLine (setup_checklist plan) c in
  down 10 c.

Definition legalSection (plan : BusinessPlan) (c : Cursor) : Cursor :=
  let c := breakAbove 250 c in
  let c := addWrappedText "Legal & Compliance Roadmap" 10 20 16 black "bold" c in
  fold_left legalEntry (legal_requirements plan) c.

Definition marketSection (plan : BusinessPlan) (c : Cursor) : Cursor :=
  let c := breakAbove 250 c in
  let c := addWrappedText "Market Intelligence" 10 20 16 black "bold" c in
  let c := addWrappedText ("Rent Estimate: " +:+ rental_costs (market_insights plan))
                          10 20 11 black "normal" c in
  let c := addWrappedText
             ("Competitor Pricing: " +:+ competitor_pricing (market_insights plan))
             10 20 11 black "normal" c in
  let c := down 5 c in
  let c := label "Growth Strategies:" 10 c in
  let c := down 6 c in
  fold_left strategyLine (marketing_strategy plan) c.

(** [handleDownloadPDF()]: the document handed to [doc.save]. *)
Definition handleDownloadPDF (plan : BusinessPlan) : Doc :=
  fst (marketSection plan
         (legalSection plan
            (checklistSection plan
               (fixedCostsSection plan
                  (summarySection plan (newDoc, of_Z 20)))))).

(** The lines of a wrapped text, as [addWrappedText] obtains them. *)
Definition wrapped (txt : string) (margin size : Z) (style : string)
    : list string :=
  splitTextToSize style (of_Z size) txt (sub pageWidth (of_Z margin)).

End WithLibrary.

End PdfExport.

(* ===================================================================== *)
(** * Part II. Properties                                                 *)
(* ===================================================================== *)

Import JS Finance Model Backend.

(** ** Strings *)

Lemma truthy_false (s : string) : truthy s = false <-> s = "".
Proof. destruct s; simpl; split; congruence. Qed.

Lemma truthy_true (s : string) : truthy s = true <-> s <> "".
Proof. destruct s; simpl; split; congruence. Qed.

Lemma or_else_supplied (q fallback : string) :
  q <> "" -> or_else (Some q) fallback = q.
Proof. intros Hq. unfold or_else. apply truthy_true in Hq. by rewrite Hq. Qed.

Lemma or_else_missing (a : option string) (fallback : string) :
  a = None \/ a = Some "" -> or_else a fallback = fallback.
Proof. intros [-> | ->]; reflexivity. Qed.

(** ** The conversation state machine *)

Section HeroProperties.
Context {P : Parser}.
Import Hero.

Lemma startAnalysis_blank (s : State) :
  trim (transcript s) = "" -> startAnalysis s = Finish [].
Proof. intros H. unfold startAnalysis. by rewrite H. Qed.

Lemma startAnalysis_accepted (s : State) :
  trim (transcript s) <> "" ->
  startAnalysis s =
    Await [setTranscript "";
           setMessages (messages s ++ [userMessage (transcript s)]);
           setProcessingState analyzing;
           setThinkingSteps ["Reading context...";
                             "Identifying business idea...";
                             "Locating target area..."];
           setActiveStepIndex 0]
          (AnalyzeIntent (historyText (messages s ++ [userMessage (transcript s)]))
                         (language s))
          (afterAnalysis (historyText (messages s ++ [userMessage (transcript s)]))
                         (language s)).
Proof.
  intros H. apply truthy_true in H. unfold startAnalysis. by rewrite H.
Qed.

(** C8. An utterance that trims to the empty string is rejected before
    any effect: [startAnalysis] makes no setter call and issues no
    request, so no turn is appended, the processing state stays as it
    was and nothing is sent to the backend, whatever replies might be
    on their way. *)
Theorem C8_blank_utterance_has_no_effect (s : State) (replies : list Reply) :
  trim (transcript s) = "" ->
  let tr := run (startAnalysis s) replies in
  actions tr = []
  /\ requests tr = []
  /\ returned tr = true
  /\ messages (applyAll s (actions tr)) = messages s
  /\ processingState (applyAll s (actions tr)) = processingState s
  /\ applyAll s (actions tr) = s.
Proof.
  intros Hblank tr. subst tr. rewrite (startAnalysis_blank s Hblank).
  simpl. repeat split; reflexivity.
Qed.

(** The failure path: whatever the state, the [catch] block leaves the
    machine idle with one more assistant turn. *)
Lemma run_onError (replies : list Reply) :
  run onError replies =
    {| actions := [setProcessingState idle;
                   setMessages_prev [aiMessage failureText]];
       requests := []; returned := true |}.
Proof. reflexivity. Qed.

(** The requests issued by a submission whose pipeline fails: the
    analysis call, then the research call and the generation call as
    far as the pipeline got. *)
Lemma PipelineFailure_trace (s : State) (rA rR rP : Reply) :
  trim (transcript s) <> "" ->
  Spec.PipelineFailure rA rR rP ->
  exists acts reqs,
    run (startAnalysis s) [rA; rR; rP] =
      {| actions :=
           setTranscript ""
           :: setMessages (messages s ++ [userMessage (transcript s)])
           :: acts
           ++ [setProcessingState idle; setMessages_prev [aiMessage failureText]];
         requests := reqs; returned := true |}
    /\ Forall (fun a => match a with
                        | setProcessingState _ | setThinkingSteps _
                        | setActiveStepIndex _ => True
                        | _ => False
                        end) acts.
Proof.
  intros Hok Hfail. rewrite (startAnalysis_accepted s Hok).
  set (h := historyText _).
  destruct Hfail as [HA | a HA Hs HR | a ctx HA Hs HR HP].
  - eexists [_; _; _], _. split.
    + simpl. unfold afterAnalysis.
      destruct rA as [|t]; simpl in HA; [reflexivity|].
      rewrite HA. reflexivity.
    + repeat constructor.
  - subst rR. eexists [_; _; _; _; _; _], _. split.
    + simpl. unfold afterAnalysis.
      destruct rA as [|t]; simpl in HA; [discriminate|].
      rewrite HA, Hs. reflexivity.
    + repeat constructor.
  - subst rR. eexists [_; _; _; _; _; _; _; _; _], _. split.
    + simpl. unfold afterAnalysis.
      destruct rA as [|t]; simpl in HA; [discriminate|].
      rewrite HA, Hs. simpl.
      destruct rP as [|t']; simpl in HP; [reflexivity|].
      rewrite HP. reflexivity.
    + repeat constructor.
Qed.

Lemma applyAll_app (s : State) (xs ys : list Action) :
  applyAll s (xs ++ ys) = applyAll (applyAll s xs) ys.
Proof. apply fold_left_app. Qed.

Lemma plansHanded_app (xs ys : list Action) :
  plansHanded (xs ++ ys) = plansHanded xs ++ plansHanded ys.
Proof. apply flat_map_app. Qed.

(** Setters of the progress display leave the turns alone and hand over
    no plan. *)
Lemma progress_only (acts : list Action) (s : State) :
  Forall (fun a => match a with
                   | setProcessingState _ | setThinkingSteps _
                   | setActiveStepIndex _ => True
                   | _ => False
                   end) acts ->
  messages (applyAll s acts) = messages s /\ plansHanded acts = [].
Proof.
  intros H. revert s. induction H as [|a acts Ha _ IH]; intros s.
  - split; reflexivity.
  - destruct (IH (apply s a)) as [Hm Hp].
    change (applyAll s (a :: acts)) with (applyAll (apply s a) acts).
    rewrite Hm. destruct a; try contradiction; split; solve [reflexivity | exact Hp].
Qed.

(** C1. When a submission passes the empty-input guard and a backend
    call of the pipeline (analysis, research or plan generation) fails
    or its response fails to parse, the handler returns having appended
    the user's turn and exactly one assistant turn, the generic failure
    message; the processing state is idle again; and [onPlanGenerated]
    is never called, so the consumer receives no plan. *)
Theorem C1_pipeline_failure_is_contained (s : State) (rA rR rP : Reply) :
  trim (transcript s) <> "" ->
  Spec.PipelineFailure rA rR rP ->
  let tr := run (startAnalysis s) [rA; rR; rP] in
  let s' := applyAll s (actions tr) in
  returned tr = true
  /\ messages s' =
       messages s ++ [userMessage (transcript s); aiMessage failureText]
  /\ processingState s' = idle
  /\ plansHanded (actions tr) = [].
Proof.
  intros Hok Hfail tr s'. subst s' tr.
  destruct (PipelineFailure_trace s rA rR rP Hok Hfail)
    as (acts & reqs & -> & Hacts).
  cbn [actions returned].
  change (?a :: ?b :: acts ++ ?tl) with ([a; b] ++ acts ++ tl).
  rewrite !applyAll_app, !plansHanded_app.
  destruct (progress_only acts (applyAll s [setTranscript "";
              setMessages (messages s ++ [userMessage (transcript s)])]) Hacts)
    as [Hm ->].
  repeat split; try reflexivity.
  unfold applyAll at 1. cbn [fold_left apply messages].
  rewrite Hm. simpl. by rewrite <- app_assoc.
Qed.


(** The trace of a submission whose analysis is insufficient. *)
Lemma insufficient_trace (s : State) (rA : Reply) (rest : list Reply)
    (a : AnalysisResult) :
  trim (transcript s) <> "" ->
  Spec.analysisOf rA = Some a ->
  is_sufficient a = false ->
  run (startAnalysis s) (rA :: rest) =
    {| actions :=
         [setTranscript "";
          setMessages (messages s ++ [userMessage (transcript s)]);
          setProcessingState analyzing;
          setThinkingSteps ["Reading context...";
                            "Identifying business idea...";
                            "Locating target area..."];
          setActiveStepIndex 0;
          setProcessingState idle;
          setMessages_prev
            [aiMessage (or_else (clarification_question a) clarificationFallback)]];
       requests :=
         [AnalyzeIntent (historyText (messages s ++ [userMessage (transcript s)]))
                        (language s)];
       returned := true |}.
Proof.
  intros Hok HA Hs. rewrite (startAnalysis_accepted s Hok).
  destruct rA as [|t]; simpl in HA; [discriminate|].
  simpl. unfold afterAnalysis. rewrite HA. simpl. rewrite Hs. reflexivity.
Qed.

(** C6. When the analysis says the information is insufficient and
    carries a non-empty clarification question, the handler appends the
    user's turn and exactly one assistant turn whose text is that
    question, leaves the processing state idle, and returns having
    issued the analysis call only: no further backend call is made for
    the submission, whatever further replies are available. *)
Theorem C6_insufficient_asks_for_clarification (s : State) (rA : Reply)
    (rest : list Reply) (a : AnalysisResult) (q : string) :
  trim (transcript s) <> "" ->
  Spec.analysisOf rA = Some a ->
  is_sufficient a = false ->
  clarification_question a = Some q ->
  q <> "" ->
  let tr := run (startAnalysis s) (rA :: rest) in
  let s' := applyAll s (actions tr) in
  messages s' = messages s ++ [userMessage (transcript s); aiMessage q]
  /\ processingState s' = idle
  /\ requests tr =
       [AnalyzeIntent (historyText (messages s ++ [userMessage (transcript s)]))
                      (language s)]
  /\ returned tr = true
  /\ plansHanded (actions tr) = [].
Proof.
  intros Hok HA Hs Hq Hne tr s'. subst s' tr.
  rewrite (insufficient_trace s rA rest a Hok HA Hs).
  rewrite Hq, (or_else_supplied q _ Hne). simpl.
  repeat split; try reflexivity. by rewrite <- app_assoc.
Qed.

(** Without a question in the analysis, the fixed fallback question is
    asked instead. *)
Lemma insufficient_without_question (s : State) (rA : Reply)
    (rest : list Reply) (a : AnalysisResult) :
  trim (transcript s) <> "" ->
  Spec.analysisOf rA = Some a ->
  is_sufficient a = false ->
  clarification_question a = None \/ clarification_question a = Some "" ->
  messages (applyAll s (actions (run (startAnalysis s) (rA :: rest)))) =
    messages s ++ [userMessage (transcript s); aiMessage clarificationFallback].
Proof.
  intros Hok HA Hs Hq.
  rewrite (insufficient_trace s rA rest a Hok HA Hs).
  rewrite (or_else_missing _ _ Hq). simpl. by rewrite <- app_assoc.
Qed.

(** The research call of a submission whose analysis is sufficient. *)
Lemma sufficient_requests (s : State) (rA : Reply) (rest : list Reply)
    (a : AnalysisResult) :
  trim (transcript s) <> "" ->
  Spec.analysisOf rA = Some a ->
  is_sufficient a = true ->
  requests (run (startAnalysis s) (rA :: rest)) !! 1 =
    Some (Research (researchQuery a)).
Proof.
  intros Hok HA Hs. rewrite (startAnalysis_accepted s Hok).
  destruct rA as [|t]; simpl in HA; [discriminate|].
  simpl. unfold afterAnalysis. rewrite HA. simpl. rewrite Hs. simpl.
  destruct rest; reflexivity.
Qed.

Lemma append_assoc (a b c : string) : (a +:+ b) +:+ c = a +:+ (b +:+ c).
Proof.
  induction a as [|x a IH]; [reflexivity|].
  change (String x ((a +:+ b) +:+ c) = String x (a +:+ (b +:+ c))).
  by rewrite IH.
Qed.

(** The template of [startAnalysis] is the guide query over the five
    fixed topics. *)
Lemma synthesizedQuery_topics (business location : option string) :
  synthesizedQuery business location =
    Spec.guideQuery (interpolate business) (interpolate location)
      (Spec.fixedTopics (interpolate business) (interpolate location)).
Proof.
  unfold synthesizedQuery, Spec.guideQuery, Spec.fixedTopics.
  generalize (interpolate business) (interpolate location). intros b l.
  cbn [Spec.numbered]. rewrite !append_assoc. reflexivity.
Qed.

(** C7. For a sufficient analysis, the second request of the submission
    is the research call, and its query is the analysis's
    [search_query] when one was supplied (a non-empty text); otherwise
    it is the guide query built from [identified_business] and
    [identified_location], which lists exactly the five fixed topics:
    permits and fees, rental listings, wholesale input costs, competitor
    pricing and subsidy schemes. *)
Theorem C7_research_query (s : State) (rA : Reply) (rest : list Reply)
    (a : AnalysisResult) :
  trim (transcript s) <> "" ->
  Spec.analysisOf rA = Some a ->
  is_sufficient a = true ->
  let issued := requests (run (startAnalysis s) (rA :: rest)) !! 1 in
  let b := interpolate (identified_business a) in
  let l := interpolate (identified_location a) in
  (forall q, search_query a = Some q -> q <> "" -> issued = Some (Research q))
  /\ (search_query a = None \/ search_query a = Some "" ->
      issued = Some (Research (Spec.guideQuery b l (Spec.fixedTopics b l))))
  /\ length (Spec.fixedTopics b l) = 5.
Proof.
  intros Hok HA Hs issued b l. subst issued b l.
  rewrite (sufficient_requests s rA rest a Hok HA Hs).
  unfold researchQuery. split; [|split].
  - intros q Hq Hne. by rewrite Hq, (or_else_supplied q _ Hne).
  - intros Hq. by rewrite (or_else_missing _ _ Hq), synthesizedQuery_topics.
  - reflexivity.
Qed.

End HeroProperties.

Section HeroWitnesses.
Import Hero.

Lemma C8_blank_utterance_witness :
  let s := Demo.heroWith "   " in
  let tr := run (Hero.startAnalysis (P := Demo.parser) s) [Resolved (Some "tea-in-indiranagar")] in
  actions tr = []
  /\ requests tr = []
  /\ returned tr = true
  /\ messages (applyAll s (actions tr)) = messages s
  /\ processingState (applyAll s (actions tr)) = processingState s
  /\ applyAll s (actions tr) = s.
Proof.
  apply (C8_blank_utterance_has_no_effect (Demo.heroWith "   ")).
  reflexivity.
Defined.

Lemma C1_pipeline_failure_witness :
  let s := Demo.heroWith "I want to sell tea in Indiranagar" in
  let tr := run (Hero.startAnalysis (P := Demo.parser) s)
                [Resolved (Some "tea-in-indiranagar");
                 Resolved (Some "Rents are about 8000 a month");
                 Resolved (Some "not json")] in
  let s' := applyAll s (actions tr) in
  returned tr = true
  /\ messages s' =
       messages s ++ [userMessage (transcript s); aiMessage failureText]
  /\ processingState s' = idle
  /\ plansHanded (actions tr) = [].
Proof.
  apply (@C1_pipeline_failure_is_contained).
  - vm_compute. discriminate.
  - eapply (@Spec.generation_fails Demo.parser); reflexivity.
Defined.

Lemma C6_insufficient_witness :
  let s := Demo.heroWith "I want to sell tea" in
  let tr := run (Hero.startAnalysis (P := Demo.parser) s)
                [Resolved (Some "ask-location"); Resolved (Some "unused")] in
  let s' := applyAll s (actions tr) in
  messages s' =
    messages s
    ++ [userMessage (transcript s);
        aiMessage "Great idea! Where in Bangalore do you want to start?"]
  /\ processingState s' = idle
  /\ requests tr =
       [AnalyzeIntent (historyText (messages s ++ [userMessage (transcript s)]))
                      (language s)]
  /\ returned tr = true
  /\ plansHanded (actions tr) = [].
Proof.
  apply (@C6_insufficient_asks_for_clarification Demo.parser
           (Demo.heroWith "I want to sell tea")
           (Resolved (Some "ask-location")) [Resolved (Some "unused")]
           Demo.askLocation).
  - vm_compute. discriminate.
  - reflexivity.
  - reflexivity.
  - reflexivity.
  - discriminate.
Defined.

Lemma C7_research_query_witness :
  let s := Demo.heroWith "A tea stall in Indiranagar" in
  let issued :=
    requests (run (Hero.startAnalysis (P := Demo.parser) s)
                  [Resolved (Some "tea-in-indiranagar")]) !! 1 in
  (forall q, search_query Demo.teaInIndiranagar = Some q -> q <> "" ->
             issued = Some (Research q))
  /\ (search_query Demo.teaInIndiranagar = None
      \/ search_query Demo.teaInIndiranagar = Some "" ->
      issued = Some (Research (Spec.guideQuery "tea stall" "Indiranagar"
                       (Spec.fixedTopics "tea stall" "Indiranagar"))))
  /\ length (Spec.fixedTopics "tea stall" "Indiranagar") = 5.
Proof.
  apply (@C7_research_query Demo.parser
           (Demo.heroWith "A tea stall in Indiranagar")
           (Resolved (Some "tea-in-indiranagar")) [] Demo.teaInIndiranagar).
  - vm_compute. discriminate.
  - reflexivity.
  - reflexivity.
Defined.

End HeroWitnesses.

(** ** Refinement and field verification *)

Section DashboardProperties.
Context {P : Parser}.
Import PlanDashboard.

Lemma handleRefine_blank (s : State) (manualInput : option string) :
  trim (or_else manualInput (chatInput s)) = "" ->
  handleRefine s manualInput = Finish [].
Proof. intros H. unfold handleRefine. by rewrite H. Qed.

Lemma handleRefine_accepted (s : State) (manualInput : option string) :
  trim (or_else manualInput (chatInput s)) <> "" ->
  handleRefine s manualInput =
    Await [setChatInput "";
           setChatHistory_prev [userMessage (or_else manualInput (chatInput s))];
           setIsRefining true;
           setChatFocusMode false]
          (RefinePlan (currentPlan s) (map text (chatHistory s))
                      (or_else manualInput (chatInput s)))
          afterRefine.
Proof.
  intros H. apply truthy_true in H. unfold handleRefine. by rewrite H.
Qed.

(** C10. A refinement instruction that trims to the empty string, with
    no quick-prompt input, makes [handleRefine] a no-op: it makes no
    setter call and issues no request, so no turn is appended to the
    refinement chat, the current plan is unchanged and nothing is sent
    to the backend. *)
Theorem C10_blank_refinement_is_noop (s : State) (replies : list Reply) :
  trim (chatInput s) = "" ->
  let tr := run (handleRefine s None) replies in
  actions tr = []
  /\ requests tr = []
  /\ returned tr = true
  /\ chatHistory (applyAll s (actions tr)) = chatHistory s
  /\ currentPlan (applyAll s (actions tr)) = currentPlan s
  /\ applyAll s (actions tr) = s.
Proof.
  intros Hblank tr. subst tr.
  rewrite (handleRefine_blank s None Hblank). simpl.
  repeat split; reflexivity.
Qed.

(** The three ways a refinement can end. *)
Lemma afterRefine_cases (r : Reply) :
  afterRefine r =
    match Spec.refinementOf r with
    | Some newPlan =>
        Finish [setCurrentPlan newPlan;
                setChatHistory_prev [aiMessage confirmationText;
                                     aiMessage solicitationText];
                setShowFeedbackModal_later;
                setIsRefining false]
    | None =>
        if Spec.noText r then Finish [setIsRefining false]
        else Finish [setChatHistory_prev [aiMessage apologyText];
                     setIsRefining false]
    end.
Proof.
  destruct r as [|[t|]]; simpl; try reflexivity.
  destruct (truthy t); simpl; [|reflexivity].
  destruct (parsePlan t); reflexivity.
Qed.

(** C2, as the code has it.  For a non-empty instruction the handler
    issues one refinement request and returns on its reply.  When the
    reply carries a plan, the current plan becomes that plan, whole, and
    two assistant turns (the confirmation and the request for a rating)
    follow the user's turn.  When the call fails or its text does not
    parse, one apologetic assistant turn follows the user's turn and the
    plan is unchanged.  When the reply carries no text, no assistant
    turn is appended and the plan is unchanged. *)
Theorem C2_refine_outcomes (s : State) (manualInput : option string)
    (r : Reply) :
  let instruction := or_else manualInput (chatInput s) in
  trim instruction <> "" ->
  let tr := run (handleRefine s manualInput) [r] in
  let s' := applyAll s (actions tr) in
  returned tr = true
  /\ requests tr =
       [RefinePlan (currentPlan s) (map text (chatHistory s)) instruction]
  /\ match Spec.refinementOf r with
     | Some newPlan =>
         currentPlan s' = newPlan
         /\ chatHistory s' =
              chatHistory s ++ [userMessage instruction;
                                aiMessage confirmationText;
                                aiMessage solicitationText]
     | None =>
         currentPlan s' = currentPlan s
         /\ chatHistory s' =
              chatHistory s
              ++ userMessage instruction
                 :: (if Spec.noText r then [] else [aiMessage apologyText])
     end.
Proof.
  intros instruction Hok tr s'. subst tr s' instruction.
  rewrite (handleRefine_accepted s manualInput Hok).
  cbn [run]. rewrite afterRefine_cases.
  destruct (Spec.refinementOf r) as [newPlan|].
  - simpl. repeat split; try reflexivity. by rewrite <- app_assoc.
  - destruct (Spec.noText r); simpl; repeat split; try reflexivity.
    by rewrite <- app_assoc.
Qed.

(** Object spread is a shallow merge. *)
Lemma spread_ShallowMerge (item updatedItem : RegulatoryDetail) :
  Spec.ShallowMerge item updatedItem (spread item updatedItem).
Proof.
  unfold spread. split.
  - intros k v Hk. by apply lookup_union_Some_l.
  - intros k Hk. by apply lookup_union_r.
Qed.

Lemma withLegalRequirements_frame (prev : BusinessPlan)
    (reqs : list RegulatoryDetail) :
  Spec.sameOutsideLegal prev (withLegalRequirements prev reqs).
Proof. repeat split. Qed.

(** The patch is applied to the plan of the render in which the
    reply arrives: whatever that plan is by then, its fields other than
    [legal_requirements] are kept. *)
Lemma afterVerify_frame (reqs : list RegulatoryDetail) (index : nat)
    (item : RegulatoryDetail) (r : Reply) (later : State) :
  Spec.sameOutsideLegal (currentPlan later)
    (currentPlan (applyAll later (actions (run (afterVerify reqs index item r) [])))).
Proof.
  unfold afterVerify. destruct r as [|t]; [repeat split|].
  destruct (parseText parseRegulatoryDetail t); repeat split.
Qed.

(** A verification on its own: the reply meets the state the handler
    was called on.  Verifying the entry at an index [i] of
    [legal_requirements] issues one request and returns on its reply.
    Whatever the reply, the entries at the other indices are the same as
    before, the list keeps its length, and every plan field other than
    [legal_requirements] is unchanged.  When the reply parses, the entry
    at [i] becomes the shallow merge of the reply onto the old entry:
    the reply's properties override, and a property absent from the
    reply keeps its prior value.  When the call fails or the reply does
    not parse, the plan is unchanged. *)
Lemma verification_alone_patches_one_entry (s : State) (i : nat)
    (item : RegulatoryDetail) (r : Reply) :
  legal_requirements (currentPlan s) !! i = Some item ->
  let tr := run (handleVerifyLegal s i) [r] in
  let p := currentPlan s in
  let p' := currentPlan (applyAll s (actions tr)) in
  returned tr = true
  /\ (forall j, j <> i -> legal_requirements p' !! j = legal_requirements p !! j)
  /\ length (legal_requirements p') = length (legal_requirements p)
  /\ Spec.sameOutsideLegal p p'
  /\ match Spec.patchOf r with
     | Some updatedItem =>
         exists merged,
           legal_requirements p' !! i = Some merged
           /\ Spec.ShallowMerge item updatedItem merged
     | None => p' = p
     end.
Proof.
  intros Hitem tr p p'. subst tr p p'.
  unfold handleVerifyLegal. rewrite Hitem. cbn [run].
  unfold afterVerify.
  destruct r as [|t]; cbn [Spec.patchOf].
  - simpl. repeat split; reflexivity.
  - destruct (parseText parseRegulatoryDetail t) as [updatedItem|]; simpl.
    + split; [reflexivity|]. split; [|split; [|split]].
      * intros j Hj. by apply list_lookup_insert_ne.
      * apply length_insert.
      * repeat split.
      * exists (spread item updatedItem). split.
        -- apply list_lookup_insert_eq. by eapply lookup_lt_Some.
        -- apply spread_ShallowMerge.
    + repeat split; reflexivity.
Qed.

End DashboardProperties.

Section DashboardWitnesses.
Import PlanDashboard.

Lemma C10_blank_refinement_witness :
  let s := Demo.dashboardWith "  " in
  let tr := run (handleRefine (P := Demo.parser) s None)
                [Resolved (Some "cheaper-tea-stall")] in
  actions tr = []
  /\ requests tr = []
  /\ returned tr = true
  /\ chatHistory (applyAll s (actions tr)) = chatHistory s
  /\ currentPlan (applyAll s (actions tr)) = currentPlan s
  /\ applyAll s (actions tr) = s.
Proof.
  apply (@C10_blank_refinement_is_noop Demo.parser (Demo.dashboardWith "  ")).
  reflexivity.
Defined.

(** C2 as stated fails when the backend resolves without text: the
    handler then appends no assistant turn at all, so the refinement has
    neither of the two outcomes. *)
Lemma C2_counterexample_no_text :
  trim (chatInput (Demo.dashboardWith "Reduce startup cost by 20%")) <> ""
  /\ ~ Spec.RefinedOrApologised (P := Demo.parser)
         (Demo.dashboardWith "Reduce startup cost by 20%") None (Resolved None).
Proof.
  split; [vm_compute; discriminate|].
  intros [(newPlan & Hplan & _) | [_ Hchat]].
  - discriminate Hplan.
  - vm_compute in Hchat. discriminate Hchat.
Qed.

Lemma C2_refine_outcomes_witness :
  let s := Demo.dashboardWith "Reduce startup cost by 20%" in
  let instruction := "Reduce startup cost by 20%" in
  let tr := run (handleRefine (P := Demo.parser) s None)
                [Resolved (Some "cheaper-tea-stall")] in
  let s' := applyAll s (actions tr) in
  returned tr = true
  /\ requests tr =
       [RefinePlan (currentPlan s) (map text (chatHistory s)) instruction]
  /\ currentPlan s' = Demo.plan "Cheaper tea stall"
  /\ chatHistory s' =
       chatHistory s ++ [userMessage instruction;
                         aiMessage confirmationText;
                         aiMessage solicitationText].
Proof.
  refine (@C2_refine_outcomes Demo.parser
            (Demo.dashboardWith "Reduce startup cost by 20%") None
            (Resolved (Some "cheaper-tea-stall")) _).
  vm_compute. discriminate.
Defined.

Lemma verification_alone_witness :
  let s := Demo.dashboardWith "" in
  let tr := run (handleVerifyLegal (P := Demo.parser) s 0)
                [Resolved (Some "new-fee")] in
  let p := currentPlan s in
  let p' := currentPlan (applyAll s (actions tr)) in
  returned tr = true
  /\ (forall j, j <> 0 -> legal_requirements p' !! j = legal_requirements p !! j)
  /\ length (legal_requirements p') = length (legal_requirements p)
  /\ Spec.sameOutsideLegal p p'
  /\ exists merged,
       legal_requirements p' !! 0 = Some merged
       /\ Spec.ShallowMerge Demo.fssai
            {[ "estimated_cost" := JStr "₹2,000";
               "local_authority_details" := JStr "BBMP" ]} merged.
Proof.
  refine (@verification_alone_patches_one_entry Demo.parser (Demo.dashboardWith "") 0
            Demo.fssai (Resolved (Some "new-fee")) _).
  reflexivity.
Defined.

End DashboardWitnesses.

(** ** Numbers *)

Section NumberProperties.
Local Open Scope Z_scope.

Lemma binary_round_aux_sign (s : bool) (m e : Z) (l : location) :
  signed_or_nan s (binary_round_aux prec emax s m e l).
Proof.
  unfold binary_round_aux.
  destruct (shr_fexp prec emax m e l) as [mrs e'].
  destruct (shr_fexp prec emax _ e' loc_Exact) as [mrs' e''].
  destruct (shr_m mrs'); [reflexivity | | exact I].
  destruct (e'' <=? emax - prec); reflexivity.
Qed.

Lemma binary_round_sign (s : bool) (m : positive) (e : Z) :
  signed_or_nan s (binary_round prec emax s m e).
Proof.
  unfold binary_round. destruct (shl_align _ _ _) as [mz ez].
  apply binary_round_aux_sign.
Qed.

Lemma binary_normalize_negative (m e : Z) (sz : bool) :
  m < 0 -> signed_or_nan true (binary_normalize prec emax m e sz).
Proof.
  intros Hm. destruct m as [|p|p]; try lia. apply binary_round_sign.
Qed.

Lemma signed_not_positive (x : number) :
  signed_or_nan true x -> positive_finite x = false.
Proof. destruct x as [| | |[]]; simpl; congruence. Qed.

(** The calculator shows a number of units only for a finite result
    above zero. *)
Lemma breakEvenDisplay_unbounded (u : number) :
  positive_finite u = false -> breakEvenDisplay u = ShownUnbounded.
Proof.
  destruct u as [[]|[]| |[] m e]; simpl; try reflexivity; discriminate.
Qed.

Lemma breakEvenDisplay_units (u : number) :
  positive_finite u = true -> breakEvenDisplay u = ShownUnits u.
Proof.
  destruct u as [[]|[]| |[] m e]; simpl; try reflexivity; discriminate.
Qed.

(** Rounding up cannot make a positive number out of one that is not. *)
Lemma Math_ceil_not_positive (x : number) :
  positive_finite x = false -> positive_finite (Math_ceil x) = false.
Proof.
  destruct x as [s|s| |s m e]; try (intros; assumption).
  destruct s; [intros _|discriminate]. unfold Math_ceil.
  destruct (0 <=? e); [reflexivity|].
  assert (Hq : 0 <= Z.shiftr (Z.pos m) (- e)) by (apply Z.shiftr_nonneg; lia).
  destruct (Z.shiftr (Z.pos m) (- e) =? 0) eqn:E; [reflexivity|].
  apply Z.eqb_neq in E.
  apply signed_not_positive, binary_normalize_negative. lia.
Qed.

Lemma Math_ceil_not_finite (x : number) :
  isFinite x = false -> isFinite (Math_ceil x) = false.
Proof. destruct x; simpl; congruence. Qed.

(** A quotient of a non-negative number by a negative one is not
    positive. *)
Lemma div_not_positive (f d : number) :
  nonnegative f -> signed_or_nan true d -> positive_finite (div f d) = false.
Proof.
  intros Hf Hd.
  destruct f as [sf|sf| |sf mf ef]; destruct d as [sd|sd| |sd md ed];
    simpl in Hf, Hd; subst; try contradiction; try reflexivity;
    try (destruct sf; try contradiction; reflexivity).
  destruct sf; [contradiction|].
  unfold div, SFdiv.
  destruct (SFdiv_core_binary _ _ _ _ _ _) as [[mz ez] lz].
  apply signed_not_positive. apply (binary_round_aux_sign true).
Qed.

(** Dividing by a zero or by NaN gives an infinity or NaN. *)
Lemma div_by_zero_not_finite (f d : number) :
  match d with S754_zero _ | S754_nan => True | _ => False end ->
  isFinite (div f d) = false.
Proof. destruct f, d; simpl; try contradiction; reflexivity. Qed.

Lemma leb_zero_nonnegative (f : number) :
  leb (of_Z 0) f = true -> nonnegative f.
Proof.
  destruct f as [s|[]| |[] m e]; simpl; try exact (fun _ => I); discriminate.
Qed.

(** *** The order of two numbers and the sign of their difference *)

Lemma digits2_pos_upper (m : positive) :
  Z.pos m < 2 ^ Z.pos (digits2_pos m).
Proof.
  induction m as [m IH|m IH|]; cbn [digits2_pos].
  - rewrite Pos2Z.inj_succ, Z.pow_succ_r by lia. lia.
  - rewrite Pos2Z.inj_succ, Z.pow_succ_r by lia. lia.
  - reflexivity.
Qed.

Lemma digits2_pos_lower (m : positive) :
  2 ^ (Z.pos (digits2_pos m) - 1) <= Z.pos m.
Proof.
  induction m as [m IH|m IH|]; cbn [digits2_pos].
  - rewrite Pos2Z.inj_succ.
    replace (Z.succ (Z.pos (digits2_pos m)) - 1)
      with (Z.succ (Z.pos (digits2_pos m) - 1)) by lia.
    rewrite Z.pow_succ_r by lia. lia.
  - rewrite Pos2Z.inj_succ.
    replace (Z.succ (Z.pos (digits2_pos m)) - 1)
      with (Z.succ (Z.pos (digits2_pos m) - 1)) by lia.
    rewrite Z.pow_succ_r by lia. lia.
  - reflexivity.
Qed.

Lemma iter_xO_value (m d : positive) :
  Z.pos (Pos.iter xO m d) = Z.pos m * 2 ^ Z.pos d.
Proof.
  induction d as [|d IH] using Pos.peano_ind.
  - cbn [Pos.iter]. change (2 ^ 1) with 2. lia.
  - rewrite Pos.iter_succ, Pos2Z.inj_succ, Z.pow_succ_r by lia.
    rewrite Pos2Z.inj_xO, IH. lia.
Qed.

(** Aligning a mantissa to a smaller exponent multiplies it by the
    matching power of two. *)
Lemma shl_align_value (m : positive) (e ez : Z) :
  ez <= e -> Z.pos (fst (shl_align m e ez)) = Z.pos m * 2 ^ (e - ez).
Proof.
  intros Hle. unfold shl_align.
  destruct (ez - e) as [|d|d] eqn:E; try lia.
  - replace (e - ez) with 0 by lia. simpl. lia.
  - cbn [fst]. rewrite iter_xO_value. f_equal. f_equal. lia.
Qed.

(** Of two binary64 numbers in normal form, the one with the smaller
    exponent is the smaller. *)
Lemma bounded_lt_exponent (m1 m2 : positive) (e1 e2 : Z) :
  bounded prec emax m1 e1 = true -> bounded prec emax m2 e2 = true ->
  e1 < e2 -> Z.pos m1 < Z.pos m2 * 2 ^ (e2 - e1).
Proof.
  unfold bounded, canonical_mantissa, fexp, SpecFloat.emin, prec, emax.
  intros H1 H2 Hlt.
  apply andb_prop in H1 as [H1 _]. apply andb_prop in H2 as [H2 _].
  apply Z.eqb_eq in H1, H2.
  assert (Hd1 : Z.pos (digits2_pos m1) <= 53) by lia.
  assert (Hd2 : Z.pos (digits2_pos m2) = 53) by lia.
  pose proof (digits2_pos_upper m1) as U1.
  pose proof (digits2_pos_lower m2) as L2. rewrite Hd2 in L2.
  assert (Z.pos m1 < 2 ^ 53).
  { eapply Z.lt_le_trans; [exact U1|]. apply Z.pow_le_mono_r; lia. }
  assert (2 ^ 1 <= 2 ^ (e2 - e1)) by (apply Z.pow_le_mono_r; lia).
  change (2 ^ (53 - 1)) with 4503599627370496 in L2.
  change (2 ^ 53) with 9007199254740992 in *.
  change (2 ^ 1) with 2 in *. nia.
Qed.

Lemma aligned_difference_negative (s1 s2 : bool) (m1 m2 : positive)
    (e1 e2 : Z) :
  bounded prec emax m1 e1 = true -> bounded prec emax m2 e2 = true ->
  SFcompare (S754_finite s1 m1 e1) (S754_finite s2 m2 e2) = Some Lt ->
  aligned_difference s1 m1 e1 s2 m2 e2 < 0.
Proof.
  intros B1 B2 Hcmp. unfold aligned_difference.
  rewrite !shl_align_value by lia.
  cbn [SFcompare] in Hcmp.
  destruct s1, s2; cbn [cond_Zopp]; try discriminate.
  - (* both negative *)
    destruct (Z.compare_spec e1 e2) as [He|He|He]; try discriminate.
    + subst e2. rewrite Z.min_id, Z.sub_diag. simpl.
      rewrite Pos.compare_cont_spec in Hcmp. simpl in Hcmp.
      destruct (Pos.compare_spec m1 m2); try discriminate. lia.
    + rewrite Z.min_r by lia. rewrite Z.sub_diag, Z.mul_1_r.
      pose proof (bounded_lt_exponent m2 m1 e2 e1 B2 B1 He). lia.
  - (* negative less than positive *)
    assert (0 < Z.pos m1 * 2 ^ (e1 - Z.min e1 e2))
      by (apply Z.mul_pos_pos; [lia | apply Z.pow_pos_nonneg; lia]).
    assert (0 < Z.pos m2 * 2 ^ (e2 - Z.min e1 e2))
      by (apply Z.mul_pos_pos; [lia | apply Z.pow_pos_nonneg; lia]).
    lia.
  - (* both positive *)
    destruct (Z.compare_spec e1 e2) as [He|He|He]; try discriminate.
    + subst e2. rewrite Z.min_id, Z.sub_diag. simpl.
      rewrite Pos.compare_cont_spec in Hcmp. simpl in Hcmp.
      destruct (Pos.compare_spec m1 m2); try discriminate. lia.
    + rewrite Z.min_l by lia. rewrite Z.sub_diag, Z.mul_1_r.
      pose proof (bounded_lt_exponent m1 m2 e1 e2 B1 B2 He). lia.
Qed.

(** A smaller number minus a larger one is negative (or NaN). *)
Lemma sub_negative (p v : number) :
  valid p = true -> valid v = true -> ltb p v = true ->
  signed_or_nan true (sub p v).
Proof.
  intros Vp Vv Hlt. unfold ltb, SFltb in Hlt.
  destruct (SFcompare p v) as [[]|] eqn:Hcmp; try discriminate. clear Hlt.
  destruct p as [s1|s1| |s1 m1 e1]; destruct v as [s2|s2| |s2 m2 e2];
    try discriminate;
    try (destruct s1; try discriminate; try destruct s2; try discriminate;
         simpl; reflexivity);
    try (destruct s2; try discriminate; simpl; reflexivity).
  unfold sub, SFsub. apply binary_normalize_negative.
  apply (aligned_difference_negative s1 s2 m1 m2 e1 e2 Vp Vv Hcmp).
Qed.

(** Equal numbers have a zero difference (NaN for two infinities). *)
Lemma sub_equal (p v : number) :
  eqb p v = true ->
  match sub p v with S754_zero _ | S754_nan => True | _ => False end.
Proof.
  intros Heq. unfold eqb, SFeqb in Heq.
  destruct (SFcompare p v) as [[]|] eqn:Hcmp; try discriminate. clear Heq.
  destruct p as [s1|s1| |s1 m1 e1]; destruct v as [s2|s2| |s2 m2 e2];
    try discriminate;
    try (destruct s1; try discriminate; try destruct s2; try discriminate;
         simpl; exact I);
    try (destruct s2; try discriminate; simpl; exact I).
  cbn [SFcompare] in Hcmp.
  assert (s1 = s2 /\ e1 = e2 /\ m1 = m2) as (-> & -> & ->).
  { destruct s1, s2; try discriminate;
      destruct (Z.compare_spec e1 e2); try discriminate;
      rewrite Pos.compare_cont_spec in Hcmp; simpl in Hcmp;
      destruct (Pos.compare_spec m1 m2); try discriminate; auto. }
  unfold sub, SFsub. rewrite Z.sub_diag. exact I.
Qed.

(** *** The break-even computation *)

Lemma breakEvenUnits_equal_prices (price variableCost fixedCost : number) :
  eqb price variableCost = true ->
  isFinite (breakEvenUnits price variableCost fixedCost) = false.
Proof.
  intros Heq. unfold breakEvenUnits.
  apply Math_ceil_not_finite, div_by_zero_not_finite.
  apply (sub_equal _ _ Heq).
Qed.

Lemma not_finite_not_positive (x : number) :
  isFinite x = false -> positive_finite x = false.
Proof. destruct x as [| | |[]]; simpl; congruence. Qed.

Lemma breakEvenUnits_not_positive (price variableCost fixedCost : number) :
  valid price = true -> valid variableCost = true ->
  leb price variableCost = true ->
  leb (of_Z 0) fixedCost = true ->
  positive_finite (breakEvenUnits price variableCost fixedCost) = false.
Proof.
  intros Vp Vv Hle Hf.
  destruct (eqb price variableCost) eqn:Heq.
  - by apply not_finite_not_positive, breakEvenUnits_equal_prices.
  - assert (Hlt : ltb price variableCost = true).
    { unfold leb, SFleb in Hle. unfold eqb, SFeqb in Heq. unfold ltb, SFltb.
      destruct (SFcompare price variableCost) as [[]|]; congruence. }
    unfold breakEvenUnits.
    apply Math_ceil_not_positive, div_not_positive.
    + by apply leb_zero_nonnegative.
    + by apply sub_negative.
Qed.

(** C3, as the code has it.  The break-even figure is
    [ceil(fixedCost / (price - variableCost))]; for 100, 40 and 6000 it
    is 100, and for 50, 50 and 1000 it is not finite.  Whenever the
    price equals the variable cost the figure is not finite (an infinity
    or NaN) and the calculator shows it as unbounded.  Whenever the
    price is at most the variable cost and the fixed cost is not
    negative, the figure is not a finite number above zero and the
    calculator shows it as unbounded; no error is raised in any case,
    the computation being total. *)
Theorem C3_break_even_units (price variableCost fixedCost : number) :
  valid price = true -> valid variableCost = true ->
  breakEvenUnits price variableCost fixedCost
    = Math_ceil (div fixedCost (sub price variableCost))
  /\ breakEvenUnits (of_Z 100) (of_Z 40) (of_Z 6000) = of_Z 100
  /\ isFinite (breakEvenUnits (of_Z 50) (of_Z 50) (of_Z 1000)) = false
  /\ (eqb price variableCost = true ->
      isFinite (breakEvenUnits price variableCost fixedCost) = false
      /\ breakEvenDisplay (breakEvenUnits price variableCost fixedCost)
         = ShownUnbounded)
  /\ (leb price variableCost = true -> leb (of_Z 0) fixedCost = true ->
      breakEvenDisplay (breakEvenUnits price variableCost fixedCost)
      = ShownUnbounded).
Proof.
  intros Vp Vv. split; [reflexivity|]. split; [vm_compute; reflexivity|].
  split; [vm_compute; reflexivity|]. split.
  - intros Heq.
    pose proof (breakEvenUnits_equal_prices _ _ fixedCost Heq) as Hnf.
    split; [exact Hnf|].
    by apply breakEvenDisplay_unbounded, not_finite_not_positive.
  - intros Hle Hf.
    by apply breakEvenDisplay_unbounded, breakEvenUnits_not_positive.
Qed.

(** C3 as stated fails for a price below the variable cost: for 40, 50
    and 1000 the figure is the finite number -100.  Nor is such a figure
    always shown as unbounded: for 40, 50 and a fixed cost of -1000 the
    calculator shows 100 units. *)
Lemma C3_counterexample_price_below_cost :
  ~ Spec.UnboundedAsClaimed (of_Z 40) (of_Z 50) (of_Z 1000)
  /\ breakEvenUnits (of_Z 40) (of_Z 50) (of_Z 1000) = of_Z (-100)
  /\ ~ Spec.UnboundedAsClaimed (of_Z 40) (of_Z 50) (of_Z (-1000))
  /\ breakEvenDisplay (breakEvenUnits (of_Z 40) (of_Z 50) (of_Z (-1000)))
     = ShownUnits (of_Z 100).
Proof.
  split; [|split; [|split]].
  - intros H. destruct (H eq_refl) as [Hfin _]. vm_compute in Hfin. discriminate.
  - vm_compute. reflexivity.
  - intros H. destruct (H eq_refl) as [Hfin _]. vm_compute in Hfin. discriminate.
  - vm_compute. reflexivity.
Qed.

Lemma C3_break_even_units_witness :
  breakEvenUnits (of_Z 40) (of_Z 50) (of_Z 1000)
    = Math_ceil (div (of_Z 1000) (sub (of_Z 40) (of_Z 50)))
  /\ breakEvenUnits (of_Z 100) (of_Z 40) (of_Z 6000) = of_Z 100
  /\ isFinite (breakEvenUnits (of_Z 50) (of_Z 50) (of_Z 1000)) = false
  /\ (eqb (of_Z 40) (of_Z 50) = true ->
      isFinite (breakEvenUnits (of_Z 40) (of_Z 50) (of_Z 1000)) = false
      /\ breakEvenDisplay (breakEvenUnits (of_Z 40) (of_Z 50) (of_Z 1000))
         = ShownUnbounded)
  /\ (leb (of_Z 40) (of_Z 50) = true -> leb (of_Z 0) (of_Z 1000) = true ->
      breakEvenDisplay (breakEvenUnits (of_Z 40) (of_Z 50) (of_Z 1000))
      = ShownUnbounded).
Proof.
  apply (C3_break_even_units (of_Z 40) (of_Z 50) (of_Z 1000));
    vm_compute; reflexivity.
Defined.

(** *** Reading an amount out of free text *)

Lemma take_while_all (p : ascii -> bool) (s : string) :
  all_chars p (take_while p s) = true.
Proof.
  induction s as [|c r IH]; [reflexivity|]. simpl.
  destruct (p c) eqn:E; [|reflexivity]. simpl. by rewrite E, IH.
Qed.

(** The run found by the regular expression is not empty and holds
    digits, commas and periods only. *)
Lemma match_run_class (s m : string) :
  match_run s = Some m -> truthy m = true /\ all_chars in_class m = true.
Proof.
  induction s as [|c r IH]; [discriminate|]. simpl.
  destruct (in_class c) eqn:E; [|exact IH].
  intros [= <-]. split; [reflexivity|]. simpl. by rewrite E, take_while_all.
Qed.

(** [parseFloat] is only ever given digits and periods. *)
Lemma parseCurrency_argument (s m : string) :
  match_run s = Some m ->
  all_chars (fun c => is_digit c || (byte c =? 46)%N) (remove_commas m) = true.
Proof.
  intros H. apply match_run_class in H as [_ H].
  induction m as [|c r IH]; [reflexivity|]. simpl in H |- *.
  apply andb_prop in H as [Hc Hr]. unfold in_class in Hc.
  destruct (byte c =? 44)%N eqn:E; [by apply IH|].
  simpl. rewrite (IH Hr), andb_true_r.
  rewrite orb_false_r in Hc. exact Hc.
Qed.

(** Without a digit, comma or period in the text, the amount is 0. *)
Lemma parseCurrency_no_run (s : string) :
  match_run s = None -> parseCurrency s = of_Z 0.
Proof.
  intros H. unfold parseCurrency. rewrite H. by destruct (negb (truthy s)).
Qed.

Lemma take_while_digits (d : string) :
  all_chars is_digit d = true ->
  take_while is_digit d = d /\ drop_while is_digit d = "".
Proof.
  induction d as [|c r IH]; [done|]. simpl. intros H.
  apply andb_prop in H as [Hc Hr]. rewrite Hc.
  destruct (IH Hr) as [-> ->]. done.
Qed.

Lemma append_empty_r (s : string) : s +:+ "" = s.
Proof.
  induction s as [|c r IH]; [reflexivity|].
  change (String c (r +:+ "") = String c r). by rewrite IH.
Qed.

(** When the first run, its commas removed, is a plain run of digits, the
    amount is the number those digits denote. *)
Lemma parseCurrency_digits (s m : string) :
  match_run s = Some m ->
  all_chars is_digit (remove_commas m) = true ->
  truthy (remove_commas m) = true ->
  parseCurrency s = of_Z (digits_value 0 (remove_commas m)).
Proof.
  intros Hm Hd Hne. unfold parseCurrency. rewrite Hm.
  assert (Hs : truthy s = true) by (destruct s; [discriminate Hm | reflexivity]).
  rewrite Hs. cbn [negb]. unfold parseFloat.
  destruct (take_while_digits _ Hd) as [-> ->].
  rewrite Hne. cbn [orb String.length]. rewrite append_empty_r.
  unfold decimal. by destruct (digits_value 0 (remove_commas m)).
Qed.

(** C5. [parseCurrency] on the amounts of the specification and on a
    text whose first run of digits and separators holds no digit.
    "₹1,250 per month" gives 1250, "₹10,000/month" gives 10000 and
    "varies", which has no run, gives 0.  In "Rs. 500 per month" the
    first run is the period after "Rs": the result is NaN, neither the
    500 that follows nor the 0 of an unparseable text; and NaN then makes
    the sum of the fixed costs NaN as well. *)
Theorem C5_parseCurrency_separator_run :
  parseCurrency "₹1,250 per month" = of_Z 1250
  /\ parseCurrency "₹10,000/month" = of_Z 10000
  /\ parseCurrency "varies" = of_Z 0
  /\ match_run "Rs. 500 per month" = Some "."
  /\ parseCurrency "Rs. 500 per month" = NaN
  /\ totalFixedCost ["Rs. 500 per month"; "₹1,250 per month"] = NaN.
Proof. repeat split; vm_compute; reflexivity. Qed.

End NumberProperties.

(** ** The session: gating and stale replies *)

Section AppProperties.
Context {P : Parser}.
Import App.

(** *** Handlers of [Hero] are gated *)

Lemma Busy_intro (acts : list Hero.Action) (p : Hero.ProcessingState) :
  Hero.plansHanded acts = [] ->
  (forall h, Hero.processingState (Hero.applyAll h acts) = p) ->
  p <> Hero.idle -> Busy acts.
Proof. intros Hp Hs Hne. split; [exact Hp|]. intros h. by rewrite Hs. Qed.

Lemma generatePlan_Gated (history lang : string) (a : AnalysisResult)
    (context : option string) :
  Gated (Hero.generatePlan history lang a context).
Proof.
  unfold Hero.generatePlan. constructor.
  - by apply (Busy_intro _ Hero.generating).
  - intros [|t]; [constructor|].
    destruct (parseText parsePlan t); constructor.
Qed.

Lemma research_Gated (history lang : string) (a : AnalysisResult) :
  Gated (Hero.research history lang a).
Proof.
  unfold Hero.research. constructor.
  - by apply (Busy_intro _ Hero.researching).
  - intros [|t]; [constructor|]. apply generatePlan_Gated.
Qed.

Lemma afterAnalysis_Gated (history lang : string) (r : Reply) :
  Gated (Hero.afterAnalysis history lang r).
Proof.
  unfold Hero.afterAnalysis. destruct r as [|t]; [constructor|].
  destruct (parseText parseAnalysis t) as [a|]; [|constructor].
  destruct (negb (is_sufficient a)); [constructor|]. apply research_Gated.
Qed.

Lemma startAnalysis_Gated (h : Hero.State) : Gated (Hero.startAnalysis h).
Proof.
  unfold Hero.startAnalysis.
  destruct (negb (truthy (trim (Hero.transcript h)))); constructor.
  - by apply (Busy_intro _ Hero.analyzing).
  - apply afterAnalysis_Gated.
Qed.

(** *** What setter calls do to a session *)

Lemma heroAction_inflight (o : nat) (a : Hero.Action) (w : World) :
  inflight (heroAction o w a) = inflight w
  /\ instance w <= instance (heroAction o w a).
Proof.
  unfold heroAction, setGeneratedPlan.
  destruct a; destruct (screen w); try destruct (Nat.eqb o (instance w));
    simpl; split; try reflexivity; lia.
Qed.

Lemma heroActions_inflight (o : nat) (acts : list Hero.Action) (w : World) :
  inflight (fold_left (heroAction o) acts w) = inflight w
  /\ instance w <= instance (fold_left (heroAction o) acts w).
Proof.
  revert w. induction acts as [|a acts IH]; intros w; simpl; [done|].
  destruct (IH (heroAction o w a)) as [-> Hi].
  destruct (heroAction_inflight o a w) as [-> Hj]. split; [reflexivity | lia].
Qed.

(** Setter calls of the mounted [Hero] that hand over no plan change its
    state only. *)
Lemma heroActions_local (acts : list Hero.Action) (w : World) (h : Hero.State) :
  Hero.plansHanded acts = [] ->
  screen w = HeroScreen h ->
  fold_left (heroAction (instance w)) acts w
  = withScreen w (HeroScreen (Hero.applyAll h acts)).
Proof.
  revert w h. induction acts as [|a acts IH]; intros w h Hp Hs.
  - simpl. destruct w; simpl in *. by rewrite Hs.
  - assert (Ha : heroAction (instance w) w a
                 = withScreen w (HeroScreen (Hero.apply h a))).
    { unfold heroAction. rewrite Hs, Nat.eqb_refl.
      destruct a; try reflexivity. discriminate Hp. }
    assert (Hp' : Hero.plansHanded acts = []).
    { destruct a; try exact Hp. discriminate Hp. }
    cbn [fold_left]. rewrite Ha.
    change (instance w) with (instance (withScreen w (HeroScreen (Hero.apply h a)))).
    rewrite (IH (withScreen w (HeroScreen (Hero.apply h a))) (Hero.apply h a)
               Hp' eq_refl).
    reflexivity.
Qed.

(** Setter calls of a dashboard handler never touch [App]'s state, nor a
    mounted [Hero]. *)
Lemma dashboardActions_frame (o : nat) (acts : list PlanDashboard.Action)
    (w : World) :
  let w' := fold_left (dashboardAction o) acts w in
  generatedPlan w' = generatedPlan w
  /\ instance w' = instance w
  /\ inflight w' = inflight w
  /\ (forall h, screen w = HeroScreen h -> screen w' = HeroScreen h)
  /\ (forall d, screen w = DashboardScreen d ->
                exists d', screen w' = DashboardScreen d').
Proof.
  revert w. induction acts as [|a acts IH]; intros w; simpl.
  - repeat split; eauto.
  - destruct (IH (dashboardAction o w a)) as (Hg & Hi & Hf & Hh & Hd).
    assert (Hstep : generatedPlan (dashboardAction o w a) = generatedPlan w
                    /\ instance (dashboardAction o w a) = instance w
                    /\ inflight (dashboardAction o w a) = inflight w
                    /\ (forall h, screen w = HeroScreen h ->
                                  screen (dashboardAction o w a) = HeroScreen h)
                    /\ (forall d, screen w = DashboardScreen d ->
                          exists d', screen (dashboardAction o w a)
                                     = DashboardScreen d')).
    { unfold dashboardAction.
      destruct (screen w) as [h|d] eqn:E; [|destruct (Nat.eqb o (instance w))];
        simpl; rewrite ?E; repeat split; try done; eauto. }
    destruct Hstep as (Hg' & Hi' & Hf' & Hh' & Hd').
    rewrite Hg, Hi, Hf. repeat split; try assumption.
    + intros h Hs. apply Hh. by apply Hh'.
    + intros d Hs. destruct (Hd' d Hs) as [d' Hs']. by apply (Hd d').
Qed.

(** A dashboard handler whose instance is no longer the mounted one
    changes neither [App]'s state nor the screen. *)
Lemma dashboardActions_stale (o : nat) (acts : list PlanDashboard.Action)
    (w : World) :
  o <> instance w -> fold_left (dashboardAction o) acts w = w.
Proof.
  intros Hne. induction acts as [|a acts IH]; [reflexivity|].
  cbn [fold_left].
  assert (Ha : dashboardAction o w a = w).
  { unfold dashboardAction. destruct (screen w); [reflexivity|].
    apply Nat.eqb_neq in Hne. by rewrite Hne. }
  by rewrite Ha.
Qed.

(** *** The invariant *)

Lemma Invariant_initial : Invariant initial.
Proof.
  split; [|split].
  - intros o req k H. by apply elem_of_nil in H.
  - intros i j c c' H. discriminate H.
  - constructor.
Qed.

Lemma NoHeroCall_Invariant (w : World) :
  NoHeroCall (inflight w) ->
  Forall (fun c => ownerOf c <= instance w) (inflight w) ->
  Invariant w.
Proof.
  intros Hno Hown. split; [|split; [|exact Hown]].
  - intros o req k Hin.
    apply (proj1 (Forall_forall _ _) Hno) in Hin. discriminate Hin.
  - intros i j c c' Hi _ Hc _.
    apply list_elem_of_lookup_2 in Hi.
    apply (proj1 (Forall_forall _ _) Hno) in Hi. congruence.
Qed.

(** A call of [Hero] in flight means the mounted [Hero] is busy. *)
Lemma Invariant_dashboard (w : World) (d : PlanDashboard.State) :
  Invariant w -> screen w = DashboardScreen d -> NoHeroCall (inflight w).
Proof.
  intros (I2 & _ & _) Hs. apply Forall_forall. intros [o req k|o req k] Hin.
  - destruct (I2 o req k Hin) as (_ & (h & Hh & _) & _). congruence.
  - reflexivity.
Qed.

Lemma Invariant_idle (w : World) (h : Hero.State) :
  Invariant w -> screen w = HeroScreen h ->
  Hero.processingState h = Hero.idle -> NoHeroCall (inflight w).
Proof.
  intros (I2 & _ & _) Hs Hidle. apply Forall_forall.
  intros [o req k|o req k] Hin.
  - destruct (I2 o req k Hin) as (_ & (h' & Hh & Hbusy) & _).
    rewrite Hs in Hh. injection Hh as <-. contradiction.
  - reflexivity.
Qed.

(** Once the reply to the call of [Hero] is taken, none is left. *)
Lemma Invariant_delete_hero (w : World) (n o : nat) (req : Request)
    (k : Reply -> Task Hero.Action) :
  Invariant w -> inflight w !! n = Some (HeroCall o req k) ->
  NoHeroCall (delete n (inflight w)).
Proof.
  intros (_ & I3 & _) Hn. apply Forall_forall. intros c Hin.
  destruct (isHeroCall c) eqn:Hc; [|reflexivity].
  apply list_elem_of_lookup_1 in Hin as [j Hj].
  rewrite list_lookup_delete in Hj.
  destruct (decide (j < n)) as [Hlt|Hge].
  - pose proof (I3 _ _ _ _ Hj Hn Hc eq_refl). lia.
  - pose proof (I3 _ _ _ _ Hj Hn Hc eq_refl). lia.
Qed.

(** The invariant depends on the calls in flight, the instance number
    and, for a busy [Hero], on its staying a busy [Hero]. *)
Lemma Invariant_transfer (w w' : World) :
  inflight w' = inflight w -> instance w' = instance w ->
  (forall h, screen w = HeroScreen h -> screen w' = HeroScreen h) ->
  Invariant w -> Invariant w'.
Proof.
  intros Hf Hi Hs (I2 & I3 & I1). unfold Invariant. rewrite Hf, Hi.
  split; [|split; assumption].
  intros o req k Hin. destruct (I2 o req k Hin) as (Ho & (h & Hh & Hb) & Hg).
  split; [exact Ho|]. split; [|exact Hg]. exists h. split; [by apply Hs|exact Hb].
Qed.

Lemma Invariant_withoutCall (w : World) (n : nat) :
  Invariant w -> Invariant (withoutCall w n).
Proof.
  intros (I2 & I3 & I1). split; [|split]; cbn [withoutCall inflight instance screen].
  - intros o req k Hin. apply (I2 o req k). by eapply list_elem_of_delete_inv.
  - intros i j c c' Hi Hj Hc Hc'.
    rewrite list_lookup_delete in Hi, Hj.
    pose proof (I3 _ _ _ _ Hi Hj Hc Hc') as E.
    destruct (decide (i < n)), (decide (j < n)); lia.
  - by apply Forall_delete.
Qed.

Lemma Invariant_withCall_dashboard (w : World) (o : nat) (req : Request)
    (k : Reply -> Task PlanDashboard.Action) :
  Invariant w -> o <= instance w ->
  Invariant (withCall w (DashboardCall o req k)).
Proof.
  intros (I2 & I3 & I1) Ho.
  split; [|split]; cbn [withCall inflight instance screen].
  - intros o' req' k' Hin. apply elem_of_app in Hin as [Hin|Hin].
    + by apply (I2 o' req' k').
    + apply list_elem_of_singleton in Hin. discriminate Hin.
  - intros i j c c' Hi Hj Hc Hc'.
    apply lookup_app_Some in Hi as [Hi|[_ Hi]];
      apply lookup_app_Some in Hj as [Hj|[_ Hj]].
    + by apply (I3 _ _ _ _ Hi Hj).
    + apply list_elem_of_lookup_2, list_elem_of_singleton in Hj.
      subst c'. discriminate Hc'.
    + apply list_elem_of_lookup_2, list_elem_of_singleton in Hi.
      subst c. discriminate Hc.
    + apply list_elem_of_lookup_2, list_elem_of_singleton in Hi.
      subst c. discriminate Hc.
  - apply Forall_app. split; [exact I1|]. by constructor.
Qed.

Lemma Invariant_withCall_hero (w : World) (h : Hero.State) (req : Request)
    (k : Reply -> Task Hero.Action) :
  NoHeroCall (inflight w) ->
  Forall (fun c => ownerOf c <= instance w) (inflight w) ->
  screen w = HeroScreen h -> Hero.processingState h <> Hero.idle ->
  (forall r, Gated (k r)) ->
  Invariant (withCall w (HeroCall (instance w) req k)).
Proof.
  intros Hno I1 Hs Hbusy Hg.
  split; [|split]; cbn [withCall inflight instance screen].
  - intros o' req' k' Hin. apply elem_of_app in Hin as [Hin|Hin].
    + apply (proj1 (Forall_forall _ _) Hno) in Hin. discriminate Hin.
    + apply list_elem_of_singleton in Hin. injection Hin as -> -> ->.
      split; [reflexivity|]. split; [|exact Hg]. by exists h.
  - intros i j c c' Hi Hj Hc Hc'.
    apply lookup_app_Some in Hi as [Hi|[Hli Hi]].
    { apply list_elem_of_lookup_2 in Hi.
      apply (proj1 (Forall_forall _ _) Hno) in Hi. congruence. }
    apply lookup_app_Some in Hj as [Hj|[Hlj Hj]].
    { apply list_elem_of_lookup_2 in Hj.
      apply (proj1 (Forall_forall _ _) Hno) in Hj. congruence. }
    apply lookup_lt_Some in Hi, Hj. simpl in Hi, Hj. lia.
  - apply Forall_app. split; [exact I1|]. constructor; [simpl; lia|constructor].
Qed.

Lemma advanceDashboard_frame (o : nat) (w : World)
    (t : Task PlanDashboard.Action) :
  let w' := advanceDashboard o w t in
  generatedPlan w' = generatedPlan w
  /\ instance w' = instance w
  /\ (forall h, screen w = HeroScreen h -> screen w' = HeroScreen h).
Proof.
  destruct t as [acts|acts req k]; cbn [advanceDashboard];
    destruct (dashboardActions_frame o acts w) as (Hg & Hi & _ & Hh & _);
    cbn [withCall generatedPlan instance screen]; auto.
Qed.

Lemma advanceDashboard_Invariant (o : nat) (w : World)
    (t : Task PlanDashboard.Action) :
  Invariant w -> o <= instance w -> Invariant (advanceDashboard o w t).
Proof.
  intros Hinv Ho.
  destruct (dashboardActions_frame o
              (match t with Finish acts | Await acts _ _ => acts end) w)
    as (Hg & Hi & Hf & Hh & _).
  destruct t as [acts|acts req k]; cbn [advanceDashboard].
  - by apply (Invariant_transfer w).
  - apply Invariant_withCall_dashboard; [by apply (Invariant_transfer w)|].
    by rewrite Hi.
Qed.

Lemma advanceHero_Invariant (w : World) (h : Hero.State)
    (t : Task Hero.Action) :
  NoHeroCall (inflight w) ->
  Forall (fun c => ownerOf c <= instance w) (inflight w) ->
  screen w = HeroScreen h -> Gated t ->
  Invariant (advanceHero (instance w) w t)
  /\ instance w <= instance (advanceHero (instance w) w t).
Proof.
  intros Hno I1 Hs Hg. destruct Hg as [acts|acts req k [Hp Hbusy] Hk];
    cbn [advanceHero].
  - destruct (heroActions_inflight (instance w) acts w) as [Hf Hi].
    split; [|exact Hi]. apply NoHeroCall_Invariant; rewrite Hf; [exact Hno|].
    eapply Forall_impl; [exact I1|]. simpl. intros c Hc. lia.
  - rewrite (heroActions_local acts w h Hp Hs). split; [|simpl; lia].
    apply (Invariant_withCall_hero
             (withScreen w (HeroScreen (Hero.applyAll h acts)))
             (Hero.applyAll h acts)); auto.
Qed.

(** Every event keeps the invariant, and instance numbers only grow. *)
Lemma step_Invariant (w w' : World) (e : Event) :
  Invariant w -> step w e = Some w' ->
  Invariant w' /\ instance w <= instance w'.
Proof.
  intros Hinv Hstep. pose proof Hinv as (I2 & I3 & I1).
  destruct e as [t|lang| |t|manual|index| |n r]; cbn [step] in Hstep.
  - (* the transcript changes *)
    destruct (screen w) as [h|d] eqn:Hs; [|discriminate].
    injection Hstep as <-. split; [|simpl; lia].
    split; [|split]; cbn [withScreen inflight instance screen]; auto.
    intros o req k Hin. destruct (I2 o req k Hin) as (Ho & (h' & Hh & Hb) & Hg).
    rewrite ?Hs in Hh. injection Hh as Heq. subst h'.
    split; [exact Ho|]. split; [|exact Hg]. eexists. split; [reflexivity|exact Hb].
  - (* the language changes *)
    destruct (screen w) as [h|d] eqn:Hs; [|discriminate].
    injection Hstep as <-. split; [|simpl; lia].
    split; [|split]; cbn [withScreen inflight instance screen]; auto.
    intros o req k Hin. destruct (I2 o req k Hin) as (Ho & (h' & Hh & Hb) & Hg).
    rewrite ?Hs in Hh. injection Hh as Heq. subst h'.
    split; [exact Ho|]. split; [|exact Hg]. eexists. split; [reflexivity|exact Hb].
  - (* a submission *)
    destruct (screen w) as [h|d] eqn:Hs; [|discriminate].
    destruct (Hero.processingState h) eqn:Hidle; try discriminate.
    injection Hstep as <-.
    apply (advanceHero_Invariant w h); auto.
    + by apply (Invariant_idle w h).
    + apply startAnalysis_Gated.
  - (* the chat input changes *)
    destruct (screen w) as [h|d] eqn:Hs; [discriminate|].
    injection Hstep as <-. split; [|simpl; lia].
    apply (Invariant_transfer w); auto.
    cbn [withScreen screen]. intros h Hh. congruence.
  - (* a refinement *)
    destruct (screen w) as [h|d] eqn:Hs; [discriminate|].
    injection Hstep as <-.
    destruct (advanceDashboard_frame (instance w) w
                (PlanDashboard.handleRefine d manual)) as (_ & Hi & _).
    split; [by apply advanceDashboard_Invariant | lia].
  - (* a verification *)
    destruct (screen w) as [h|d] eqn:Hs; [discriminate|].
    injection Hstep as <-.
    destruct (advanceDashboard_frame (instance w) w
                (PlanDashboard.handleVerifyLegal d index)) as (_ & Hi & _).
    split; [by apply advanceDashboard_Invariant | lia].
  - (* a reset *)
    destruct (screen w) as [h|d] eqn:Hs; [discriminate|].
    injection Hstep as <-. unfold setGeneratedPlan. rewrite Hs.
    split; [|simpl; lia].
    apply NoHeroCall_Invariant; cbn [inflight instance].
    + by apply (Invariant_dashboard w d).
    + eapply Forall_impl; [exact I1|]. simpl. intros c Hc. lia.
  - (* a reply *)
    destruct (inflight w !! n) as [[o req k|o req k]|] eqn:Hn; [| |discriminate];
      injection Hstep as <-.
    + destruct (I2 o req k (list_elem_of_lookup_2 _ _ _ Hn))
        as (-> & (h & Hh & _) & Hg).
      apply (advanceHero_Invariant (withoutCall w n) h); auto.
      * by apply (Invariant_delete_hero w n (instance w) req k).
      * by apply Forall_delete.
    + assert (Ho : o <= instance w).
      { apply list_elem_of_lookup_2 in Hn.
        by apply (proj1 (Forall_forall _ _) I1) in Hn. }
      destruct (advanceDashboard_frame o (withoutCall w n) (k r)) as (_ & Hi & _).
      split; [|simpl in Hi; lia].
      apply advanceDashboard_Invariant; [by apply Invariant_withoutCall|exact Ho].
Qed.

Lemma exec_Invariant (es : list Event) (w w' : World) :
  Invariant w -> exec w es = Some w' ->
  Invariant w' /\ instance w <= instance w'.
Proof.
  revert w. induction es as [|e es IH]; intros w Hinv Hexec; cbn [exec] in Hexec.
  - injection Hexec as <-. split; [exact Hinv | lia].
  - destruct (step w e) as [w1|] eqn:Hstep; [|discriminate].
    destruct (step_Invariant w w1 e Hinv Hstep) as [Hinv1 Hle1].
    destruct (IH w1 Hinv1 Hexec) as [Hinv' Hle']. split; [exact Hinv' | lia].
Qed.

Lemma reachable_Invariant (w : World) : reachable w -> Invariant w.
Proof.
  intros [es Hes]. by apply (exec_Invariant es initial w Invariant_initial).
Qed.

(** *** Replies that arrive after a reset *)

(** A reply to a call whose owner is no longer mounted changes neither
    [App]'s plan nor the screen. *)
Lemma stale_reply_inert (w w' : World) (n : nat) (c : Call) (r : Reply) :
  Invariant w -> inflight w !! n = Some c -> ownerOf c < instance w ->
  step w (ReplyArrives n r) = Some w' ->
  generatedPlan w' = generatedPlan w /\ screen w' = screen w
  /\ instance w' = instance w.
Proof.
  intros (I2 & _ & _) Hn Hstale Hstep. cbn [step] in Hstep. rewrite Hn in Hstep.
  destruct c as [o req k|o req k]; injection Hstep as <-.
  - destruct (I2 o req k (list_elem_of_lookup_2 _ _ _ Hn)) as (Ho & _).
    simpl in Hstale. lia.
  - simpl in Hstale.
    assert (Hne : o <> instance (withoutCall w n)) by (simpl; lia).
    destruct (k r) as [acts|acts req' k']; cbn [advanceDashboard];
      rewrite (dashboardActions_stale o acts _ Hne); repeat split.
Qed.

(** C9. Take a session that can arise, and let the user reset it.  The
    reset leaves [App] without a plan, showing a fresh [Hero]; every call
    in flight at that moment belongs to a component instance mounted
    before the reset.  Whatever happens next, when the reply to a call of
    such an instance arrives, be it a success, a failure or unparseable
    text, it changes neither [App]'s plan nor the state of the mounted
    screen: in particular no plan is installed into the session that
    followed the reset. *)
Theorem C9_stale_reply_after_reset (es later : list Event)
    (w w1 w2 w3 : World) (n : nat) (c : Call) (r : Reply) :
  exec initial es = Some w ->
  step w UserResets = Some w1 ->
  exec w1 later = Some w2 ->
  inflight w2 !! n = Some c ->
  ownerOf c <= instance w ->
  step w2 (ReplyArrives n r) = Some w3 ->
  generatedPlan w1 = None
  /\ screen w1 = HeroScreen Hero.initial
  /\ Forall (fun c' => ownerOf c' <= instance w) (inflight w1)
  /\ generatedPlan w3 = generatedPlan w2
  /\ screen w3 = screen w2.
Proof.
  intros Hes Hreset Hlater Hn Hold Hreply.
  assert (Hinv : Invariant w) by (apply reachable_Invariant; by exists es).
  destruct (step_Invariant w w1 UserResets Hinv Hreset) as [Hinv1 _].
  destruct (exec_Invariant later w1 w2 Hinv1 Hlater) as [Hinv2 Hle].
  cbn [step] in Hreset.
  destruct (screen w) as [h|d] eqn:Hs; [discriminate|].
  injection Hreset as <-. unfold setGeneratedPlan in *. rewrite Hs in *.
  cbn [generatedPlan screen inflight instance] in *.
  destruct Hinv as (_ & _ & I1).
  destruct (stale_reply_inert w2 w3 n c r Hinv2 Hn ltac:(lia) Hreply)
    as (Hg & Hsc & _).
  repeat split; assumption.
Qed.

End AppProperties.

Section AppWitnesses.
Import App.

(** A session in which a plan is generated, a refinement is requested,
    the user resets, and the refinement's reply arrives afterwards. *)
Lemma C9_stale_reply_witness :
  exists w w1 w2 w3 : World,
    generatedPlan w1 = None
    /\ screen w1 = HeroScreen Hero.initial
    /\ Forall (fun c' => ownerOf c' <= instance w) (inflight w1)
    /\ generatedPlan w3 = generatedPlan w2
    /\ screen w3 = screen w2.
Proof.
  eexists _, _, _, _.
  refine (@C9_stale_reply_after_reset Demo.parser
            [UserDictates "A tea stall in Indiranagar";
             UserSubmits;
             ReplyArrives 0 (Resolved (Some "tea-in-indiranagar"));
             ReplyArrives 0 (Resolved (Some "Rents are about 8000 a month"));
             ReplyArrives 0 (Resolved (Some "tea-stall"));
             UserRefines (Some "Reduce startup cost by 20%")]
            [UserDictates "A juice cart in Pune"]
            _ _ _ _ 0 _ (Resolved (Some "cheaper-tea-stall"))
            _ _ _ _ _ _).
  - vm_compute. reflexivity.
  - vm_compute. reflexivity.
  - vm_compute. reflexivity.
  - vm_compute. reflexivity.
  - vm_compute. lia.
  - vm_compute. reflexivity.
Defined.

(** C4.  The entries at the other indices are not left as they are when
    two verifications are in flight.  On a dashboard whose plan lists two
    requirements the user asks to verify the first and then the second;
    both handlers read the list of the same render.  Once the first
    reply has arrived, entry 0 is the merged entry and the call for
    entry 1 is the one still in flight.  When its reply arrives, the
    handler writes back the list it had read, patched at index 1:
    entry 0, which is not the verified entry, changes from the merged
    entry back to the old one, and the fields the first reply had
    brought are gone. *)
Theorem C4_concurrent_verification_reverts_entry :
  let mounted :=
    {| generatedPlan := Some (Demo.plan "Tea stall"); instance := 1;
       screen := DashboardScreen (PlanDashboard.initial (Demo.plan "Tea stall"));
       inflight := [] |} in
  let entry := fun (i : nat) (w : World) =>
    match screen w with
    | DashboardScreen d =>
        legal_requirements (PlanDashboard.currentPlan d) !! i
    | HeroScreen _ => None
    end in
  let pending := fun w : World =>
    map (fun c => match c with
                  | HeroCall _ req _ | DashboardCall _ req _ => req
                  end)
        (inflight w) in
  let clicks := [UserVerifiesLegal 0; UserVerifiesLegal 1] in
  let reply := ReplyArrives 0 (Resolved (Some "new-fee")) in
  let before := exec (P := Demo.parser) mounted (clicks ++ [reply]) in
  let after := exec (P := Demo.parser) mounted (clicks ++ [reply; reply]) in
  option_map pending before
  = Some [VerifyLegal (Some (JStr "Trade License")) "Indiranagar, Bangalore"]
  /\ option_map (entry 0) before
     = Some (Some (PlanDashboard.spread Demo.fssai Demo.newFee))
  /\ option_map (entry 0) after = Some (Some Demo.fssai)
  /\ option_map (entry 1) after
     = Some (Some (PlanDashboard.spread Demo.tradeLicense Demo.newFee))
  /\ option_map pending after = Some []
  /\ PlanDashboard.spread Demo.fssai Demo.newFee !! "estimated_cost"
     = Some (JStr "₹2,000")
  /\ Demo.fssai !! "estimated_cost" = Some (JStr "₹100")
  /\ Demo.fssai !! "local_authority_details" = None
  /\ PlanDashboard.spread Demo.fssai Demo.newFee <> Demo.fssai.
Proof.
  intros mounted entry pending clicks reply before after.
  subst mounted entry pending clicks reply before after. cbv zeta.
  repeat (split; [vm_compute; reflexivity|]).
  intros Heq.
  apply (f_equal (fun item : RegulatoryDetail => item !! "estimated_cost")) in Heq.
  vm_compute in Heq. discriminate Heq.
Qed.

End AppWitnesses.

(* ===================================================================== *)
(** * Part III. Further properties of the code                            *)
(* ===================================================================== *)

(** ** The pipeline when everything succeeds, and over several turns *)

Section HeroFurther.
Context {P : Parser}.
Import Hero.

(** The success path of [startAnalysis].  With a sufficient analysis, a
    research reply and a plan that parses, the handler issues the three
    calls in order (the research text is passed on to the generation
    call as it came), hands exactly the parsed plan to its parent and
    returns.  It appends the user's turn and no assistant turn, clears
    the transcript, and leaves [processingState] at [generating]: on
    success the machine is never put back to idle. *)
Theorem startAnalysis_success (s : State) (rA rR rP : Reply)
    (a : AnalysisResult) (context : option string) (plan : BusinessPlan) :
  trim (transcript s) <> "" ->
  Spec.analysisOf rA = Some a ->
  is_sufficient a = true ->
  rR = Resolved context ->
  Spec.planOf rP = Some plan ->
  let history := historyText (messages s ++ [userMessage (transcript s)]) in
  let tr := run (startAnalysis s) [rA; rR; rP] in
  let s' := applyAll s (actions tr) in
  returned tr = true
  /\ requests tr =
       [AnalyzeIntent history (language s);
        Research (researchQuery a);
        GeneratePlan history (language s) context (identified_location a)]
  /\ plansHanded (actions tr) = [plan]
  /\ messages s' = messages s ++ [userMessage (transcript s)]
  /\ transcript s' = ""
  /\ processingState s' = generating.
Proof.
  intros Hok HA Hs -> HP history tr s'. subst history tr s'.
  rewrite (startAnalysis_accepted s Hok).
  destruct rA as [|tA]; simpl in HA; [discriminate|].
  destruct rP as [|tP]; simpl in HP; [discriminate|].
  cbn [run]. unfold afterAnalysis. rewrite HA. rewrite Hs. cbn [negb].
  unfold research. cbn [run]. unfold generatePlan. cbn [run]. rewrite HP.
  repeat split; reflexivity.
Qed.

Lemma joinLines_app (xs : list string) (y : string) (ys : list string) :
  joinLines (xs ++ y :: ys)
  = match xs with
    | [] => ""
    | _ => joinLines xs +:+ newline
    end +:+ joinLines (y :: ys).
Proof.
  induction xs as [|x xs IH]; [reflexivity|].
  destruct xs as [|x' xs].
  - change (x +:+ newline +:+ joinLines (y :: ys)
            = (x +:+ newline) +:+ joinLines (y :: ys)).
    by rewrite append_assoc.
  - change (x +:+ newline +:+ joinLines ((x' :: xs) ++ y :: ys)
            = ((x +:+ newline +:+ joinLines (x' :: xs)) +:+ newline)
              +:+ joinLines (y :: ys)).
    rewrite IH. by rewrite !append_assoc.
Qed.

(** A conversation over two submissions.  When the first analysis is
    insufficient the machine is idle again and the chat holds the first
    utterance and the assistant's question after the earlier turns.  When
    the user then answers, the text of the second analysis request is
    the earlier turns, if any, followed by three lines: the first
    utterance as [USER: ...], the question as [AI: ...] and the answer as
    [USER: ...], in that order and separated by line feeds. *)
Theorem second_submission_carries_history (s : State) (rA : Reply)
    (a : AnalysisResult) (answer : string) :
  trim (transcript s) <> "" ->
  trim answer <> "" ->
  Spec.analysisOf rA = Some a ->
  is_sufficient a = false ->
  let question := or_else (clarification_question a) clarificationFallback in
  let s1 := applyAll s (actions (run (startAnalysis s) [rA])) in
  let s2 := apply s1 (setTranscript answer) in
  let earlier :=
    match messages s with
    | [] => ""
    | _ => historyText (messages s) +:+ newline
    end in
  processingState s1 = idle
  /\ messages s2
     = messages s ++ [userMessage (transcript s); aiMessage question]
  /\ requests (run (startAnalysis s2) []) =
       [AnalyzeIntent
          (earlier +:+ "USER: " +:+ transcript s +:+ newline
                   +:+ "AI: " +:+ question +:+ newline
                   +:+ "USER: " +:+ answer)
          (language s)].
Proof.
  intros Hok Hans HA Hs question s1 s2 earlier. subst question s1 s2 earlier.
  rewrite (insufficient_trace s rA [] a Hok HA Hs).
  cbn [actions applyAll fold_left].
  split; [reflexivity|].
  split; [simpl; by rewrite <- !app_assoc|].
  rewrite startAnalysis_accepted by (simpl; exact Hans).
  simpl. rewrite <- !app_assoc. cbn [app].
  unfold historyText. rewrite map_app. cbn [map]. rewrite joinLines_app.
  f_equal. f_equal.
  assert (Hlines :
    joinLines
      [roleUpper (role (userMessage (transcript s))) +:+ ": "
         +:+ text (userMessage (transcript s));
       roleUpper (role (aiMessage
         (or_else (clarification_question a) clarificationFallback))) +:+ ": "
         +:+ text (aiMessage
               (or_else (clarification_question a) clarificationFallback));
       roleUpper (role (userMessage answer)) +:+ ": "
         +:+ text (userMessage answer)]
    = "USER: " +:+ transcript s +:+ newline
      +:+ "AI: " +:+ or_else (clarification_question a) clarificationFallback
      +:+ newline +:+ "USER: " +:+ answer).
  { change (("USER" +:+ ": " +:+ transcript s) +:+ newline
            +:+ ("AI" +:+ ": "
                 +:+ or_else (clarification_question a) clarificationFallback)
            +:+ newline +:+ ("USER" +:+ ": " +:+ answer)
            = "USER: " +:+ transcript s +:+ newline
              +:+ "AI: "
              +:+ or_else (clarification_question a) clarificationFallback
              +:+ newline +:+ "USER: " +:+ answer).
    rewrite !append_assoc. reflexivity. }
  rewrite Hlines.
  by destruct (messages s).
Qed.

End HeroFurther.

Section HeroFurtherWitnesses.
Import Hero.

Lemma startAnalysis_success_witness :
  let s := Demo.heroWith "A tea stall in Indiranagar" in
  let history := historyText (messages s ++ [userMessage (transcript s)]) in
  let tr := run (startAnalysis (P := Demo.parser) s)
                [Resolved (Some "tea-in-indiranagar");
                 Resolved (Some "Rents are about 8000 a month");
                 Resolved (Some "tea-stall")] in
  let s' := applyAll s (actions tr) in
  returned tr = true
  /\ requests tr =
       [AnalyzeIntent history (language s);
        Research (researchQuery Demo.teaInIndiranagar);
        GeneratePlan history (language s) (Some "Rents are about 8000 a month")
                     (identified_location Demo.teaInIndiranagar)]
  /\ plansHanded (actions tr) = [Demo.plan "Tea stall"]
  /\ messages s' = messages s ++ [userMessage (transcript s)]
  /\ transcript s' = ""
  /\ processingState s' = generating.
Proof.
  apply (@startAnalysis_success Demo.parser
           (Demo.heroWith "A tea stall in Indiranagar")
           (Resolved (Some "tea-in-indiranagar"))
           (Resolved (Some "Rents are about 8000 a month"))
           (Resolved (Some "tea-stall"))
           Demo.teaInIndiranagar (Some "Rents are about 8000 a month")
           (Demo.plan "Tea stall")).
  - vm_compute. discriminate.
  - reflexivity.
  - reflexivity.
  - reflexivity.
  - reflexivity.
Defined.

Lemma second_submission_witness :
  let s := Demo.heroWith "I want to sell tea" in
  let question := "Great idea! Where in Bangalore do you want to start?" in
  let s1 := applyAll s (actions (run (startAnalysis (P := Demo.parser) s)
                                     [Resolved (Some "ask-location")])) in
  let s2 := apply s1 (setTranscript "Indiranagar") in
  processingState s1 = idle
  /\ messages s2 = [userMessage "I want to sell tea"; aiMessage question]
  /\ requests (run (startAnalysis (P := Demo.parser) s2) []) =
       [AnalyzeIntent
          ("USER: I want to sell tea" +:+ newline
           +:+ "AI: Great idea! Where in Bangalore do you want to start?"
           +:+ newline +:+ "USER: Indiranagar")
          "auto"].
Proof.
  apply (@second_submission_carries_history Demo.parser
           (Demo.heroWith "I want to sell tea")
           (Resolved (Some "ask-location")) Demo.askLocation "Indiranagar").
  - vm_compute. discriminate.
  - vm_compute. discriminate.
  - reflexivity.
  - reflexivity.
Defined.

End HeroFurtherWitnesses.

(** ** The session as a whole *)

Section AppFurther.
Context {P : Parser}.
Import App.

(** [App]'s plan and the screen on show agree. *)
Lemma heroActions_agree (o : nat) (acts : list Hero.Action) (w : World) :
  match screen w with
  | HeroScreen _ => generatedPlan w = None
  | DashboardScreen _ => is_Some (generatedPlan w)
  end ->
  match screen (fold_left (heroAction o) acts w) with
  | HeroScreen _ => generatedPlan (fold_left (heroAction o) acts w) = None
  | DashboardScreen _ => is_Some (generatedPlan (fold_left (heroAction o) acts w))
  end.
Proof.
  revert w. induction acts as [|a acts IH]; intros w Hw; [exact Hw|].
  cbn [fold_left]. apply IH. unfold heroAction, setGeneratedPlan.
  destruct a; destruct (screen w) eqn:E;
    try destruct (Nat.eqb o (instance w)); simpl; rewrite ?E; eauto.
Qed.

Lemma step_agree (w w' : World) (e : Event) :
  step w e = Some w' ->
  match screen w with
  | HeroScreen _ => generatedPlan w = None
  | DashboardScreen _ => is_Some (generatedPlan w)
  end ->
  match screen w' with
  | HeroScreen _ => generatedPlan w' = None
  | DashboardScreen _ => is_Some (generatedPlan w')
  end.
Proof.
  intros Hstep Hw.
  assert (Hdash : forall o t w0,
    match screen w0 with
    | HeroScreen _ => generatedPlan w0 = None
    | DashboardScreen _ => is_Some (generatedPlan w0)
    end ->
    match screen (advanceDashboard o w0 t) with
    | HeroScreen _ => generatedPlan (advanceDashboard o w0 t) = None
    | DashboardScreen _ => is_Some (generatedPlan (advanceDashboard o w0 t))
    end).
  { intros o t w0 H0.
    destruct (dashboardActions_frame o
                (match t with Finish acts | Await acts _ _ => acts end) w0)
      as (Hg & _ & _ & Hh & Hd).
    destruct t as [acts|acts req k]; cbn [advanceDashboard withCall screen generatedPlan];
      rewrite Hg; destruct (screen w0) as [h|d] eqn:E.
    - by rewrite (Hh h eq_refl).
    - destruct (Hd d eq_refl) as [d' ->]. exact H0.
    - by rewrite (Hh h eq_refl).
    - destruct (Hd d eq_refl) as [d' ->]. exact H0. }
  assert (Hhero : forall o t w0,
    match screen w0 with
    | HeroScreen _ => generatedPlan w0 = None
    | DashboardScreen _ => is_Some (generatedPlan w0)
    end ->
    match screen (advanceHero o w0 t) with
    | HeroScreen _ => generatedPlan (advanceHero o w0 t) = None
    | DashboardScreen _ => is_Some (generatedPlan (advanceHero o w0 t))
    end).
  { intros o t w0 H0. destruct t as [acts|acts req k];
      cbn [advanceHero withCall screen generatedPlan];
      by apply heroActions_agree. }
  destruct e as [t|lang| |t|manual|index| |n r]; cbn [step] in Hstep.
  - destruct (screen w) eqn:E; [|discriminate]. injection Hstep as <-. exact Hw.
  - destruct (screen w) eqn:E; [|discriminate]. injection Hstep as <-. exact Hw.
  - destruct (screen w) as [h|d] eqn:E; [|discriminate].
    destruct (Hero.processingState h); try discriminate.
    injection Hstep as <-. apply Hhero. by rewrite E.
  - destruct (screen w) eqn:E; [discriminate|]. injection Hstep as <-. exact Hw.
  - destruct (screen w) eqn:E; [discriminate|]. injection Hstep as <-.
    apply Hdash. by rewrite E.
  - destruct (screen w) eqn:E; [discriminate|]. injection Hstep as <-.
    apply Hdash. by rewrite E.
  - destruct (screen w) eqn:E; [discriminate|]. injection Hstep as <-.
    unfold setGeneratedPlan. rewrite E. reflexivity.
  - destruct (inflight w !! n) as [[o req k|o req k]|]; [| |discriminate];
      injection Hstep as <-; [apply Hhero | apply Hdash]; exact Hw.
Qed.

(** In every session that can arise, [Hero] is on show exactly while
    [App] holds no plan, and at most one call of [Hero] is in flight;
    while one is, a further submission is not accepted, and none is in
    flight while the dashboard is on show. *)
Theorem session_is_well_formed (w : World) :
  reachable w ->
  match screen w with
  | HeroScreen _ => generatedPlan w = None
  | DashboardScreen _ =>
      is_Some (generatedPlan w) /\ NoHeroCall (inflight w)
  end
  /\ (forall i j c c',
        inflight w !! i = Some c -> inflight w !! j = Some c' ->
        isHeroCall c = true -> isHeroCall c' = true -> i = j)
  /\ (Exists (fun c => isHeroCall c = true) (inflight w) ->
      step w UserSubmits = None).
Proof.
  intros Hreach. pose proof (reachable_Invariant w Hreach) as Hinv.
  assert (Hagree : match screen w with
                   | HeroScreen _ => generatedPlan w = None
                   | DashboardScreen _ => is_Some (generatedPlan w)
                   end).
  { destruct Hreach as [es Hes]. clear Hinv.
    assert (Hgen : forall es w0,
      match screen w0 with
      | HeroScreen _ => generatedPlan w0 = None
      | DashboardScreen _ => is_Some (generatedPlan w0)
      end -> exec w0 es = Some w ->
      match screen w with
      | HeroScreen _ => generatedPlan w = None
      | DashboardScreen _ => is_Some (generatedPlan w)
      end).
    { clear es Hes. induction es as [|e es IH]; intros w0 H0 Hex; cbn [exec] in Hex.
      - by injection Hex as <-.
      - destruct (step w0 e) as [w1|] eqn:Hs; [|discriminate].
        apply (IH w1); [|exact Hex]. by apply (step_agree w0 w1 e). }
    apply (Hgen es initial); [reflexivity | exact Hes]. }
  split; [|split].
  - destruct (screen w) as [h|d] eqn:E; [exact Hagree|].
    split; [exact Hagree|]. by apply (Invariant_dashboard w d).
  - by destruct Hinv as (_ & I3 & _).
  - intros Hex. apply Exists_exists in Hex as ([o req k|o req k] & Hin & Hc);
      [|discriminate].
    destruct Hinv as (I2 & _ & _).
    destruct (I2 o req k Hin) as (_ & (h & Hh & Hbusy) & _).
    cbn [step]. rewrite Hh. by destruct (Hero.processingState h).
Qed.

End AppFurther.

Section AppFurtherWitnesses.
Import App.

(** The session in which the analysis call is in flight. *)
Lemma session_is_well_formed_witness :
  exists w,
    exec (P := Demo.parser) initial
         [UserDictates "A tea stall in Indiranagar"; UserSubmits] = Some w
    /\ match screen w with
       | HeroScreen _ => generatedPlan w = None
       | DashboardScreen _ =>
           is_Some (generatedPlan w) /\ NoHeroCall (inflight w)
       end
    /\ (forall i j c c',
          inflight w !! i = Some c -> inflight w !! j = Some c' ->
          isHeroCall c = true -> isHeroCall c' = true -> i = j)
    /\ (Exists (fun c => isHeroCall c = true) (inflight w) ->
        step (P := Demo.parser) w UserSubmits = None).
Proof.
  eexists. split; [reflexivity|].
  apply (@session_is_well_formed Demo.parser).
  exists [UserDictates "A tea stall in Indiranagar"; UserSubmits].
  reflexivity.
Defined.

End AppFurtherWitnesses.

(** ** More of the dashboard: verification and refinement in sequence *)

Section DashboardFurther.
Context {P : Parser}.
Import PlanDashboard.

(** A handler of the mounted dashboard: its setter calls change the
    dashboard's state, and its request joins the calls in flight. *)
Lemma dashboard_handler_mounted (o : nat) (w : App.World) (d : State)
    (t : Task Action) :
  o = App.instance w ->
  App.screen w = App.DashboardScreen d ->
  App.advanceDashboard o w t =
    match t with
    | Finish acts =>
        App.withScreen w (App.DashboardScreen (applyAll d acts))
    | Await acts req k =>
        App.withCall
          (App.withScreen w (App.DashboardScreen (applyAll d acts)))
          (App.DashboardCall o req k)
    end.
Proof.
  intros -> Hs.
  assert (H : forall acts w0 d0,
    App.screen w0 = App.DashboardScreen d0 ->
    fold_left (App.dashboardAction (App.instance w0)) acts w0
    = App.withScreen w0 (App.DashboardScreen (applyAll d0 acts))).
  { induction acts as [|a acts IH]; intros w0 d0 H0.
    - destruct w0; simpl in *. by rewrite H0.
    - cbn [fold_left applyAll].
      assert (Ha : App.dashboardAction (App.instance w0) w0 a
                   = App.withScreen w0 (App.DashboardScreen (apply d0 a))).
      { unfold App.dashboardAction. by rewrite H0, Nat.eqb_refl. }
      rewrite Ha.
      change (App.instance w0)
        with (App.instance (App.withScreen w0 (App.DashboardScreen (apply d0 a)))).
      rewrite (IH (App.withScreen w0 (App.DashboardScreen (apply d0 a)))
                  (apply d0 a) eq_refl).
      reflexivity. }
  destruct t as [acts|acts req k]; cbn [App.advanceDashboard]; by rewrite (H acts w d).
Qed.

(** Two verifications in flight at once.  Both handlers are called on the
    same rendered plan; the replies arrive one after the other and both
    parse.  Each reply is merged into the list its own handler read, so
    after the second reply the entry patched by the first one is back to
    what it was: only the later patch is in the plan. *)
Theorem concurrent_verifications_keep_last_patch (g : option BusinessPlan)
    (n : nat) (d : State) (i j : nat) (itemI itemJ patchI patchJ : RegulatoryDetail)
    (rI rJ : Reply) :
  i <> j ->
  legal_requirements (currentPlan d) !! i = Some itemI ->
  legal_requirements (currentPlan d) !! j = Some itemJ ->
  Spec.patchOf rI = Some patchI ->
  Spec.patchOf rJ = Some patchJ ->
  exists d',
    option_map App.screen
      (App.exec {| App.generatedPlan := g; App.instance := n;
                   App.screen := App.DashboardScreen d; App.inflight := [] |}
                [App.UserVerifiesLegal i; App.UserVerifiesLegal j;
                 App.ReplyArrives 0 rI; App.ReplyArrives 0 rJ])
    = Some (App.DashboardScreen d')
    /\ legal_requirements (currentPlan d')
       = <[j := spread itemJ patchJ]> (legal_requirements (currentPlan d))
    /\ legal_requirements (currentPlan d') !! i = Some itemI
    /\ legal_requirements (currentPlan d') !! j = Some (spread itemJ patchJ).
Proof.
  intros Hij Hi Hj HI HJ.
  destruct rI as [|tI]; simpl in HI; [discriminate|].
  destruct rJ as [|tJ]; simpl in HJ; [discriminate|].
  set (reqs := legal_requirements (currentPlan d)) in *.
  set (callI := App.DashboardCall n
                  (VerifyLegal (itemI !! "name") (target_location (currentPlan d)))
                  (afterVerify reqs i itemI)).
  set (callJ := App.DashboardCall n
                  (VerifyLegal (itemJ !! "name") (target_location (currentPlan d)))
                  (afterVerify reqs j itemJ)).
  set (d1 := applyAll d [setVerifyingLegal (Some i)]).
  set (d2 := applyAll d1 [setVerifyingLegal (Some j)]).
  set (d3 := applyAll d2 [setCurrentPlan_legal (<[i := spread itemI patchI]> reqs);
                          setVerifyingLegal None]).
  set (d4 := applyAll d3 [setCurrentPlan_legal (<[j := spread itemJ patchJ]> reqs);
                          setVerifyingLegal None]).
  set (world := fun dd calls =>
         {| App.generatedPlan := g; App.instance := n;
            App.screen := App.DashboardScreen dd; App.inflight := calls |}).
  assert (S1 : App.step (world d []) (App.UserVerifiesLegal i)
               = Some (world d1 [callI])).
  { cbn [App.step App.screen world].
    rewrite (dashboard_handler_mounted _ _ d) by reflexivity.
    unfold handleVerifyLegal. fold reqs. rewrite Hi. reflexivity. }
  assert (S2 : App.step (world d1 [callI]) (App.UserVerifiesLegal j)
               = Some (world d2 [callI; callJ])).
  { cbn [App.step App.screen world].
    rewrite (dashboard_handler_mounted _ _ d1) by reflexivity.
    unfold handleVerifyLegal.
    change (legal_requirements (currentPlan d1)) with reqs.
    rewrite Hj. reflexivity. }
  assert (S3 : App.step (world d2 [callI; callJ]) (App.ReplyArrives 0 (Resolved tI))
               = Some (world d3 [callJ])).
  { cbn [App.step App.inflight world lookup list_lookup callI].
    rewrite (dashboard_handler_mounted _ _ d2) by reflexivity.
    unfold afterVerify. rewrite HI. reflexivity. }
  assert (S4 : App.step (world d3 [callJ]) (App.ReplyArrives 0 (Resolved tJ))
               = Some (world d4 [])).
  { cbn [App.step App.inflight world lookup list_lookup callJ].
    rewrite (dashboard_handler_mounted _ _ d3) by reflexivity.
    unfold afterVerify. rewrite HJ. reflexivity. }
  exists d4. split.
  - change {| App.generatedPlan := g; App.instance := n;
              App.screen := App.DashboardScreen d; App.inflight := [] |}
      with (world d []).
    cbn [App.exec]. rewrite S1, S2, S3, S4. reflexivity.
  - split; [reflexivity|]. split.
    + cbn. fold reqs. rewrite list_lookup_insert_ne by done. exact Hi.
    + cbn. fold reqs. apply list_lookup_insert_eq. by eapply lookup_lt_Some.
Qed.

(** Two refinements in a row.  After a refinement that succeeded, the
    next request carries the plan that refinement produced, and as
    conversation history the texts of the chat so far: the earlier
    texts, the first instruction, and the two canned assistant turns. *)
Theorem second_refinement_request (s : State) (first second : string)
    (r : Reply) (newPlan : BusinessPlan) :
  trim first <> "" -> trim second <> "" ->
  Spec.refinementOf r = Some newPlan ->
  let s1 := applyAll s (actions (run (handleRefine s (Some first)) [r])) in
  isRefining s1 = false
  /\ requests (run (handleRefine s1 (Some second)) []) =
       [RefinePlan newPlan
          (map text (chatHistory s)
           ++ [first; confirmationText; solicitationText])
          second].
Proof.
  intros H1 H2 Hr s1. subst s1.
  assert (T1 : truthy first = true) by (destruct first; [by destruct H1|done]).
  assert (T2 : truthy second = true) by (destruct second; [by destruct H2|done]).
  rewrite handleRefine_accepted by (cbn [or_else]; by rewrite T1).
  cbn [run or_else]. rewrite T1, afterRefine_cases, Hr.
  cbn [actions app applyAll fold_left apply withPlan currentPlan chatHistory
       isRefining chatInput].
  split; [reflexivity|].
  rewrite handleRefine_accepted by (cbn [or_else]; by rewrite T2).
  simpl. rewrite T2, !map_app, <- !app_assoc. reflexivity.
Qed.

End DashboardFurther.

Section DashboardFurtherWitnesses.
Import PlanDashboard.

Lemma concurrent_verifications_witness :
  exists d',
    option_map App.screen
      (App.exec (P := Demo.parser)
         {| App.generatedPlan := Some (Demo.plan "Tea stall"); App.instance := 1;
            App.screen := App.DashboardScreen (Demo.dashboardWith "");
            App.inflight := [] |}
         [App.UserVerifiesLegal 0; App.UserVerifiesLegal 1;
          App.ReplyArrives 0 (Resolved (Some "new-fee"));
          App.ReplyArrives 0 (Resolved (Some "new-fee"))])
    = Some (App.DashboardScreen d')
    /\ legal_requirements (currentPlan d')
       = <[1 := spread Demo.tradeLicense
                   {[ "estimated_cost" := JStr "₹2,000";
                      "local_authority_details" := JStr "BBMP" ]}]>
           (legal_requirements (currentPlan (Demo.dashboardWith "")))
    /\ legal_requirements (currentPlan d') !! 0 = Some Demo.fssai
    /\ legal_requirements (currentPlan d') !! 1
       = Some (spread Demo.tradeLicense
                 {[ "estimated_cost" := JStr "₹2,000";
                    "local_authority_details" := JStr "BBMP" ]}).
Proof.
  apply (@concurrent_verifications_keep_last_patch Demo.parser
           (Some (Demo.plan "Tea stall")) 1 (Demo.dashboardWith "") 0 1
           Demo.fssai Demo.tradeLicense
           {[ "estimated_cost" := JStr "₹2,000";
              "local_authority_details" := JStr "BBMP" ]}
           {[ "estimated_cost" := JStr "₹2,000";
              "local_authority_details" := JStr "BBMP" ]});
    solve [discriminate | reflexivity].
Defined.

Lemma second_refinement_witness :
  let s := Demo.dashboardWith "" in
  let s1 := applyAll s (actions (run (handleRefine (P := Demo.parser) s
                                        (Some "Reduce startup cost by 20%"))
                                     [Resolved (Some "cheaper-tea-stall")])) in
  isRefining s1 = false
  /\ requests (run (handleRefine (P := Demo.parser) s1
                      (Some "Add vegetarian options")) []) =
       [RefinePlan (Demo.plan "Cheaper tea stall")
          (map text (chatHistory s)
           ++ ["Reduce startup cost by 20%"; confirmationText; solicitationText])
          "Add vegetarian options"].
Proof.
  apply (@second_refinement_request Demo.parser (Demo.dashboardWith "")
           "Reduce startup cost by 20%" "Add vegetarian options"
           (Resolved (Some "cheaper-tea-stall")) (Demo.plan "Cheaper tea stall")).
  - vm_compute. discriminate.
  - vm_compute. discriminate.
  - reflexivity.
Defined.

End DashboardFurtherWitnesses.

(** ** Ratings and checklist marks *)

Section RatingProperties.
Import PlanDashboard Rating.

Lemma handleFeedback_texts (s : State) (index : nat) (type : Feedback) :
  map text (chatHistory (handleFeedback s index type))
  = map text (chatHistory s).
Proof.
  cbn [handleFeedback chatHistory].
  destruct (chatHistory s !! index) as [m|] eqn:Hm; [|reflexivity].
  apply list_eq. intros j. rewrite !list_lookup_fmap.
  destruct (decide (j = index)) as [->|Hne].
  - rewrite list_lookup_insert_eq by (by eapply lookup_lt_Some).
    by rewrite Hm.
  - by rewrite list_lookup_insert_ne.
Qed.

(** A rating touches the rating of one turn and nothing else of the
    chat: the roles and the texts of all turns, the number of turns, the
    ratings of the other turns and the plan are as before; the turn at
    the index, when there is one, carries the new rating. *)
Theorem handleFeedback_rates_one_turn (s : State) (index : nat)
    (type : Feedback) :
  let s' := handleFeedback s index type in
  map role (chatHistory s') = map role (chatHistory s)
  /\ map text (chatHistory s') = map text (chatHistory s)
  /\ (forall j, j <> index -> chatHistory s' !! j = chatHistory s !! j)
  /\ feedback <$> chatHistory s' !! index
     = (fun _ => Some type) <$> chatHistory s !! index
  /\ currentPlan s' = currentPlan s.
Proof.
  cbn [handleFeedback chatHistory currentPlan].
  destruct (chatHistory s !! index) as [m|] eqn:Hm.
  - assert (Hlt : (index < length (chatHistory s))%nat) by (by eapply lookup_lt_Some).
    repeat split.
    + apply list_eq. intros j. rewrite !list_lookup_fmap.
      destruct (decide (j = index)) as [->|Hne].
      * by rewrite list_lookup_insert_eq, Hm.
      * by rewrite list_lookup_insert_ne.
    + apply list_eq. intros j. rewrite !list_lookup_fmap.
      destruct (decide (j = index)) as [->|Hne].
      * by rewrite list_lookup_insert_eq, Hm.
      * by rewrite list_lookup_insert_ne.
    + intros j Hne. by rewrite list_lookup_insert_ne.
    + by rewrite list_lookup_insert_eq.
  - rewrite Hm. repeat split.
Qed.

(** A thumbs down replaces whatever is in the chat input by the
    adjustment prompt and turns focus mode on, also when the index names
    no turn (the history is then left alone); a thumbs up leaves the
    input and the focus mode as they are. *)
Theorem thumbs_down_replaces_draft (s : State) (index : nat) :
  chatInput (handleFeedback s index down) = adjustPrompt
  /\ chatFocusMode (handleFeedback s index down) = true
  /\ (chatHistory s !! index = None ->
      chatHistory (handleFeedback s index down) = chatHistory s)
  /\ chatInput (handleFeedback s index up) = chatInput s
  /\ chatFocusMode (handleFeedback s index up) = chatFocusMode s.
Proof.
  repeat split. intros Hnone. cbn [handleFeedback chatHistory]. by rewrite Hnone.
Qed.

(** Ratings never reach the backend: a quick-prompt refinement started
    after a rating is the same handler run, with the same request, as
    without the rating. *)
Theorem rating_is_not_sent `{Parser} (s : State) (index : nat)
    (type : Feedback) (prompt : string) :
  prompt <> "" ->
  handleRefine (handleFeedback s index type) (Some prompt)
  = handleRefine s (Some prompt).
Proof.
  intros Hp. apply truthy_true in Hp.
  pose proof (handleFeedback_texts s index type) as Ht.
  unfold handleRefine. cbn [or_else]. rewrite Hp, Ht. reflexivity.
Qed.

End RatingProperties.

Set Warnings "-clear-no-such-hyp".

Section ChecklistProperties.
Import Checklist.

(** Toggling a step twice restores the marks; toggling a step flips its
    own mark and leaves every other mark as it is. *)
Theorem toggleStep_flips_one_mark (completedSteps : gset nat) (index : nat) :
  toggleStep (toggleStep completedSteps index) index = completedSteps
  /\ (index ∈ toggleStep completedSteps index <-> index ∉ completedSteps)
  /\ (forall j, j <> index ->
        (j ∈ toggleStep completedSteps index <-> j ∈ completedSteps)).
Proof.
  unfold toggleStep. split; [|split].
  - destruct (decide (index ∈ completedSteps)) as [Hin|Hout].
    + rewrite decide_False by set_solver.
      apply set_eq. intros x. destruct (decide (x = index)); set_solver.
    + rewrite decide_True by set_solver. set_solver.
  - destruct (decide (index ∈ completedSteps)); set_solver.
  - intros j Hne. destruct (decide (index ∈ completedSteps)); set_solver.
Qed.

(** The count of the badge moves by exactly one with every toggle. *)
Theorem toggleStep_size (completedSteps : gset nat) (index : nat) :
  size (toggleStep completedSteps index)
  = if decide (index ∈ completedSteps)
    then (size completedSteps - 1)%nat
    else S (size completedSteps).
Proof.
  unfold toggleStep. destruct (decide (index ∈ completedSteps)) as [Hin|Hout].
  - rewrite size_difference by set_solver. by rewrite size_singleton.
  - rewrite size_union by set_solver. rewrite size_singleton. lia.
Qed.

(** Marks set through the list stay within it: starting without marks
    and toggling only steps of a checklist of [n] entries, in any order
    and any number of times, the count of the badge never exceeds [n]. *)
Theorem badge_within_checklist (n : nat) (indices : list nat) :
  Forall (fun i => (i < n)%nat) indices ->
  (size (fold_left toggleStep indices ∅) <= n)%nat.
Proof.
  intros Hall.
  assert (Hsub : forall (marks : gset nat),
    marks ⊆ set_seq 0 n -> fold_left toggleStep indices marks ⊆ set_seq 0 n).
  { induction Hall as [|i indices Hi _ IH]; intros marks Hm; [exact Hm|].
    cbn [fold_left]. apply IH. unfold toggleStep.
    destruct (decide (i ∈ marks)); [set_solver|].
    apply union_subseteq. split; [exact Hm|].
    apply singleton_subseteq_l, elem_of_set_seq. lia. }
  specialize (Hsub ∅ ltac:(set_solver)).
  apply subseteq_size in Hsub. by rewrite size_set_seq in Hsub.
Qed.

End ChecklistProperties.

Section RatingWitnesses.
Import PlanDashboard Rating.

(** The chat after a refinement holds three turns; the assistant's
    confirmation is rated down, the rating is stored, and the next
    request is the one that would have been sent without it. *)
Lemma rating_is_not_sent_witness :
  let s0 := Demo.dashboardWith "a draft" in
  let s :=
    applyAll s0
      (actions (run (handleRefine (P := Demo.parser) s0
                       (Some "Reduce startup cost by 20%"))
                    [Resolved (Some "cheaper-tea-stall")])) in
  chatHistory (handleFeedback s 1 down) !! 1
  = Some {| role := ai; text := confirmationText; feedback := Some down |}
  /\ chatHistory s !! 1 = Some (aiMessage confirmationText)
  /\ handleRefine (P := Demo.parser) (handleFeedback s 1 down)
       (Some "Add vegetarian options")
     = handleRefine (P := Demo.parser) s (Some "Add vegetarian options").
Proof.
  intros s0 s. split; [reflexivity|]. split; [reflexivity|].
  apply (@rating_is_not_sent Demo.parser). discriminate.
Defined.

Lemma badge_within_checklist_witness :
  (size (fold_left Checklist.toggleStep [0; 2; 0; 1; 2; 2] ∅) <= 3)%nat.
Proof.
  apply (badge_within_checklist 3 [0; 2; 0; 1; 2; 2]).
  repeat constructor.
Defined.

End RatingWitnesses.

(** ** Vendor scripts *)

Section ScriptProperties.
Import Async Scripts.
Variable parseVendorScript : string -> option VendorScript.


(** Regenerating a script.  Outside the list nothing is requested and
    the busy flag is the only thing set.  For a script of the list the
    handler awaits one request that carries its context and its text.
    The reply lands on whatever the state is by then: when it parses,
    the list the handler had read, with the reply (context included) put
    at the index, is written over the scripts the plan then has, the
    other fields of that plan being kept; so the written list has the
    length of the list read and agrees with it at every other index,
    whatever was added to the plan in the meantime.  When the call fails
    or the reply does not parse, the plan is left as it is.  The busy
    flag is off in every case. *)
Theorem handleRegenerateScript_replaces_one (s later : State) (index : nat)
    (r : Reply) :
  let scripts := vendor_scripts (currentPlan s) in
  match scripts !! index with
  | None =>
      handleRegenerateScript parseVendorScript s index
      = Done [setIsGeneratingScript true; setIsGeneratingScript false]
  | Some scriptToRedo =>
      handleRegenerateScript parseVendorScript s index
      = Wait [setIsGeneratingScript true]
             (RegenerateScript (context scriptToRedo) (script scriptToRedo))
             (afterRegenerate parseVendorScript scripts index)
      /\ let later' :=
           applyAll later
             (fst (run (afterRegenerate parseVendorScript scripts index r) [])) in
         let scripts' := vendor_scripts (currentPlan later') in
         isGeneratingScript later' = false
         /\ match r with
            | Resolved t =>
                match parseText parseVendorScript t with
                | Some newScript =>
                    currentPlan later'
                    = withVendorScripts (currentPlan later)
                        (<[index := newScript]> scripts)
                    /\ scripts' !! index = Some newScript
                    /\ (forall j, j <> index -> scripts' !! j = scripts !! j)
                    /\ length scripts' = length scripts
                | None => currentPlan later' = currentPlan later
                end
            | Rejected => currentPlan later' = currentPlan later
            end
  end.
Proof.
  intros scripts. unfold handleRegenerateScript. fold scripts.
  destruct (scripts !! index) as [old|] eqn:Hold; [|reflexivity].
  split; [reflexivity|]. unfold afterRegenerate.
  destruct r as [|t]; [by repeat split|].
  destruct (parseText parseVendorScript t) as [newScript|]; [|by repeat split].
  cbn. repeat split.
  - apply list_lookup_insert_eq. by eapply lookup_lt_Some.
  - intros j Hj. by rewrite list_lookup_insert_ne.
  - apply length_insert.
Qed.


End ScriptProperties.

(** ** The map panel *)

Section MapProperties.
Import Async MapPanel.
Variable parsePlaces : string -> option (option (list PlaceResult)).

(** Once a place of the list has been clicked, the map stays on it:
    choosing another category, running a deep search or clearing the
    list does not change the address the map is asked for. *)
Theorem selected_place_sticks (s : State) (place : PlaceResult)
    (acts : list Action) (target_location : string) :
  Forall (fun a => match a with setSelectedMapLocation _ => False | _ => True end)
         acts ->
  mapQuery (applyAll (apply s (selectPlace place)) acts) target_location
  = name place +:+ " " +:+ address place.
Proof.
  intros Hacts.
  assert (Hsel : forall s0,
    selectedMapLocation (applyAll s0 acts) = selectedMapLocation s0).
  { induction Hacts as [|a acts Ha _ IH]; intros s0; [reflexivity|].
    cbn [applyAll fold_left]. fold (applyAll (apply s0 a) acts).
    rewrite IH. by destruct a. }
  unfold mapQuery. rewrite Hsel. cbn [apply selectPlace selectedMapLocation or_else].
  by destruct (name place).
Qed.

(** No setter call of a deep search, whatever the replies, is a
    selection. *)
Lemma handleDeepMapSearch_never_selects (s : State) (target_location : string)
    (replies : list Reply) :
  Forall (fun a => match a with setSelectedMapLocation _ => False | _ => True end)
         (fst (run (handleDeepMapSearch parsePlaces s target_location) replies)).
Proof.
  unfold handleDeepMapSearch. destruct replies as [|r rest]; cbn [run].
  - repeat constructor.
  - unfold afterSearch. destruct r as [|t]; [repeat constructor|].
    destruct (parseText parsePlaces t) as [[places|]|]; repeat constructor.
Qed.

(** A deep search empties the list of places before it asks, so the list
    is empty for as long as the call is in flight and stays empty when
    the call fails or the reply is not a JSON array; only an array
    replaces it.  The busy flag is off after the reply in every case, and
    the request names the category chosen when the search was started. *)
Theorem handleDeepMapSearch_results (s : State) (target_location : string)
    (r : Reply) :
  let found :=
    match r with
    | Resolved t =>
        match parseText parsePlaces t with
        | Some (Some places) => places
        | _ => []
        end
    | Rejected => []
    end in
  deepSearchMapResults
    (applyAll s (fst (run (handleDeepMapSearch parsePlaces s target_location) [])))
  = []
  /\ snd (run (handleDeepMapSearch parsePlaces s target_location) [r])
     = [FindPlaces (mapCategory s) target_location]
  /\ deepSearchMapResults
       (applyAll s (fst (run (handleDeepMapSearch parsePlaces s target_location) [r])))
     = found
  /\ isDeepSearchingMap
       (applyAll s (fst (run (handleDeepMapSearch parsePlaces s target_location) [r])))
     = false.
Proof.
  unfold handleDeepMapSearch. cbn [run]. unfold afterSearch.
  destruct r as [|t]; [repeat split|].
  destruct (parseText parsePlaces t) as [[places|]|]; repeat split.
Qed.

End MapProperties.

Section ScriptWitnesses.
Import Async Scripts.


(** A place is clicked; then the category is changed, a deep search is
    run to its reply, and the list is cleared. *)
Lemma selected_place_sticks_witness :
  let place := {| MapPanel.name := "KR Market"; MapPanel.address := "Chickpet";
                  MapPanel.rating := "4.2" |} in
  let parsePlaces := fun _ : string => Some (Some [place]) in
  let search :=
    fst (run (MapPanel.handleDeepMapSearch parsePlaces MapPanel.initial
                "Indiranagar, Bangalore")
             [Resolved (Some "places")]) in
  MapPanel.mapQuery
    (MapPanel.applyAll
       (MapPanel.apply MapPanel.initial (MapPanel.selectPlace place))
       (MapPanel.setMapCategory "Competitors" :: search
        ++ [MapPanel.setDeepSearchMapResults []]))
    "Indiranagar, Bangalore"
  = "KR Market Chickpet".
Proof.
  intros place parsePlaces search.
  apply (selected_place_sticks MapPanel.initial place
           (MapPanel.setMapCategory "Competitors" :: search
            ++ [MapPanel.setDeepSearchMapResults []])
           "Indiranagar, Bangalore").
  subst search. cbn. repeat constructor.
Defined.

End ScriptWitnesses.

(** ** The calculator's seed and the amounts read from text *)

Section CalculatorProperties.
Import Calculator.
Local Open Scope Z_scope.

Lemma breakEvenUnits_zero_cost (price variableCost : number) (s : bool) :
  positive_finite (breakEvenUnits price variableCost (S754_zero s)) = false.
Proof.
  unfold breakEvenUnits.
  destruct (sub price variableCost) as [sd|sd| |sd md ed]; reflexivity.
Qed.

(** Fixed costs without any figure.  When no entry of
    [fixed_costs_monthly] holds a digit, comma or period (in particular
    when the list is empty) the seeded fixed cost is 0, and the
    calculator shows the break-even figure as unbounded whatever the
    other two texts are. *)
Theorem seed_without_fixed_costs (fb : FinancialBreakdown) :
  Forall (fun c => match_run c = None) (fixed_costs_monthly fb) ->
  customFixedCost (seed fb) = of_Z 0
  /\ shown (seed fb) = ShownUnbounded.
Proof.
  intros Hall.
  assert (Hsum : customFixedCost (seed fb) = of_Z 0).
  { cbn [seed customFixedCost]. unfold totalFixedCost.
    induction Hall as [|c costs Hc _ IH]; [reflexivity|].
    cbn [fold_left]. by rewrite (parseCurrency_no_run c Hc). }
  split; [exact Hsum|].
  unfold shown. rewrite Hsum. apply breakEvenDisplay_unbounded.
  apply (breakEvenUnits_zero_cost _ _ false).
Qed.

Lemma eqb_same (x : number) : x <> NaN -> eqb x x = true.
Proof.
  intros Hx. destruct x as [s|s| |s m e]; try done.
  - by destruct s.
  - unfold eqb, SFeqb. cbn [SFcompare].
    rewrite Z.compare_refl, Pos.compare_cont_refl. by destruct s.
Qed.

Lemma all_chars_append (p : ascii -> bool) (a b : string) :
  all_chars p a = true -> all_chars p b = true -> all_chars p (a +:+ b) = true.
Proof.
  induction a as [|c r IH]; [done|]. simpl. intros Ha Hb.
  apply andb_prop in Ha as [Hc Hr].
  change (String c r +:+ b) with (String c (r +:+ b)). simpl.
  by rewrite Hc, IH.
Qed.

Lemma digits_value_nonneg (d : string) (acc : Z) :
  all_chars is_digit d = true -> 0 <= acc -> 0 <= digits_value acc d.
Proof.
  revert acc. induction d as [|c r IH]; intros acc Hd Hacc; [exact Hacc|].
  simpl in Hd |- *. apply andb_prop in Hd as [Hc Hr]. apply IH; [exact Hr|].
  unfold is_digit in Hc. apply andb_prop in Hc as [Hlo _].
  apply N.leb_le in Hlo. lia.
Qed.

Lemma parseFloat_signed (t : string) : signed_or_nan false (parseFloat t).
Proof.
  unfold parseFloat.
  set (frac := match drop_while is_digit t with
               | String c r =>
                   if (byte c =? 46)%N then take_while is_digit r else ""
               | EmptyString => ""
               end).
  destruct (truthy (take_while is_digit t) || truthy frac); [|exact I].
  assert (Hfrac : all_chars is_digit frac = true).
  { unfold frac. destruct (drop_while is_digit t) as [|c r]; [reflexivity|].
    destruct (byte c =? 46)%N; [apply take_while_all | reflexivity]. }
  pose proof (digits_value_nonneg (take_while is_digit t +:+ frac) 0
                (all_chars_append _ _ _ (take_while_all _ _) Hfrac) ltac:(lia))
    as Hv.
  unfold decimal.
  destruct (digits_value 0 (take_while is_digit t +:+ frac)) as [|p|p] eqn:E;
    [reflexivity| |lia].
  destruct (String.length frac).
  - apply binary_round_sign.
  - destruct (SFdiv_core_binary _ _ _ _ _ _) as [[q e] l].
    apply binary_round_aux_sign.
Qed.

(** A margin without any figure.  When the margin text holds no digit,
    comma or period, the seeded price is the variable cost itself, and
    the calculator starts out showing unbounded, whatever the costs. *)
Theorem seed_without_margin (fb : FinancialBreakdown) :
  match_run (profit_margin_per_unit fb) = None ->
  customPrice (seed fb) = customVariableCost (seed fb)
  /\ shown (seed fb) = ShownUnbounded.
Proof.
  intros Hm. unfold shown. cbn [seed customPrice customVariableCost customFixedCost].
  rewrite (parseCurrency_no_run _ Hm).
  assert (Hsign : signed_or_nan false
                    (parseCurrency (variable_costs_per_unit fb))).
  { unfold parseCurrency.
    destruct (negb (truthy (variable_costs_per_unit fb))); [reflexivity|].
    destruct (match_run (variable_costs_per_unit fb));
      [apply parseFloat_signed | reflexivity]. }
  set (v := parseCurrency (variable_costs_per_unit fb)) in *.
  set (f := totalFixedCost (fixed_costs_monthly fb)).
  split.
  - destruct v as [sv|sv| |sv m e]; simpl in Hsign; try subst sv; reflexivity.
  - apply breakEvenDisplay_unbounded, not_finite_not_positive.
    destruct v as [sv|sv| |sv m e] eqn:Hv.
    + apply breakEvenUnits_equal_prices. by destruct sv.
    + apply breakEvenUnits_equal_prices. by destruct sv.
    + unfold breakEvenUnits. by destruct f.
    + apply breakEvenUnits_equal_prices.
      change (add (S754_finite sv m e) (of_Z 0)) with (S754_finite sv m e).
      by apply eqb_same.
Qed.

(** One unreadable entry spoils the sum.  When some entry of
    [fixed_costs_monthly] is read as NaN, the seeded fixed cost is NaN,
    however many good entries surround it, and the calculator shows
    unbounded. *)
Theorem seed_with_NaN_entry (fb : FinancialBreakdown) :
  Exists (fun c => parseCurrency c = NaN) (fixed_costs_monthly fb) ->
  customFixedCost (seed fb) = NaN
  /\ shown (seed fb) = ShownUnbounded.
Proof.
  intros Hex.
  assert (Hnan : forall costs,
    fold_left (fun acc str => add acc (parseCurrency str)) costs NaN = NaN).
  { induction costs as [|c costs IH]; [reflexivity|]. cbn [fold_left]. exact IH. }
  assert (Hsum : customFixedCost (seed fb) = NaN).
  { cbn [seed customFixedCost]. unfold totalFixedCost. generalize (of_Z 0).
    induction Hex as [c costs Hc|c costs _ IH]; intros acc; cbn [fold_left].
    - rewrite Hc.
      replace (add acc NaN) with NaN by (by destruct acc). apply Hnan.
    - apply IH. }
  split; [exact Hsum|]. unfold shown. rewrite Hsum.
  apply breakEvenDisplay_unbounded. unfold breakEvenUnits.
  by destruct (sub _ _).
Qed.

(** *** More on [parseCurrency] *)

Lemma match_run_skip (prefix s : string) :
  all_chars (fun c => negb (in_class c)) prefix = true ->
  match_run (prefix +:+ s) = match_run s.
Proof.
  induction prefix as [|c r IH]; [reflexivity|]. simpl. intros H.
  apply andb_prop in H as [Hc Hr]. apply negb_true_iff in Hc.
  change (String c r +:+ s) with (String c (r +:+ s)). simpl.
  rewrite Hc. by apply IH.
Qed.

(** Text before the amount does not matter: a currency sign, a label or
    any other text without digits, commas and periods in front of a
    string leaves the number read from it unchanged. *)
Theorem parseCurrency_skips_leading_text (prefix s : string) :
  all_chars (fun c => negb (in_class c)) prefix = true ->
  parseCurrency (prefix +:+ s) = parseCurrency s.
Proof.
  intros Hp. unfold parseCurrency. rewrite (match_run_skip prefix s Hp).
  destruct s as [|c r].
  - simpl. by destruct (negb (truthy (prefix +:+ ""))).
  - assert (Ht : truthy (prefix +:+ String c r) = true) by (by destruct prefix).
    by rewrite Ht.
Qed.

(** No amount is read as negative: the result of [parseCurrency] is NaN
    or carries a plus sign, so a minus sign in front of the digits is
    lost. *)
Theorem parseCurrency_never_negative (s : string) :
  signed_or_nan false (parseCurrency s).
Proof.
  unfold parseCurrency. destruct (negb (truthy s)); [reflexivity|].
  destruct (match_run s) as [m|]; [|reflexivity].
  apply parseFloat_signed.
Qed.

End CalculatorProperties.

Section CalculatorWitnesses.
Import Calculator.

Lemma seed_without_fixed_costs_witness :
  customFixedCost
    (seed {| fixed_costs_monthly := ["Rent: varies"; "Salaries: none yet"];
             variable_costs_per_unit := "₹6 per cup";
             profit_margin_per_unit := "₹4 per cup";
             break_even_analysis := "";
             break_even_learn_more_url := None;
             financial_projections_year_1 := [] |}) = of_Z 0
  /\ shown
       (seed {| fixed_costs_monthly := ["Rent: varies"; "Salaries: none yet"];
                variable_costs_per_unit := "₹6 per cup";
                profit_margin_per_unit := "₹4 per cup";
                break_even_analysis := "";
                break_even_learn_more_url := None;
                financial_projections_year_1 := [] |}) = ShownUnbounded.
Proof.
  apply seed_without_fixed_costs. repeat constructor.
Defined.

Lemma seed_without_margin_witness :
  let fb := {| fixed_costs_monthly := ["Rent: ₹8,000"];
               variable_costs_per_unit := "₹6 per cup";
               profit_margin_per_unit := "varies";
               break_even_analysis := "";
               break_even_learn_more_url := None;
               financial_projections_year_1 := [] |} in
  customPrice (seed fb) = customVariableCost (seed fb)
  /\ shown (seed fb) = ShownUnbounded.
Proof. intros fb. apply seed_without_margin. reflexivity. Defined.

Lemma seed_with_NaN_entry_witness :
  customFixedCost
    (seed {| fixed_costs_monthly := ["Rent: ₹8,000"; "Rs. 500 per month"; "₹1,500"];
             variable_costs_per_unit := "₹6 per cup";
             profit_margin_per_unit := "₹4 per cup";
             break_even_analysis := "";
             break_even_learn_more_url := None;
             financial_projections_year_1 := [] |}) = NaN
  /\ shown
       (seed {| fixed_costs_monthly := ["Rent: ₹8,000"; "Rs. 500 per month"; "₹1,500"];
                variable_costs_per_unit := "₹6 per cup";
                profit_margin_per_unit := "₹4 per cup";
                break_even_analysis := "";
                break_even_learn_more_url := None;
                financial_projections_year_1 := [] |}) = ShownUnbounded.
Proof.
  apply seed_with_NaN_entry. apply Exists_cons_tl, Exists_cons_hd.
  vm_compute. reflexivity.
Defined.

Lemma parseCurrency_skips_leading_text_witness :
  parseCurrency ("Rent: ₹" +:+ "8,000 per month") = parseCurrency "8,000 per month".
Proof. apply parseCurrency_skips_leading_text. reflexivity. Defined.

End CalculatorWitnesses.

(** ** The cash-flow chart and dictation *)

Section ChartProperties.
Import CashFlow.

(** The chart can be drawn for a plan without projections and for one
    with six or more; with one to five projections drawing the first bar
    throws, because every bar is scaled by the revenue of the sixth
    month.  When it can be drawn it has a bar for each of the first six
    months and no more. *)
Theorem revenueBars_needs_six (projections : list MonthlyProjection) :
  (revenueBars projections = None
   <-> (0 < length projections < 6)%nat)
  /\ (forall bars, revenueBars projections = Some bars ->
        length bars = Nat.min 6 (length projections)).
Proof.
  unfold revenueBars.
  pose proof (length_take projections 6) as Htake.
  destruct (projections !! 5) as [sixth|] eqn:H5.
  - pose proof (lookup_lt_Some _ _ _ H5) as Hlen.
    destruct (take 6 projections) as [|p rest] eqn:Ht; cbn [length] in Htake.
    + lia.
    + split; [split; [discriminate | intros ?; lia]|].
      intros bars [= <-]. cbn [map length]. rewrite length_map. lia.
  - pose proof (lookup_ge_None_1 _ _ H5) as Hlen.
    destruct (take 6 projections) as [|p rest] eqn:Ht; cbn [length] in Htake.
    + split; [split; [discriminate | intros ?; lia]|].
      intros bars [= <-]. cbn [length]. lia.
    + split; [split; [intros _; lia | reflexivity]|]. discriminate.
Qed.

End ChartProperties.

Section SpeechProperties.
Import Speech.

Lemma concat_app (xs ys : list string) :
  concat (xs ++ ys) = concat xs +:+ concat ys.
Proof.
  induction xs as [|x xs IH]; [reflexivity|].
  cbn [app concat]. by rewrite IH, append_assoc.
Qed.

Lemma filter_keeps (b : bool) (rs : list Result) :
  Forall (fun r => isFinal r = b) rs ->
  filter (fun r => isFinal r = b) rs = rs.
Proof.
  induction 1 as [|r rs Hr _ IH]; [reflexivity|].
  rewrite filter_cons_True by done. by rewrite IH.
Qed.

Lemma filter_drops (b : bool) (rs : list Result) :
  Forall (fun r => isFinal r <> b) rs ->
  filter (fun r => isFinal r = b) rs = [].
Proof.
  induction 1 as [|r rs Hr _ IH]; [reflexivity|].
  by rewrite filter_cons_False.
Qed.

(** What dictation leaves in the transcript.  Results before
    [resultIndex] are dropped and the previous transcript is not kept.
    When among the remaining results the final ones come before the
    interim ones, as they do while one phrase is being recognised, the
    transcript is their texts joined in order; in general the final
    texts are moved in front of the interim ones. *)
Theorem onresult_joins_fresh_results (resultIndex : nat)
    (results finals interims : list Result) :
  drop resultIndex results = finals ++ interims ->
  Forall (fun r => isFinal r = true) finals ->
  Forall (fun r => isFinal r = false) interims ->
  onresult resultIndex results
  = concat (map transcript (drop resultIndex results)).
Proof.
  intros Hfresh Hf Hi. unfold onresult. rewrite Hfresh, !filter_app.
  rewrite (filter_keeps true finals Hf), (filter_keeps false interims Hi).
  rewrite (filter_drops true interims), (filter_drops false finals).
  - rewrite app_nil_r. cbn [app]. by rewrite map_app, concat_app.
  - eapply Forall_impl; [exact Hf|]. simpl. congruence.
  - eapply Forall_impl; [exact Hi|]. simpl. congruence.
Qed.

(** An interim result that precedes a final one is moved behind it: the
    transcript is then not the texts in the order they were spoken. *)
Theorem onresult_moves_finals_first (interim final : Result) :
  isFinal interim = false -> isFinal final = true ->
  onresult 0 [interim; final] = transcript final +:+ transcript interim.
Proof.
  intros Hi Hf. unfold onresult. cbn [drop].
  destruct interim as [fi ti], final as [ff tf]. simpl in Hi, Hf. subst fi ff.
  cbn. repeat case_decide; try discriminate; try congruence.
  cbn [map concat transcript]. by rewrite !append_empty_r.
Qed.

End SpeechProperties.

Section ChartWitnesses.

Lemma onresult_joins_witness :
  Speech.onresult 1
    [{| Speech.isFinal := true; Speech.transcript := "old phrase " |};
     {| Speech.isFinal := true; Speech.transcript := "tea stall " |};
     {| Speech.isFinal := false; Speech.transcript := "in Indira" |}]
  = Speech.concat
      (map Speech.transcript
         (drop 1
            [{| Speech.isFinal := true; Speech.transcript := "old phrase " |};
             {| Speech.isFinal := true; Speech.transcript := "tea stall " |};
             {| Speech.isFinal := false; Speech.transcript := "in Indira" |}])).
Proof.
  apply (onresult_joins_fresh_results 1 _
           [{| Speech.isFinal := true; Speech.transcript := "tea stall " |}]
           [{| Speech.isFinal := false; Speech.transcript := "in Indira" |}]).
  - reflexivity.
  - repeat constructor.
  - repeat constructor.
Defined.

Lemma onresult_moves_witness :
  Speech.onresult 0
    [{| Speech.isFinal := false; Speech.transcript := "in Indira" |};
     {| Speech.isFinal := true; Speech.transcript := "tea stall " |}]
  = "tea stall " +:+ "in Indira".
Proof.
  apply (onresult_moves_finals_first
           {| Speech.isFinal := false; Speech.transcript := "in Indira" |}
           {| Speech.isFinal := true; Speech.transcript := "tea stall " |});
    reflexivity.
Defined.

End ChartWitnesses.

(** ** The PDF export *)

Section ExportProperties.
Import PdfExport.
Variable pageWidth : number.
Variable splitTextToSize : string -> number -> string -> number -> list string.
Variable numberToString : number -> string.
Variable valueToString : option Json -> string.

Abbreviation addWrappedText := (PdfExport.addWrappedText pageWidth splitTextToSize).
Abbreviation wrapped := (PdfExport.wrapped pageWidth splitTextToSize).
Abbreviation checklistLine := (PdfExport.checklistLine pageWidth splitTextToSize).
Abbreviation fixedCostLine := (PdfExport.fixedCostLine pageWidth splitTextToSize).
Abbreviation strategyLine := (PdfExport.strategyLine pageWidth splitTextToSize).
Abbreviation legalEntry :=
  (PdfExport.legalEntry pageWidth splitTextToSize valueToString).
Abbreviation handleDownloadPDF :=
  (PdfExport.handleDownloadPDF pageWidth splitTextToSize numberToString
                               valueToString).

(** *** What each step draws *)

Lemma texts_addWrappedText (txt : string) (x margin size : Z) (color : Color)
    (style : string) (c : Cursor) :
  texts (addWrappedText txt x margin size color style c)
  = texts c ++ [wrapped txt margin size style].
Proof.
  destruct c as [d y]. unfold texts. cbn. by rewrite map_app.
Qed.

Lemma texts_down (dy : Z) (c : Cursor) : texts (down dy c) = texts c.
Proof. reflexivity. Qed.

Lemma texts_setFont (c : Cursor) (size : number) (color : Color)
    (style : string) :
  texts (setFont (fst c) size color style, snd c) = texts c.
Proof. reflexivity. Qed.

Lemma texts_breakAbove (limit : Z) (c : Cursor) :
  texts (breakAbove limit c) = texts c.
Proof. unfold breakAbove. by destruct (gtb (snd c) (of_Z limit)). Qed.

Lemma texts_label (txt : string) (x : Z) (c : Cursor) :
  texts (label txt x c) = texts c ++ [[txt]].
Proof. unfold texts. cbn. by rewrite map_app. Qed.

Lemma texts_fixedCosts (costs : list string) (c : Cursor) :
  texts (fold_left fixedCostLine costs c)
  = texts c ++ map (fun cost => wrapped ("• " +:+ cost) 30 10 "normal") costs.
Proof.
  revert c. induction costs as [|cost costs IH]; intros c; cbn [fold_left map].
  - by rewrite app_nil_r.
  - rewrite IH. unfold PdfExport.fixedCostLine.
    rewrite texts_addWrappedText, <- app_assoc. reflexivity.
Qed.

Lemma texts_checklist (steps : list string) (c : Cursor) :
  texts (fold_left checklistLine steps c)
  = texts c ++ map (fun step => wrapped ("[ ] " +:+ step) 20 11 "normal") steps.
Proof.
  revert c. induction steps as [|step steps IH]; intros c; cbn [fold_left map].
  - by rewrite app_nil_r.
  - rewrite IH. unfold PdfExport.checklistLine.
    rewrite texts_breakAbove, texts_addWrappedText, <- app_assoc. reflexivity.
Qed.

Lemma texts_strategies (items : list string) (c : Cursor) :
  texts (fold_left strategyLine items c)
  = texts c ++ map (fun s => wrapped ("• " +:+ s) 30 10 "normal") items.
Proof.
  revert c. induction items as [|s items IH]; intros c; cbn [fold_left map].
  - by rewrite app_nil_r.
  - rewrite IH. unfold PdfExport.strategyLine.
    rewrite texts_addWrappedText, <- app_assoc. reflexivity.
Qed.

Lemma texts_legal (reqs : list RegulatoryDetail) (c : Cursor) :
  texts (fold_left legalEntry reqs c)
  = texts c
    ++ flat_map
         (fun req : RegulatoryDetail =>
            [wrapped (valueToString (req !! "name")) 20 12 "bold";
             wrapped ("Steps: " +:+ valueToString (req !! "step_by_step"))
                     20 10 "normal";
             wrapped ("Est. Cost: " +:+ valueToString (req !! "estimated_cost"))
                     20 10 "normal"])
         reqs.
Proof.
  revert c. induction reqs as [|req reqs IH]; intros c; cbn [fold_left flat_map].
  - by rewrite app_nil_r.
  - rewrite IH. unfold PdfExport.legalEntry.
    rewrite texts_breakAbove, texts_down, !texts_addWrappedText, <- !app_assoc.
    reflexivity.
Qed.

(** What the exported document holds.  The texts are drawn in a fixed
    order: the title, the concept and the location; the financial lines;
    every fixed cost; the checklist heading and every checklist step;
    the legal heading and, for every requirement, its name, its steps and
    its cost; the market heading, the rent and the competitor pricing;
    and every growth strategy.  Each list is exported whole and in the
    plan's order, and nothing else of the plan is in the document: no
    vendor script, no optimisation suggestion, no processing time or
    document list of a requirement. *)
Theorem export_contents (plan : BusinessPlan) :
  map lines (drawn (handleDownloadPDF plan))
  = [wrapped "NirmaanAI Business Execution Plan" 20 24 "bold";
     wrapped ("Business Concept: " +:+ idea_summary plan) 20 14 "bold";
     wrapped ("Location: " +:+ target_location plan) 20 12 "normal";
     wrapped "Financial Analysis" 20 16 "bold";
     wrapped ("Investment Range: " +:+ currency (budget_estimate plan) +:+ " "
              +:+ numberToString (min (budget_estimate plan)) +:+ " - "
              +:+ numberToString (max (budget_estimate plan)))
             20 11 "normal";
     wrapped ("Daily Profit Estimate: " +:+ estimated_daily_profit plan)
             20 11 "normal";
     wrapped ("Break-Even Analysis: "
              +:+ break_even_analysis (financial_breakdown plan))
             20 11 "italic";
     ["Estimated Fixed Monthly Costs:"]]
    ++ map (fun cost => wrapped ("• " +:+ cost) 30 10 "normal")
           (fixed_costs_monthly (financial_breakdown plan))
    ++ [wrapped "Execution Checklist" 20 16 "bold"]
    ++ map (fun step => wrapped ("[ ] " +:+ step) 20 11 "normal")
           (setup_checklist plan)
    ++ [wrapped "Legal & Compliance Roadmap" 20 16 "bold"]
    ++ flat_map
         (fun req : RegulatoryDetail =>
            [wrapped (valueToString (req !! "name")) 20 12 "bold";
             wrapped ("Steps: " +:+ valueToString (req !! "step_by_step"))
                     20 10 "normal";
             wrapped ("Est. Cost: " +:+ valueToString (req !! "estimated_cost"))
                     20 10 "normal"])
         (legal_requirements plan)
    ++ [wrapped "Market Intelligence" 20 16 "bold";
        wrapped ("Rent Estimate: " +:+ rental_costs (market_insights plan))
                20 11 "normal";
        wrapped ("Competitor Pricing: "
                 +:+ competitor_pricing (market_insights plan))
                20 11 "normal";
        ["Growth Strategies:"]]
    ++ map (fun s => wrapped ("• " +:+ s) 30 10 "normal")
           (marketing_strategy plan).
Proof.
  match goal with |- _ = ?r => set (rhs := r) end.
  unfold PdfExport.handleDownloadPDF.
  match goal with
  | |- map lines (drawn (fst ?c)) = _ => change (texts c = rhs)
  end.
  cbv beta zeta delta [marketSection legalSection checklistSection
                       fixedCostsSection summarySection].
  rewrite texts_strategies, texts_down, texts_label, texts_down,
    !texts_addWrappedText, texts_breakAbove.
  rewrite texts_legal, texts_addWrappedText, texts_breakAbove.
  rewrite texts_down, texts_checklist, texts_addWrappedText, texts_breakAbove.
  rewrite texts_down, texts_fixedCosts, texts_down, texts_label.
  rewrite texts_setFont.
  rewrite !texts_down, !texts_addWrappedText, !texts_down, !texts_addWrappedText,
    !texts_down, !texts_addWrappedText.
  subst rhs. rewrite <- !app_assoc. reflexivity.
Qed.

(** *** Pages *)

Lemma page_addWrappedText (txt : string) (x margin size : Z) (color : Color)
    (style : string) (c : Cursor) :
  page (fst (addWrappedText txt x margin size color style c)) = page (fst c).
Proof. by destruct c. Qed.

Lemma page_breakAbove (limit : Z) (c : Cursor) :
  page (fst c) <= page (fst (breakAbove limit c)) <= S (page (fst c)).
Proof.
  unfold breakAbove. destruct (gtb (snd c) (of_Z limit)); cbn; lia.
Qed.

Lemma page_fixedCosts (costs : list string) (c : Cursor) :
  page (fst (fold_left fixedCostLine costs c)) = page (fst c).
Proof.
  revert c. induction costs as [|cost costs IH]; intros c; cbn [fold_left].
  - reflexivity.
  - rewrite IH. apply page_addWrappedText.
Qed.

Lemma page_strategies (items : list string) (c : Cursor) :
  page (fst (fold_left strategyLine items c)) = page (fst c).
Proof.
  revert c. induction items as [|s items IH]; intros c; cbn [fold_left].
  - reflexivity.
  - rewrite IH. apply page_addWrappedText.
Qed.

Lemma page_checklist (steps : list string) (c : Cursor) :
  page (fst c) <= page (fst (fold_left checklistLine steps c))
               <= page (fst c) + length steps.
Proof.
  revert c. induction steps as [|step steps IH]; intros c;
    cbn [fold_left length].
  - lia.
  - specialize (IH (checklistLine c step)).
    assert (Hb : page (fst c) <= page (fst (checklistLine c step))
                              <= S (page (fst c))).
    { unfold PdfExport.checklistLine.
      pose proof (page_breakAbove 280
        (addWrappedText ("[ ] " +:+ step) 10 20 11 black "normal" c)) as Hb.
      rewrite page_addWrappedText in Hb. exact Hb. }
    lia.
Qed.

Lemma page_legal (reqs : list RegulatoryDetail) (c : Cursor) :
  page (fst c) <= page (fst (fold_left legalEntry reqs c))
               <= page (fst c) + length reqs.
Proof.
  revert c. induction reqs as [|req reqs IH]; intros c; cbn [fold_left length].
  - lia.
  - specialize (IH (legalEntry c req)).
    assert (Hb : page (fst c) <= page (fst (legalEntry c req))
                              <= S (page (fst c))).
    { unfold PdfExport.legalEntry. cbv zeta.
      match goal with
      | |- context [breakAbove 280 ?c'] =>
          pose proof (page_breakAbove 280 c') as Hb
      end.
      cbn [down fst] in Hb. rewrite !page_addWrappedText in Hb. exact Hb. }
    lia.
Qed.

Lemma pagesOf_addWrappedText (txt : string) (x margin size : Z) (color : Color)
    (style : string) (c : Cursor) :
  pagesOf (addWrappedText txt x margin size color style c)
  = pagesOf c ++ [page (fst c)].
Proof. destruct c as [d y]. unfold pagesOf. cbn. by rewrite map_app. Qed.

Lemma pagesOf_down (dy : Z) (c : Cursor) : pagesOf (down dy c) = pagesOf c.
Proof. reflexivity. Qed.

Lemma page_down (dy : Z) (c : Cursor) :
  page (fst (down dy c)) = page (fst c).
Proof. reflexivity. Qed.

Lemma page_label (txt : string) (x : Z) (c : Cursor) :
  page (fst (label txt x c)) = page (fst c).
Proof. reflexivity. Qed.

Lemma pagesOf_setFont (c : Cursor) (size : number) (color : Color)
    (style : string) :
  pagesOf (setFont (fst c) size color style, snd c) = pagesOf c.
Proof. reflexivity. Qed.

Lemma page_setFont (c : Cursor) (size : number) (color : Color)
    (style : string) :
  page (fst (setFont (fst c) size color style, snd c)) = page (fst c).
Proof. reflexivity. Qed.

Lemma pagesOf_label (txt : string) (x : Z) (c : Cursor) :
  pagesOf (label txt x c) = pagesOf c ++ [page (fst c)].
Proof. unfold pagesOf. cbn. by rewrite map_app. Qed.

Lemma pagesOf_breakAbove (limit : Z) (c : Cursor) :
  pagesOf (breakAbove limit c) = pagesOf c.
Proof. unfold breakAbove. by destruct (gtb (snd c) (of_Z limit)). Qed.

Lemma pagesOf_fixedCosts (costs : list string) (c : Cursor) :
  pagesOf (fold_left fixedCostLine costs c)
  = pagesOf c ++ replicate (length costs) (page (fst c)).
Proof.
  revert c. induction costs as [|cost costs IH]; intros c;
    cbn [fold_left length replicate].
  - by rewrite app_nil_r.
  - rewrite IH. unfold PdfExport.fixedCostLine.
    rewrite pagesOf_addWrappedText, page_addWrappedText, <- app_assoc.
    reflexivity.
Qed.

Lemma pagesOf_strategies (items : list string) (c : Cursor) :
  pagesOf (fold_left strategyLine items c)
  = pagesOf c ++ replicate (length items) (page (fst c)).
Proof.
  revert c. induction items as [|s items IH]; intros c;
    cbn [fold_left length replicate].
  - by rewrite app_nil_r.
  - rewrite IH. unfold PdfExport.strategyLine.
    rewrite pagesOf_addWrappedText, page_addWrappedText, <- app_assoc.
    reflexivity.
Qed.

Lemma pagesOf_checklist (steps : list string) (c : Cursor) :
  pagesOf c `prefix_of` pagesOf (fold_left checklistLine steps c).
Proof.
  revert c. induction steps as [|step steps IH]; intros c; cbn [fold_left].
  - reflexivity.
  - etrans; [|apply IH]. unfold PdfExport.checklistLine.
    rewrite pagesOf_breakAbove, pagesOf_addWrappedText.
    by apply prefix_app_r.
Qed.

Lemma pagesOf_legal (reqs : list RegulatoryDetail) (c : Cursor) :
  pagesOf c `prefix_of` pagesOf (fold_left legalEntry reqs c).
Proof.
  revert c. induction reqs as [|req reqs IH]; intros c; cbn [fold_left].
  - reflexivity.
  - etrans; [|apply IH]. unfold PdfExport.legalEntry. cbv zeta.
    rewrite pagesOf_breakAbove.
    change (pagesOf (down 4 ?c')) with (pagesOf c').
    rewrite !pagesOf_addWrappedText, <- !app_assoc.
    by apply prefix_app_r.
Qed.

Lemma page_first_sections (plan : BusinessPlan) :
  page (fst (fixedCostsSection pageWidth splitTextToSize plan
               (summarySection pageWidth splitTextToSize numberToString plan
                               (newDoc, of_Z 20)))) = 1.
Proof.
  cbv beta zeta delta [fixedCostsSection summarySection].
  rewrite page_down, page_fixedCosts, page_down, page_label, page_setFont.
  repeat first [rewrite page_down | rewrite page_addWrappedText].
  reflexivity.
Qed.

Lemma pagesOf_first_sections (plan : BusinessPlan) :
  pagesOf (fixedCostsSection pageWidth splitTextToSize plan
             (summarySection pageWidth splitTextToSize numberToString plan
                             (newDoc, of_Z 20)))
  = replicate (8 + length (fixed_costs_monthly (financial_breakdown plan))) 1.
Proof.
  cbv beta zeta delta [fixedCostsSection summarySection].
  rewrite pagesOf_down, pagesOf_fixedCosts, page_down, pagesOf_down,
    page_label, pagesOf_label, page_setFont, pagesOf_setFont.
  repeat first
    [ rewrite pagesOf_down | rewrite page_down
    | rewrite pagesOf_addWrappedText | rewrite page_addWrappedText ].
  change (pagesOf (newDoc, of_Z 20)) with (@nil nat).
  change (page (fst (newDoc, of_Z 20))) with 1.
  rewrite <- !app_assoc. reflexivity.
Qed.

Lemma pagesOf_later_sections (plan : BusinessPlan) (c : Cursor) :
  pagesOf c
  `prefix_of`
  pagesOf (marketSection pageWidth splitTextToSize plan
             (legalSection pageWidth splitTextToSize valueToString plan
                (checklistSection pageWidth splitTextToSize plan c))).
Proof.
  cbv beta zeta delta [marketSection legalSection checklistSection].
  rewrite pagesOf_strategies, pagesOf_down, pagesOf_label, pagesOf_down,
    !pagesOf_addWrappedText, pagesOf_breakAbove.
  rewrite <- !app_assoc. apply prefix_app_r.
  etrans; [|apply pagesOf_legal].
  rewrite pagesOf_addWrappedText, pagesOf_breakAbove.
  apply prefix_app_r. rewrite pagesOf_down.
  etrans; [|apply pagesOf_checklist].
  rewrite pagesOf_addWrappedText, pagesOf_breakAbove.
  by apply prefix_app_r.
Qed.

(** The export starts a page only at the three section headings after
    the financial part and after a checklist step or a legal entry: the
    document has at most [4 + checklist steps + legal entries] pages,
    whatever the texts wrap to.  Fixed costs and growth strategies never
    start one. *)
Theorem export_page_count (plan : BusinessPlan) :
  1 <= page (handleDownloadPDF plan)
    <= 4 + length (setup_checklist plan) + length (legal_requirements plan).
Proof.
  pose proof (page_first_sections plan) as H0.
  unfold PdfExport.handleDownloadPDF.
  set (c0 := fixedCostsSection _ _ plan _) in *.
  cbv beta zeta delta [marketSection legalSection checklistSection].
  rewrite page_strategies, page_down, page_label, page_down,
    !page_addWrappedText.
  set (c1 := fold_left checklistLine _ _).
  set (c2 := fold_left legalEntry _ _).
  pose proof (page_breakAbove 250 c2) as H3.
  pose proof (page_legal (legal_requirements plan)
    (addWrappedText "Legal & Compliance Roadmap" 10 20 16 black "bold"
       (breakAbove 250 (down 10 c1)))) as HL.
  fold c2 in HL. rewrite page_addWrappedText in HL.
  pose proof (page_breakAbove 250 (down 10 c1)) as H2.
  rewrite page_down in H2.
  pose proof (page_checklist (setup_checklist plan)
    (addWrappedText "Execution Checklist" 10 20 16 black "bold"
       (breakAbove 250 c0))) as HC.
  fold c1 in HC. rewrite page_addWrappedText in HC.
  pose proof (page_breakAbove 250 c0) as H1.
  lia.
Qed.

(** The header, the summary, the financial lines and every fixed cost are
    put on the first page, however many fixed costs the plan has and
    however many lines they wrap to: before the checklist heading the
    export never starts a page. *)
Theorem export_first_page (plan : BusinessPlan) :
  let n := 8 + length (fixed_costs_monthly (financial_breakdown plan)) in
  take n (map onPage (drawn (handleDownloadPDF plan))) = replicate n 1.
Proof.
  intros n.
  pose proof (pagesOf_first_sections plan) as H0. fold n in H0.
  unfold PdfExport.handleDownloadPDF.
  set (c0 := fixedCostsSection _ _ plan _) in *.
  destruct (pagesOf_later_sections plan c0) as [k Hk].
  unfold pagesOf at 1 in Hk. rewrite Hk, H0.
  rewrite take_app_length'; [reflexivity|].
  by rewrite length_replicate.
Qed.

(** *** Positions *)

Lemma drawn_breakAbove (limit : Z) (c : Cursor) :
  drawn (fst (breakAbove limit c)) = drawn (fst c).
Proof. unfold breakAbove. by destruct (gtb (snd c) (of_Z limit)). Qed.

Lemma breakAbove_not_above (c : Cursor) :
  gtb (snd (breakAbove 280 c)) (of_Z 280) = false.
Proof.
  unfold breakAbove. destruct (gtb (snd c) (of_Z 280)) eqn:E; [|exact E].
  change (gtb (of_Z 20) (of_Z 280) = false). by vm_compute.
Qed.

Lemma drawn_addWrappedText (txt : string) (x margin size : Z) (color : Color)
    (style : string) (c : Cursor) :
  drawn (fst (addWrappedText txt x margin size color style c))
  = drawn (fst c)
    ++ [{| onPage := page (fst c); lines := wrapped txt margin size style;
           atX := of_Z x; atY := snd c; withSize := of_Z size;
           withColor := color; withStyle := style |}].
Proof. destruct c as [d y]. reflexivity. Qed.

Lemma checklist_positions (steps : list string) (c : Cursor) :
  gtb (snd c) (of_Z 280) = false ->
  exists l : list Drawn,
    drawn (fst (fold_left checklistLine steps c)) = drawn (fst c) ++ l
    /\ length l = length steps
    /\ Forall (fun d => gtb (atY d) (of_Z 280) = false) l.
Proof.
  revert c. induction steps as [|step steps IH]; intros c Hc; cbn [fold_left].
  - exists []. by rewrite app_nil_r.
  - destruct (IH (checklistLine c step)) as (l & Hl & Hn & Hall).
    { apply breakAbove_not_above. }
    rewrite Hl. unfold PdfExport.checklistLine at 1.
    rewrite drawn_breakAbove, drawn_addWrappedText, <- app_assoc.
    eexists (_ :: l). split; [reflexivity|]. split.
    + cbn [length]. by rewrite Hn.
    + constructor; [exact Hc | exact Hall].
Qed.

(** In the checklist loop the page is broken after a step, when the
    running [y] has passed 280: so every step but the first is put at a
    [y] that is not greater than 280, wherever the loop starts and
    however many lines a step wraps to.  Only the first step, and the
    lines a step wraps to, can lie beyond it. *)
Theorem checklist_steps_start_above_break (c : Cursor) (step : string)
    (steps : list string) :
  let later := drop (S (length (drawn (fst c))))
                    (drawn (fst (fold_left checklistLine (step :: steps) c))) in
  length later = length steps
  /\ Forall (fun d => gtb (atY d) (of_Z 280) = false) later.
Proof.
  cbn [fold_left].
  destruct (checklist_positions steps (checklistLine c step)
              (breakAbove_not_above _)) as (l & Hl & Hn & Hall).
  rewrite Hl. unfold PdfExport.checklistLine.
  rewrite drawn_breakAbove, drawn_addWrappedText.
  match goal with
  | |- context [(drawn (fst c) ++ [?e]) ++ l] =>
      replace (S (length (drawn (fst c))))
        with (length (drawn (fst c) ++ [e]))
        by (rewrite length_app; cbn [length]; lia)
  end.
  cbv zeta. rewrite !drop_app_length. split; [exact Hn | exact Hall].
Qed.

End ExportProperties.
